(** * EthernetManager: connection state machine of the ESP32 Ethernet manager

    A shallow embedding of [src/EthernetManager.cpp] and [EthernetManager.h]:
    the singleton's fields are a record, every static method is a function
    on a [World] (the singleton, the clock behind [millis()], the platform
    the manager drives, and the calls that leave the manager), and the
    properties of the specification are stated over these functions.

    Conventions
    - [uint32_t]/[unsigned long] values are [Z] in [0, 2^32) and every
      arithmetic operation of the source is followed by [u32]; [uint8_t]
      likewise with [u8]; [int8_t] arguments are plain [Z].
    - A FreeRTOS handle is an [option]: [None] is the null handle.
    - Logging macros ([ETH_LOG_*], [logEthernetStatus]) write no field of the
      manager and are left out.
    - User callbacks are opaque: calling one is recorded in the trace, and a
      callback is taken not to call back into the manager.
    - The Arduino 3.x branch of the two [#if] blocks is the one embedded. *)

From Stdlib Require Import ZArith List Bool String Lia.
From Stdlib Require Import DecimalString.
Import ListNotations.
Open Scope Z_scope.

(** ** Machine integers *)

Definition u32 (x : Z) : Z := x mod 2 ^ 32.
Definition u8 (x : Z) : Z := x mod 2 ^ 8.
Definition UINT32_MAX : Z := 2 ^ 32 - 1.

(** ** EthernetManagerConfig.h *)

Definition ETH_INIT_TIMEOUT_MS : Z := 5000.
Definition ETH_CONNECTION_TRUST_WINDOW_MS : Z := 3000.
Definition ETH_MAX_PHY_ADDRESS : Z := 31.
Definition ETH_MAX_HOSTNAME_LENGTH : nat := 63.
Definition ETH_MAC_ADDRESS_SIZE : nat := 6.
Definition ETH_WAIT_CHUNK_MS : Z := 100.

(** Platform constants the source takes from ESP-IDF headers.
    [GPIO_NUM_MAX] is 40 on the ESP32 (the compile-time checks of
    EthernetManagerConfig.h reject pins [>= 40]); the event identifiers are
    those of [eth_event_t], and [IP_EVENT_GOT_IP] is the fallback value the
    source defines itself. *)
Definition GPIO_NUM_MAX : Z := 40.
Definition ETHERNET_EVENT_START : Z := 0.
Definition ETHERNET_EVENT_STOP : Z := 1.
Definition ETHERNET_EVENT_CONNECTED : Z := 2.
Definition ETHERNET_EVENT_DISCONNECTED : Z := 3.
Definition IP_EVENT_GOT_IP : Z := 4.

(** ** EthernetManager.h: enumerations and plain structures *)

Inductive EthError : Type :=
| OK
| INVALID_PARAMETER
| MUTEX_TIMEOUT
| ALREADY_INITIALIZED
| NOT_INITIALIZED
| PHY_START_FAILED
| CONFIG_FAILED
| CONNECTION_TIMEOUT
| EVENT_HANDLER_FAILED
| MEMORY_ALLOCATION_FAILED
| NETIF_ERROR
| UNKNOWN_ERROR.

(** [EthResult<void>]: [ok()] or the error the result was built from. *)
Inductive EthResult : Type :=
| ResOk
| ResErr (e : EthError).

Inductive EthConnectionState : Type :=
| UNINITIALIZED
| PHY_STARTING
| LINK_DOWN
| LINK_UP
| OBTAINING_IP
| CONNECTED
| DISCONNECTING
| ERROR_STATE.

Definition state_eqb (a b : EthConnectionState) : bool :=
  match a, b with
  | UNINITIALIZED, UNINITIALIZED | PHY_STARTING, PHY_STARTING
  | LINK_DOWN, LINK_DOWN | LINK_UP, LINK_UP | OBTAINING_IP, OBTAINING_IP
  | CONNECTED, CONNECTED | DISCONNECTING, DISCONNECTING
  | ERROR_STATE, ERROR_STATE => true
  | _, _ => false
  end.

(** Event bases are compared by pointer in the source; a handler can also
    be handed a base that is neither of the two it subscribed to. *)
Inductive esp_event_base_t : Type :=
| IP_EVENT
| ETH_EVENT
| OTHER_EVENT (name : string).

(** ** FreeRTOS objects *)

(** The bits of an event group. *)
Definition EventBits_t : Type := Z.
Definition BIT_CONNECTED : EventBits_t := 1.

Definition xEventGroupSetBits (g bitsToSet : EventBits_t) : EventBits_t :=
  Z.lor g bitsToSet.
Definition xEventGroupClearBits (g bitsToClear : EventBits_t) : EventBits_t :=
  Z.ldiff g bitsToClear.

(** A mutex as one caller sees it: free, or held by another task for longer
    than the caller is prepared to wait. *)
Inductive Semaphore : Type :=
| Free
| HeldElsewhere.

(** [MutexGuard guard(mutex, timeout); if (guard) ...] *)
Definition MutexGuard (mutex : option Semaphore) : bool :=
  match mutex with
  | Some Free => true
  | _ => false
  end.

(** A software timer: its period in milliseconds (the argument the source
    gives to [pdMS_TO_TICKS]) and whether it is running. *)
Record Timer : Type := mkTimer {
  period : Z;
  active : bool
}.

Definition xTimerStart (t : Timer) : Timer := mkTimer (period t) true.
Definition xTimerStop (t : Timer) : Timer := mkTimer (period t) false.
(** Changing the period of a timer also starts it. *)
Definition xTimerChangePeriod (t : Timer) (periodMs : Z) : Timer :=
  mkTimer periodMs true.
(** A one-shot timer that expires is dormant until it is started again. *)
Definition expire (t : Timer) : Timer := mkTimer (period t) false.

(** ** The world around the manager *)

(** A registered [std::function]; two callbacks are told apart by a tag. *)
Definition Callback : Type := nat.

(** Calls that leave the manager. *)
Inductive Effect : Type :=
| EthSetHostname (hostname : string)
| EthBegin (phy_addr mdc_pin mdio_pin power_pin clock_mode : Z)
| EthConfig (local_ip gateway subnet dns1 dns2 : Z) (mac : option (list Z))
| EventHandlerRegister (base : esp_event_base_t)
| EventHandlerUnregister (base : esp_event_base_t)
| NetifSetHostname (hostname : string)
| CallConnected (cb : Callback) (ip : Z)
| CallDisconnected (cb : Callback) (duration : Z)
| CallStateChange (cb : Callback) (oldState newState : EthConnectionState)
| CallLinkStatus (cb : Callback) (linkUp : bool).

(** What the transceiver driver and ESP-IDF answer. *)
Record Platform : Type := mkPlatform {
  eth_begin_result : bool;       (* ETH.begin(...) *)
  eth_config_result : bool;      (* ETH.config(...) *)
  eth_linkUp : bool;             (* ETH.linkUp() *)
  eth_localIP : Z;               (* ETH.localIP() *)
  netif_handle : option Z;       (* esp_netif_get_handle_from_ifkey("ETH_DEF") *)
  netif_hostname : option string;(* esp_netif_get_hostname *)
  event_loop_ok : bool;          (* esp_event_loop_create_default: OK or INVALID_STATE *)
  register_ip_ok : bool;         (* esp_event_handler_register(IP_EVENT, ...) *)
  register_eth_ok : bool;        (* esp_event_handler_register(ETH_EVENT, ...) *)
  event_group_alloc : bool;      (* xEventGroupCreate succeeds *)
  mutex_alloc : bool;            (* xSemaphoreCreateMutex succeeds *)
  timer_alloc : bool             (* xTimerCreate succeeds *)
}.

(** [xTimerCreate]: a dormant timer, or a null handle when the timer
    cannot be allocated.  FreeRTOS asks for a positive period; the
    statements about created timers assume one. *)
Definition xTimerCreate (p : Platform) (periodMs : Z) : option Timer :=
  if timer_alloc p then Some (mkTimer periodMs false) else None.

Definition INADDR_NONE : Z := 0.

Record NetworkStats : Type := mkStats {
  connectTime : Z;
  disconnectCount : Z;
  reconnectCount : Z;
  txPackets : Z;
  rxPackets : Z;
  txBytes : Z;
  rxBytes : Z;
  linkDownEvents : Z;
  dhcpRenewals : Z;
  lastErrorCode : Z;
  uptimeMs : Z
}.

Definition set_connectTime (v : Z) (st : NetworkStats) : NetworkStats :=
  mkStats
    v (disconnectCount st) (reconnectCount st) (txPackets st) (rxPackets st)
    (txBytes st) (rxBytes st) (linkDownEvents st) (dhcpRenewals st)
    (lastErrorCode st) (uptimeMs st).

Definition set_disconnectCount (v : Z) (st : NetworkStats) : NetworkStats :=
  mkStats
    (connectTime st) v (reconnectCount st) (txPackets st) (rxPackets st)
    (txBytes st) (rxBytes st) (linkDownEvents st) (dhcpRenewals st)
    (lastErrorCode st) (uptimeMs st).

Definition set_reconnectCount (v : Z) (st : NetworkStats) : NetworkStats :=
  mkStats
    (connectTime st) (disconnectCount st) v (txPackets st) (rxPackets st)
    (txBytes st) (rxBytes st) (linkDownEvents st) (dhcpRenewals st)
    (lastErrorCode st) (uptimeMs st).

Definition set_linkDownEvents (v : Z) (st : NetworkStats) : NetworkStats :=
  mkStats
    (connectTime st) (disconnectCount st) (reconnectCount st) (txPackets st)
    (rxPackets st) (txBytes st) (rxBytes st) v (dhcpRenewals st)
    (lastErrorCode st) (uptimeMs st).

Definition set_uptimeMs (v : Z) (st : NetworkStats) : NetworkStats :=
  mkStats
    (connectTime st) (disconnectCount st) (reconnectCount st) (txPackets st)
    (rxPackets st) (txBytes st) (rxBytes st) (linkDownEvents st)
    (dhcpRenewals st) (lastErrorCode st) v.


Record EthernetManager : Type := mkManager {
  (* Event group for tracking Ethernet state (None: null handle) *)
  ethEventGroup : option EventBits_t;
  (* Connection state tracking *)
  lastGotIpTime : Z;
  connectionStartTime : Z;
  gotIpAtLeastOnce : bool;
  phyStarted : bool;
  eventHandlersRegistered : bool;
  (* Custom MAC storage *)
  customMacAddress : list Z;
  hasCustomMac : bool;
  (* Cached handles *)
  eth_netif : option Z;
  netifCreated : bool;
  (* Mutex for thread safety *)
  ethMutex : option Semaphore;
  mutexCreated : bool;
  (* Error tracking *)
  lastError : EthError;
  (* Network statistics *)
  stats : NetworkStats;
  (* User callbacks *)
  connectedCallback : option Callback;
  disconnectedCallback : option Callback;
  stateChangeCallback : option Callback;
  linkStatusCallback : option Callback;
  (* Auto-reconnect settings (uint8 retries and attempts, uint32 delays) *)
  autoReconnectEnabled : bool;
  reconnectMaxRetries : Z;
  reconnectAttempts : Z;
  reconnectInitialDelay : Z;
  reconnectMaxDelay : Z;
  reconnectCurrentDelay : Z;
  reconnectTimer : option Timer;
  (* Connection state machine *)
  connectionState : EthConnectionState;
  previousState : EthConnectionState;
  (* Link monitoring *)
  linkMonitoringEnabled : bool;
  linkMonitoringInterval : Z;
  linkMonitorTimer : option Timer;
  lastLinkStatus : bool;
  (* Performance monitoring *)
  initStartTime : Z;
  linkUpTime : Z;
  ipObtainedTime : Z;
  totalEventCount : Z
}.

Definition set_ethEventGroup (v : option EventBits_t) (m : EthernetManager) : EthernetManager :=
  mkManager
    v (lastGotIpTime m) (connectionStartTime m) (gotIpAtLeastOnce m)
    (phyStarted m) (eventHandlersRegistered m) (customMacAddress m)
    (hasCustomMac m) (eth_netif m) (netifCreated m) (ethMutex m)
    (mutexCreated m) (lastError m) (stats m) (connectedCallback m)
    (disconnectedCallback m) (stateChangeCallback m) (linkStatusCallback m)
    (autoReconnectEnabled m) (reconnectMaxRetries m) (reconnectAttempts m)
    (reconnectInitialDelay m) (reconnectMaxDelay m) (reconnectCurrentDelay m)
    (reconnectTimer m) (connectionState m) (previousState m)
    (linkMonitoringEnabled m) (linkMonitoringInterval m) (linkMonitorTimer m)
    (lastLinkStatus m) (initStartTime m) (linkUpTime m) (ipObtainedTime m)
    (totalEventCount m).

Definition set_lastGotIpTime (v : Z) (m : EthernetManager) : EthernetManager :=
  mkManager
    (ethEventGroup m) v (connectionStartTime m) (gotIpAtLeastOnce m)
    (phyStarted m) (eventHandlersRegistered m) (customMacAddress m)
    (hasCustomMac m) (eth_netif m) (netifCreated m) (ethMutex m)
    (mutexCreated m) (lastError m) (stats m) (connectedCallback m)
    (disconnectedCallback m) (stateChangeCallback m) (linkStatusCallback m)
    (autoReconnectEnabled m) (reconnectMaxRetries m) (reconnectAttempts m)
    (reconnectInitialDelay m) (reconnectMaxDelay m) (reconnectCurrentDelay m)
    (reconnectTimer m) (connectionState m) (previousState m)
    (linkMonitoringEnabled m) (linkMonitoringInterval m) (linkMonitorTimer m)
    (lastLinkStatus m) (initStartTime m) (linkUpTime m) (ipObtainedTime m)
    (totalEventCount m).

Definition set_connectionStartTime (v : Z) (m : EthernetManager) : EthernetManager :=
  mkManager
    (ethEventGroup m) (lastGotIpTime m) v (gotIpAtLeastOnce m) (phyStarted m)
    (eventHandlersRegistered m) (customMacAddress m) (hasCustomMac m)
    (eth_netif m) (netifCreated m) (ethMutex m) (mutexCreated m)
    (lastError m) (stats m) (connectedCallback m) (disconnectedCallback m)
    (stateChangeCallback m) (linkStatusCallback m) (autoReconnectEnabled m)
    (reconnectMaxRetries m) (reconnectAttempts m) (reconnectInitialDelay m)
    (reconnectMaxDelay m) (reconnectCurrentDelay m) (reconnectTimer m)
    (connectionState m) (previousState m) (linkMonitoringEnabled m)
    (linkMonitoringInterval m) (linkMonitorTimer m) (lastLinkStatus m)
    (initStartTime m) (linkUpTime m) (ipObtainedTime m) (totalEventCount m).

Definition set_gotIpAtLeastOnce (v : bool) (m : EthernetManager) : EthernetManager :=
  mkManager
    (ethEventGroup m) (lastGotIpTime m) (connectionStartTime m) v
    (phyStarted m) (eventHandlersRegistered m) (customMacAddress m)
    (hasCustomMac m) (eth_netif m) (netifCreated m) (ethMutex m)
    (mutexCreated m) (lastError m) (stats m) (connectedCallback m)
    (disconnectedCallback m) (stateChangeCallback m) (linkStatusCallback m)
    (autoReconnectEnabled m) (reconnectMaxRetries m) (reconnectAttempts m)
    (reconnectInitialDelay m) (reconnectMaxDelay m) (reconnectCurrentDelay m)
    (reconnectTimer m) (connectionState m) (previousState m)
    (linkMonitoringEnabled m) (linkMonitoringInterval m) (linkMonitorTimer m)
    (lastLinkStatus m) (initStartTime m) (linkUpTime m) (ipObtainedTime m)
    (totalEventCount m).

Definition set_phyStarted (v : bool) (m : EthernetManager) : EthernetManager :=
  mkManager
    (ethEventGroup m) (lastGotIpTime m) (connectionStartTime m)
    (gotIpAtLeastOnce m) v (eventHandlersRegistered m) (customMacAddress m)
    (hasCustomMac m) (eth_netif m) (netifCreated m) (ethMutex m)
    (mutexCreated m) (lastError m) (stats m) (connectedCallback m)
    (disconnectedCallback m) (stateChangeCallback m) (linkStatusCallback m)
    (autoReconnectEnabled m) (reconnectMaxRetries m) (reconnectAttempts m)
    (reconnectInitialDelay m) (reconnectMaxDelay m) (reconnectCurrentDelay m)
    (reconnectTimer m) (connectionState m) (previousState m)
    (linkMonitoringEnabled m) (linkMonitoringInterval m) (linkMonitorTimer m)
    (lastLinkStatus m) (initStartTime m) (linkUpTime m) (ipObtainedTime m)
    (totalEventCount m).

Definition set_eventHandlersRegistered (v : bool) (m : EthernetManager) : EthernetManager :=
  mkManager
    (ethEventGroup m) (lastGotIpTime m) (connectionStartTime m)
    (gotIpAtLeastOnce m) (phyStarted m) v (customMacAddress m)
    (hasCustomMac m) (eth_netif m) (netifCreated m) (ethMutex m)
    (mutexCreated m) (lastError m) (stats m) (connectedCallback m)
    (disconnectedCallback m) (stateChangeCallback m) (linkStatusCallback m)
    (autoReconnectEnabled m) (reconnectMaxRetries m) (reconnectAttempts m)
    (reconnectInitialDelay m) (reconnectMaxDelay m) (reconnectCurrentDelay m)
    (reconnectTimer m) (connectionState m) (previousState m)
    (linkMonitoringEnabled m) (linkMonitoringInterval m) (linkMonitorTimer m)
    (lastLinkStatus m) (initStartTime m) (linkUpTime m) (ipObtainedTime m)
    (totalEventCount m).

Definition set_customMacAddress (v : list Z) (m : EthernetManager) : EthernetManager :=
  mkManager
    (ethEventGroup m) (lastGotIpTime m) (connectionStartTime m)
    (gotIpAtLeastOnce m) (phyStarted m) (eventHandlersRegistered m) v
    (hasCustomMac m) (eth_netif m) (netifCreated m) (ethMutex m)
    (mutexCreated m) (lastError m) (stats m) (connectedCallback m)
    (disconnectedCallback m) (stateChangeCallback m) (linkStatusCallback m)
    (autoReconnectEnabled m) (reconnectMaxRetries m) (reconnectAttempts m)
    (reconnectInitialDelay m) (reconnectMaxDelay m) (reconnectCurrentDelay m)
    (reconnectTimer m) (connectionState m) (previousState m)
    (linkMonitoringEnabled m) (linkMonitoringInterval m) (linkMonitorTimer m)
    (lastLinkStatus m) (initStartTime m) (linkUpTime m) (ipObtainedTime m)
    (totalEventCount m).

Definition set_hasCustomMac (v : bool) (m : EthernetManager) : EthernetManager :=
  mkManager
    (ethEventGroup m) (lastGotIpTime m) (connectionStartTime m)
    (gotIpAtLeastOnce m) (phyStarted m) (eventHandlersRegistered m)
    (customMacAddress m) v (eth_netif m) (netifCreated m) (ethMutex m)
    (mutexCreated m) (lastError m) (stats m) (connectedCallback m)
    (disconnectedCallback m) (stateChangeCallback m) (linkStatusCallback m)
    (autoReconnectEnabled m) (reconnectMaxRetries m) (reconnectAttempts m)
    (reconnectInitialDelay m) (reconnectMaxDelay m) (reconnectCurrentDelay m)
    (reconnectTimer m) (connectionState m) (previousState m)
    (linkMonitoringEnabled m) (linkMonitoringInterval m) (linkMonitorTimer m)
    (lastLinkStatus m) (initStartTime m) (linkUpTime m) (ipObtainedTime m)
    (totalEventCount m).

Definition set_eth_netif (v : option Z) (m : EthernetManager) : EthernetManager :=
  mkManager
    (ethEventGroup m) (lastGotIpTime m) (connectionStartTime m)
    (gotIpAtLeastOnce m) (phyStarted m) (eventHandlersRegistered m)
    (customMacAddress m) (hasCustomMac m) v (netifCreated m) (ethMutex m)
    (mutexCreated m) (lastError m) (stats m) (connectedCallback m)
    (disconnectedCallback m) (stateChangeCallback m) (linkStatusCallback m)
    (autoReconnectEnabled m) (reconnectMaxRetries m) (reconnectAttempts m)
    (reconnectInitialDelay m) (reconnectMaxDelay m) (reconnectCurrentDelay m)
    (reconnectTimer m) (connectionState m) (previousState m)
    (linkMonitoringEnabled m) (linkMonitoringInterval m) (linkMonitorTimer m)
    (lastLinkStatus m) (initStartTime m) (linkUpTime m) (ipObtainedTime m)
    (totalEventCount m).

Definition set_netifCreated (v : bool) (m : EthernetManager) : EthernetManager :=
  mkManager
    (ethEventGroup m) (lastGotIpTime m) (connectionStartTime m)
    (gotIpAtLeastOnce m) (phyStarted m) (eventHandlersRegistered m)
    (customMacAddress m) (hasCustomMac m) (eth_netif m) v (ethMutex m)
    (mutexCreated m) (lastError m) (stats m) (connectedCallback m)
    (disconnectedCallback m) (stateChangeCallback m) (linkStatusCallback m)
    (autoReconnectEnabled m) (reconnectMaxRetries m) (reconnectAttempts m)
    (reconnectInitialDelay m) (reconnectMaxDelay m) (reconnectCurrentDelay m)
    (reconnectTimer m) (connectionState m) (previousState m)
    (linkMonitoringEnabled m) (linkMonitoringInterval m) (linkMonitorTimer m)
    (lastLinkStatus m) (initStartTime m) (linkUpTime m) (ipObtainedTime m)
    (totalEventCount m).

Definition set_lastError (v : EthError) (m : EthernetManager) : EthernetManager :=
  mkManager
    (ethEventGroup m) (lastGotIpTime m) (connectionStartTime m)
    (gotIpAtLeastOnce m) (phyStarted m) (eventHandlersRegistered m)
    (customMacAddress m) (hasCustomMac m) (eth_netif m) (netifCreated m)
    (ethMutex m) (mutexCreated m) v (stats m) (connectedCallback m)
    (disconnectedCallback m) (stateChangeCallback m) (linkStatusCallback m)
    (autoReconnectEnabled m) (reconnectMaxRetries m) (reconnectAttempts m)
    (reconnectInitialDelay m) (reconnectMaxDelay m) (reconnectCurrentDelay m)
    (reconnectTimer m) (connectionState m) (previousState m)
    (linkMonitoringEnabled m) (linkMonitoringInterval m) (linkMonitorTimer m)
    (lastLinkStatus m) (initStartTime m) (linkUpTime m) (ipObtainedTime m)
    (totalEventCount m).

Definition set_stats (v : NetworkStats) (m : EthernetManager) : EthernetManager :=
  mkManager
    (ethEventGroup m) (lastGotIpTime m) (connectionStartTime m)
    (gotIpAtLeastOnce m) (phyStarted m) (eventHandlersRegistered m)
    (customMacAddress m) (hasCustomMac m) (eth_netif m) (netifCreated m)
    (ethMutex m) (mutexCreated m) (lastError m) v (connectedCallback m)
    (disconnectedCallback m) (stateChangeCallback m) (linkStatusCallback m)
    (autoReconnectEnabled m) (reconnectMaxRetries m) (reconnectAttempts m)
    (reconnectInitialDelay m) (reconnectMaxDelay m) (reconnectCurrentDelay m)
    (reconnectTimer m) (connectionState m) (previousState m)
    (linkMonitoringEnabled m) (linkMonitoringInterval m) (linkMonitorTimer m)
    (lastLinkStatus m) (initStartTime m) (linkUpTime m) (ipObtainedTime m)
    (totalEventCount m).

Definition set_connectedCallback (v : option Callback) (m : EthernetManager) : EthernetManager :=
  mkManager
    (ethEventGroup m) (lastGotIpTime m) (connectionStartTime m)
    (gotIpAtLeastOnce m) (phyStarted m) (eventHandlersRegistered m)
    (customMacAddress m) (hasCustomMac m) (eth_netif m) (netifCreated m)
    (ethMutex m) (mutexCreated m) (lastError m) (stats m) v
    (disconnectedCallback m) (stateChangeCallback m) (linkStatusCallback m)
    (autoReconnectEnabled m) (reconnectMaxRetries m) (reconnectAttempts m)
    (reconnectInitialDelay m) (reconnectMaxDelay m) (reconnectCurrentDelay m)
    (reconnectTimer m) (connectionState m) (previousState m)
    (linkMonitoringEnabled m) (linkMonitoringInterval m) (linkMonitorTimer m)
    (lastLinkStatus m) (initStartTime m) (linkUpTime m) (ipObtainedTime m)
    (totalEventCount m).

Definition set_disconnectedCallback (v : option Callback) (m : EthernetManager) : EthernetManager :=
  mkManager
    (ethEventGroup m) (lastGotIpTime m) (connectionStartTime m)
    (gotIpAtLeastOnce m) (phyStarted m) (eventHandlersRegistered m)
    (customMacAddress m) (hasCustomMac m) (eth_netif m) (netifCreated m)
    (ethMutex m) (mutexCreated m) (lastError m) (stats m)
    (connectedCallback m) v (stateChangeCallback m) (linkStatusCallback m)
    (autoReconnectEnabled m) (reconnectMaxRetries m) (reconnectAttempts m)
    (reconnectInitialDelay m) (reconnectMaxDelay m) (reconnectCurrentDelay m)
    (reconnectTimer m) (connectionState m) (previousState m)
    (linkMonitoringEnabled m) (linkMonitoringInterval m) (linkMonitorTimer m)
    (lastLinkStatus m) (initStartTime m) (linkUpTime m) (ipObtainedTime m)
    (totalEventCount m).

Definition set_stateChangeCallback (v : option Callback) (m : EthernetManager) : EthernetManager :=
  mkManager
    (ethEventGroup m) (lastGotIpTime m) (connectionStartTime m)
    (gotIpAtLeastOnce m) (phyStarted m) (eventHandlersRegistered m)
    (customMacAddress m) (hasCustomMac m) (eth_netif m) (netifCreated m)
    (ethMutex m) (mutexCreated m) (lastError m) (stats m)
    (connectedCallback m) (disconnectedCallback m) v (linkStatusCallback m)
    (autoReconnectEnabled m) (reconnectMaxRetries m) (reconnectAttempts m)
    (reconnectInitialDelay m) (reconnectMaxDelay m) (reconnectCurrentDelay m)
    (reconnectTimer m) (connectionState m) (previousState m)
    (linkMonitoringEnabled m) (linkMonitoringInterval m) (linkMonitorTimer m)
    (lastLinkStatus m) (initStartTime m) (linkUpTime m) (ipObtainedTime m)
    (totalEventCount m).

Definition set_linkStatusCallback (v : option Callback) (m : EthernetManager) : EthernetManager :=
  mkManager
    (ethEventGroup m) (lastGotIpTime m) (connectionStartTime m)
    (gotIpAtLeastOnce m) (phyStarted m) (eventHandlersRegistered m)
    (customMacAddress m) (hasCustomMac m) (eth_netif m) (netifCreated m)
    (ethMutex m) (mutexCreated m) (lastError m) (stats m)
    (connectedCallback m) (disconnectedCallback m) (stateChangeCallback m) v
    (autoReconnectEnabled m) (reconnectMaxRetries m) (reconnectAttempts m)
    (reconnectInitialDelay m) (reconnectMaxDelay m) (reconnectCurrentDelay m)
    (reconnectTimer m) (connectionState m) (previousState m)
    (linkMonitoringEnabled m) (linkMonitoringInterval m) (linkMonitorTimer m)
    (lastLinkStatus m) (initStartTime m) (linkUpTime m) (ipObtainedTime m)
    (totalEventCount m).

Definition set_autoReconnectEnabled (v : bool) (m : EthernetManager) : EthernetManager :=
  mkManager
    (ethEventGroup m) (lastGotIpTime m) (connectionStartTime m)
    (gotIpAtLeastOnce m) (phyStarted m) (eventHandlersRegistered m)
    (customMacAddress m) (hasCustomMac m) (eth_netif m) (netifCreated m)
    (ethMutex m) (mutexCreated m) (lastError m) (stats m)
    (connectedCallback m) (disconnectedCallback m) (stateChangeCallback m)
    (linkStatusCallback m) v (reconnectMaxRetries m) (reconnectAttempts m)
    (reconnectInitialDelay m) (reconnectMaxDelay m) (reconnectCurrentDelay m)
    (reconnectTimer m) (connectionState m) (previousState m)
    (linkMonitoringEnabled m) (linkMonitoringInterval m) (linkMonitorTimer m)
    (lastLinkStatus m) (initStartTime m) (linkUpTime m) (ipObtainedTime m)
    (totalEventCount m).

Definition set_reconnectMaxRetries (v : Z) (m : EthernetManager) : EthernetManager :=
  mkManager
    (ethEventGroup m) (lastGotIpTime m) (connectionStartTime m)
    (gotIpAtLeastOnce m) (phyStarted m) (eventHandlersRegistered m)
    (customMacAddress m) (hasCustomMac m) (eth_netif m) (netifCreated m)
    (ethMutex m) (mutexCreated m) (lastError m) (stats m)
    (connectedCallback m) (disconnectedCallback m) (stateChangeCallback m)
    (linkStatusCallback m) (autoReconnectEnabled m) v (reconnectAttempts m)
    (reconnectInitialDelay m) (reconnectMaxDelay m) (reconnectCurrentDelay m)
    (reconnectTimer m) (connectionState m) (previousState m)
    (linkMonitoringEnabled m) (linkMonitoringInterval m) (linkMonitorTimer m)
    (lastLinkStatus m) (initStartTime m) (linkUpTime m) (ipObtainedTime m)
    (totalEventCount m).

Definition set_reconnectAttempts (v : Z) (m : EthernetManager) : EthernetManager :=
  mkManager
    (ethEventGroup m) (lastGotIpTime m) (connectionStartTime m)
    (gotIpAtLeastOnce m) (phyStarted m) (eventHandlersRegistered m)
    (customMacAddress m) (hasCustomMac m) (eth_netif m) (netifCreated m)
    (ethMutex m) (mutexCreated m) (lastError m) (stats m)
    (connectedCallback m) (disconnectedCallback m) (stateChangeCallback m)
    (linkStatusCallback m) (autoReconnectEnabled m) (reconnectMaxRetries m) v
    (reconnectInitialDelay m) (reconnectMaxDelay m) (reconnectCurrentDelay m)
    (reconnectTimer m) (connectionState m) (previousState m)
    (linkMonitoringEnabled m) (linkMonitoringInterval m) (linkMonitorTimer m)
    (lastLinkStatus m) (initStartTime m) (linkUpTime m) (ipObtainedTime m)
    (totalEventCount m).

Definition set_reconnectInitialDelay (v : Z) (m : EthernetManager) : EthernetManager :=
  mkManager
    (ethEventGroup m) (lastGotIpTime m) (connectionStartTime m)
    (gotIpAtLeastOnce m) (phyStarted m) (eventHandlersRegistered m)
    (customMacAddress m) (hasCustomMac m) (eth_netif m) (netifCreated m)
    (ethMutex m) (mutexCreated m) (lastError m) (stats m)
    (connectedCallback m) (disconnectedCallback m) (stateChangeCallback m)
    (linkStatusCallback m) (autoReconnectEnabled m) (reconnectMaxRetries m)
    (reconnectAttempts m) v (reconnectMaxDelay m) (reconnectCurrentDelay m)
    (reconnectTimer m) (connectionState m) (previousState m)
    (linkMonitoringEnabled m) (linkMonitoringInterval m) (linkMonitorTimer m)
    (lastLinkStatus m) (initStartTime m) (linkUpTime m) (ipObtainedTime m)
    (totalEventCount m).

Definition set_reconnectMaxDelay (v : Z) (m : EthernetManager) : EthernetManager :=
  mkManager
    (ethEventGroup m) (lastGotIpTime m) (connectionStartTime m)
    (gotIpAtLeastOnce m) (phyStarted m) (eventHandlersRegistered m)
    (customMacAddress m) (hasCustomMac m) (eth_netif m) (netifCreated m)
    (ethMutex m) (mutexCreated m) (lastError m) (stats m)
    (connectedCallback m) (disconnectedCallback m) (stateChangeCallback m)
    (linkStatusCallback m) (autoReconnectEnabled m) (reconnectMaxRetries m)
    (reconnectAttempts m) (reconnectInitialDelay m) v
    (reconnectCurrentDelay m) (reconnectTimer m) (connectionState m)
    (previousState m) (linkMonitoringEnabled m) (linkMonitoringInterval m)
    (linkMonitorTimer m) (lastLinkStatus m) (initStartTime m) (linkUpTime m)
    (ipObtainedTime m) (totalEventCount m).

Definition set_reconnectCurrentDelay (v : Z) (m : EthernetManager) : EthernetManager :=
  mkManager
    (ethEventGroup m) (lastGotIpTime m) (connectionStartTime m)
    (gotIpAtLeastOnce m) (phyStarted m) (eventHandlersRegistered m)
    (customMacAddress m) (hasCustomMac m) (eth_netif m) (netifCreated m)
    (ethMutex m) (mutexCreated m) (lastError m) (stats m)
    (connectedCallback m) (disconnectedCallback m) (stateChangeCallback m)
    (linkStatusCallback m) (autoReconnectEnabled m) (reconnectMaxRetries m)
    (reconnectAttempts m) (reconnectInitialDelay m) (reconnectMaxDelay m) v
    (reconnectTimer m) (connectionState m) (previousState m)
    (linkMonitoringEnabled m) (linkMonitoringInterval m) (linkMonitorTimer m)
    (lastLinkStatus m) (initStartTime m) (linkUpTime m) (ipObtainedTime m)
    (totalEventCount m).

Definition set_reconnectTimer (v : option Timer) (m : EthernetManager) : EthernetManager :=
  mkManager
    (ethEventGroup m) (lastGotIpTime m) (connectionStartTime m)
    (gotIpAtLeastOnce m) (phyStarted m) (eventHandlersRegistered m)
    (customMacAddress m) (hasCustomMac m) (eth_netif m) (netifCreated m)
    (ethMutex m) (mutexCreated m) (lastError m) (stats m)
    (connectedCallback m) (disconnectedCallback m) (stateChangeCallback m)
    (linkStatusCallback m) (autoReconnectEnabled m) (reconnectMaxRetries m)
    (reconnectAttempts m) (reconnectInitialDelay m) (reconnectMaxDelay m)
    (reconnectCurrentDelay m) v (connectionState m) (previousState m)
    (linkMonitoringEnabled m) (linkMonitoringInterval m) (linkMonitorTimer m)
    (lastLinkStatus m) (initStartTime m) (linkUpTime m) (ipObtainedTime m)
    (totalEventCount m).

Definition set_connectionState (v : EthConnectionState) (m : EthernetManager) : EthernetManager :=
  mkManager
    (ethEventGroup m) (lastGotIpTime m) (connectionStartTime m)
    (gotIpAtLeastOnce m) (phyStarted m) (eventHandlersRegistered m)
    (customMacAddress m) (hasCustomMac m) (eth_netif m) (netifCreated m)
    (ethMutex m) (mutexCreated m) (lastError m) (stats m)
    (connectedCallback m) (disconnectedCallback m) (stateChangeCallback m)
    (linkStatusCallback m) (autoReconnectEnabled m) (reconnectMaxRetries m)
    (reconnectAttempts m) (reconnectInitialDelay m) (reconnectMaxDelay m)
    (reconnectCurrentDelay m) (reconnectTimer m) v (previousState m)
    (linkMonitoringEnabled m) (linkMonitoringInterval m) (linkMonitorTimer m)
    (lastLinkStatus m) (initStartTime m) (linkUpTime m) (ipObtainedTime m)
    (totalEventCount m).

Definition set_previousState (v : EthConnectionState) (m : EthernetManager) : EthernetManager :=
  mkManager
    (ethEventGroup m) (lastGotIpTime m) (connectionStartTime m)
    (gotIpAtLeastOnce m) (phyStarted m) (eventHandlersRegistered m)
    (customMacAddress m) (hasCustomMac m) (eth_netif m) (netifCreated m)
    (ethMutex m) (mutexCreated m) (lastError m) (stats m)
    (connectedCallback m) (disconnectedCallback m) (stateChangeCallback m)
    (linkStatusCallback m) (autoReconnectEnabled m) (reconnectMaxRetries m)
    (reconnectAttempts m) (reconnectInitialDelay m) (reconnectMaxDelay m)
    (reconnectCurrentDelay m) (reconnectTimer m) (connectionState m) v
    (linkMonitoringEnabled m) (linkMonitoringInterval m) (linkMonitorTimer m)
    (lastLinkStatus m) (initStartTime m) (linkUpTime m) (ipObtainedTime m)
    (totalEventCount m).

Definition set_linkMonitoringEnabled (v : bool) (m : EthernetManager) : EthernetManager :=
  mkManager
    (ethEventGroup m) (lastGotIpTime m) (connectionStartTime m)
    (gotIpAtLeastOnce m) (phyStarted m) (eventHandlersRegistered m)
    (customMacAddress m) (hasCustomMac m) (eth_netif m) (netifCreated m)
    (ethMutex m) (mutexCreated m) (lastError m) (stats m)
    (connectedCallback m) (disconnectedCallback m) (stateChangeCallback m)
    (linkStatusCallback m) (autoReconnectEnabled m) (reconnectMaxRetries m)
    (reconnectAttempts m) (reconnectInitialDelay m) (reconnectMaxDelay m)
    (reconnectCurrentDelay m) (reconnectTimer m) (connectionState m)
    (previousState m) v (linkMonitoringInterval m) (linkMonitorTimer m)
    (lastLinkStatus m) (initStartTime m) (linkUpTime m) (ipObtainedTime m)
    (totalEventCount m).

Definition set_linkMonitoringInterval (v : Z) (m : EthernetManager) : EthernetManager :=
  mkManager
    (ethEventGroup m) (lastGotIpTime m) (connectionStartTime m)
    (gotIpAtLeastOnce m) (phyStarted m) (eventHandlersRegistered m)
    (customMacAddress m) (hasCustomMac m) (eth_netif m) (netifCreated m)
    (ethMutex m) (mutexCreated m) (lastError m) (stats m)
    (connectedCallback m) (disconnectedCallback m) (stateChangeCallback m)
    (linkStatusCallback m) (autoReconnectEnabled m) (reconnectMaxRetries m)
    (reconnectAttempts m) (reconnectInitialDelay m) (reconnectMaxDelay m)
    (reconnectCurrentDelay m) (reconnectTimer m) (connectionState m)
    (previousState m) (linkMonitoringEnabled m) v (linkMonitorTimer m)
    (lastLinkStatus m) (initStartTime m) (linkUpTime m) (ipObtainedTime m)
    (totalEventCount m).

Definition set_linkMonitorTimer (v : option Timer) (m : EthernetManager) : EthernetManager :=
  mkManager
    (ethEventGroup m) (lastGotIpTime m) (connectionStartTime m)
    (gotIpAtLeastOnce m) (phyStarted m) (eventHandlersRegistered m)
    (customMacAddress m) (hasCustomMac m) (eth_netif m) (netifCreated m)
    (ethMutex m) (mutexCreated m) (lastError m) (stats m)
    (connectedCallback m) (disconnectedCallback m) (stateChangeCallback m)
    (linkStatusCallback m) (autoReconnectEnabled m) (reconnectMaxRetries m)
    (reconnectAttempts m) (reconnectInitialDelay m) (reconnectMaxDelay m)
    (reconnectCurrentDelay m) (reconnectTimer m) (connectionState m)
    (previousState m) (linkMonitoringEnabled m) (linkMonitoringInterval m) v
    (lastLinkStatus m) (initStartTime m) (linkUpTime m) (ipObtainedTime m)
    (totalEventCount m).

Definition set_lastLinkStatus (v : bool) (m : EthernetManager) : EthernetManager :=
  mkManager
    (ethEventGroup m) (lastGotIpTime m) (connectionStartTime m)
    (gotIpAtLeastOnce m) (phyStarted m) (eventHandlersRegistered m)
    (customMacAddress m) (hasCustomMac m) (eth_netif m) (netifCreated m)
    (ethMutex m) (mutexCreated m) (lastError m) (stats m)
    (connectedCallback m) (disconnectedCallback m) (stateChangeCallback m)
    (linkStatusCallback m) (autoReconnectEnabled m) (reconnectMaxRetries m)
    (reconnectAttempts m) (reconnectInitialDelay m) (reconnectMaxDelay m)
    (reconnectCurrentDelay m) (reconnectTimer m) (connectionState m)
    (previousState m) (linkMonitoringEnabled m) (linkMonitoringInterval m)
    (linkMonitorTimer m) v (initStartTime m) (linkUpTime m)
    (ipObtainedTime m) (totalEventCount m).

Definition set_initStartTime (v : Z) (m : EthernetManager) : EthernetManager :=
  mkManager
    (ethEventGroup m) (lastGotIpTime m) (connectionStartTime m)
    (gotIpAtLeastOnce m) (phyStarted m) (eventHandlersRegistered m)
    (customMacAddress m) (hasCustomMac m) (eth_netif m) (netifCreated m)
    (ethMutex m) (mutexCreated m) (lastError m) (stats m)
    (connectedCallback m) (disconnectedCallback m) (stateChangeCallback m)
    (linkStatusCallback m) (autoReconnectEnabled m) (reconnectMaxRetries m)
    (reconnectAttempts m) (reconnectInitialDelay m) (reconnectMaxDelay m)
    (reconnectCurrentDelay m) (reconnectTimer m) (connectionState m)
    (previousState m) (linkMonitoringEnabled m) (linkMonitoringInterval m)
    (linkMonitorTimer m) (lastLinkStatus m) v (linkUpTime m)
    (ipObtainedTime m) (totalEventCount m).

Definition set_linkUpTime (v : Z) (m : EthernetManager) : EthernetManager :=
  mkManager
    (ethEventGroup m) (lastGotIpTime m) (connectionStartTime m)
    (gotIpAtLeastOnce m) (phyStarted m) (eventHandlersRegistered m)
    (customMacAddress m) (hasCustomMac m) (eth_netif m) (netifCreated m)
    (ethMutex m) (mutexCreated m) (lastError m) (stats m)
    (connectedCallback m) (disconnectedCallback m) (stateChangeCallback m)
    (linkStatusCallback m) (autoReconnectEnabled m) (reconnectMaxRetries m)
    (reconnectAttempts m) (reconnectInitialDelay m) (reconnectMaxDelay m)
    (reconnectCurrentDelay m) (reconnectTimer m) (connectionState m)
    (previousState m) (linkMonitoringEnabled m) (linkMonitoringInterval m)
    (linkMonitorTimer m) (lastLinkStatus m) (initStartTime m) v
    (ipObtainedTime m) (totalEventCount m).

Definition set_ipObtainedTime (v : Z) (m : EthernetManager) : EthernetManager :=
  mkManager
    (ethEventGroup m) (lastGotIpTime m) (connectionStartTime m)
    (gotIpAtLeastOnce m) (phyStarted m) (eventHandlersRegistered m)
    (customMacAddress m) (hasCustomMac m) (eth_netif m) (netifCreated m)
    (ethMutex m) (mutexCreated m) (lastError m) (stats m)
    (connectedCallback m) (disconnectedCallback m) (stateChangeCallback m)
    (linkStatusCallback m) (autoReconnectEnabled m) (reconnectMaxRetries m)
    (reconnectAttempts m) (reconnectInitialDelay m) (reconnectMaxDelay m)
    (reconnectCurrentDelay m) (reconnectTimer m) (connectionState m)
    (previousState m) (linkMonitoringEnabled m) (linkMonitoringInterval m)
    (linkMonitorTimer m) (lastLinkStatus m) (initStartTime m) (linkUpTime m)
    v (totalEventCount m).

Definition set_totalEventCount (v : Z) (m : EthernetManager) : EthernetManager :=
  mkManager
    (ethEventGroup m) (lastGotIpTime m) (connectionStartTime m)
    (gotIpAtLeastOnce m) (phyStarted m) (eventHandlersRegistered m)
    (customMacAddress m) (hasCustomMac m) (eth_netif m) (netifCreated m)
    (ethMutex m) (mutexCreated m) (lastError m) (stats m)
    (connectedCallback m) (disconnectedCallback m) (stateChangeCallback m)
    (linkStatusCallback m) (autoReconnectEnabled m) (reconnectMaxRetries m)
    (reconnectAttempts m) (reconnectInitialDelay m) (reconnectMaxDelay m)
    (reconnectCurrentDelay m) (reconnectTimer m) (connectionState m)
    (previousState m) (linkMonitoringEnabled m) (linkMonitoringInterval m)
    (linkMonitorTimer m) (lastLinkStatus m) (initStartTime m) (linkUpTime m)
    (ipObtainedTime m) v.


Record World : Type := mkWorld {
  (* the singleton returned by getInstance() *)
  inst : EthernetManager;
  (* the value millis() returns now (uint32) *)
  millis : Z;
  (* the transceiver driver and the ESP-IDF services *)
  platform : Platform;
  (* calls that leave the manager, oldest first *)
  trace : list Effect
}.

Definition set_inst (v : EthernetManager) (w : World) : World :=
  mkWorld
    v (millis w) (platform w) (trace w).

Definition set_millis (v : Z) (w : World) : World :=
  mkWorld
    (inst w) v (platform w) (trace w).

Definition set_platform (v : Platform) (w : World) : World :=
  mkWorld
    (inst w) (millis w) v (trace w).

Definition set_trace (v : list Effect) (w : World) : World :=
  mkWorld
    (inst w) (millis w) (platform w) v.


(** Writing a field of the singleton, and recording a call. *)
Definition upd (f : EthernetManager -> EthernetManager) (w : World) : World :=
  set_inst (f (inst w)) w.

Definition emit (e : Effect) (w : World) : World :=
  set_trace (trace w ++ [e]) w.

(** Invoke a callback slot if one is registered. *)
Definition invoke (slot : option Callback) (call : Callback -> Effect)
  (w : World) : World :=
  match slot with
  | Some cb => emit (call cb) w
  | None => w
  end.

(** [memset(&inst.stats, 0, sizeof(inst.stats))] *)
Definition zero_stats : NetworkStats := mkStats 0 0 0 0 0 0 0 0 0 0 0.

(** ** EthernetManager::EthernetManager()

    The state of the singleton when it is constructed: the member
    initialisers of the header, then the mutex and the event group. *)
Definition constructed (p : Platform) : EthernetManager :=
  mkManager
    (if event_group_alloc p then Some 0 else None)
    0 0 false false false
    [0; 0; 0; 0; 0; 0] false
    None false
    (if mutex_alloc p then Some Free else None) (mutex_alloc p)
    OK
    zero_stats
    None None None None
    false 0 0 1000 30000 1000 None
    UNINITIALIZED UNINITIALIZED
    false 1000 None false
    0 0 0
    0.

Definition boot (p : Platform) (now : Z) : World :=
  mkWorld (constructed p) now p [].

(** ** EthernetManager::changeState *)
Definition changeState (newState : EthConnectionState) (w : World) : World :=
  if state_eqb newState (connectionState (inst w)) then w
  else
    let old := connectionState (inst w) in
    let w1 := upd (fun m => set_connectionState newState
                              (set_previousState old m)) w in
    let w2 := invoke (stateChangeCallback (inst w1))
                     (fun cb => CallStateChange cb old newState) w1 in
    match newState with
    | PHY_STARTING => upd (set_initStartTime (millis w2)) w2
    | LINK_UP => upd (set_linkUpTime (millis w2)) w2
    | CONNECTED => upd (set_ipObtainedTime (millis w2)) w2
    | _ => w2
    end.

(** ** EthernetManager::isConnected *)
Definition isConnected (w : World) : bool :=
  if negb (phyStarted (inst w)) then false
  else match ethEventGroup (inst w) with
       | None => false
       | Some bits => negb (Z.land bits BIT_CONNECTED =? 0)
       end.

(** ** EthernetManager::updateLinkStatus *)
Definition updateLinkStatus (w : World) : bool * World :=
  if negb (phyStarted (inst w)) then (false, w)
  else
    let currentLinkStatus := eth_linkUp (platform w) in
    if Bool.eqb currentLinkStatus (lastLinkStatus (inst w))
    then (currentLinkStatus, w)
    else
      let w1 := upd (set_lastLinkStatus currentLinkStatus) w in
      let w2 :=
        if negb currentLinkStatus then
          let w' := changeState LINK_DOWN w1 in
          upd (fun m => set_stats
                 (set_linkDownEvents
                    (u32 (linkDownEvents (stats m) + 1)) (stats m)) m) w'
        else if isConnected w1 then changeState CONNECTED w1
        else changeState LINK_UP w1 in
      (currentLinkStatus,
       invoke (linkStatusCallback (inst w2))
              (fun cb => CallLinkStatus cb currentLinkStatus) w2).

(** ** EthernetManager::onEthEvent

    [base] is [None] for a null base pointer.  The three branches of the
    handler are kept as separate definitions, named after the events. *)

(** [IP_EVENT_GOT_IP] *)
Definition onGotIp (w : World) : World :=
  let now := millis w in
  let w1 := upd (fun m =>
      let m1 := set_lastGotIpTime now (set_gotIpAtLeastOnce true m) in
      let st1 := set_connectTime now (stats m1) in
      let st2 := if 0 <? disconnectCount st1
                 then set_reconnectCount (u32 (reconnectCount st1 + 1)) st1
                 else st1 in
      set_reconnectCurrentDelay (reconnectInitialDelay m1)
        (set_reconnectAttempts 0 (set_stats st2 m1))) w in
  let w2 := changeState CONNECTED w1 in
  let w3 := upd (fun m =>
      set_ethEventGroup
        (option_map (fun g => xEventGroupSetBits g BIT_CONNECTED)
                    (ethEventGroup m)) m) w2 in
  invoke (connectedCallback (inst w3))
         (fun cb => CallConnected cb (eth_localIP (platform w3))) w3.

(** [ETHERNET_EVENT_CONNECTED] *)
Definition onEthConnected (w : World) : World :=
  let w1 := upd (set_connectionStartTime (millis w)) w in
  let w2 := changeState OBTAINING_IP w1 in
  snd (updateLinkStatus w2).

(** [ETHERNET_EVENT_DISCONNECTED] and [ETHERNET_EVENT_STOP] *)
Definition onEthDisconnected (w : World) : World :=
  let now := millis w in
  if negb (gotIpAtLeastOnce (inst w)) then w
  else if u32 (now - connectionStartTime (inst w))
          <? ETH_CONNECTION_TRUST_WINDOW_MS then w
  else
    let w1 := upd (fun m =>
        set_ethEventGroup
          (option_map (fun g => xEventGroupClearBits g BIT_CONNECTED)
                      (ethEventGroup m))
          (set_gotIpAtLeastOnce false m)) w in
    let w2 := changeState LINK_DOWN w1 in
    let w3 := upd (fun m =>
        let st1 := set_disconnectCount
                     (u32 (disconnectCount (stats m) + 1)) (stats m) in
        let st2 := set_linkDownEvents
                     (u32 (linkDownEvents st1 + 1)) st1 in
        set_stats st2 m) w2 in
    let connectionDuration :=
      u32 (millis w3 - connectTime (stats (inst w3))) in
    let w4 := invoke (disconnectedCallback (inst w3))
                     (fun cb => CallDisconnected cb connectionDuration) w3 in
    if autoReconnectEnabled (inst w4) then
      match reconnectTimer (inst w4) with
      | Some t => upd (set_reconnectTimer (Some (xTimerStart t))) w4
      | None => w4
      end
    else w4.

Definition onEthEvent (base : option esp_event_base_t) (id : Z)
  (w : World) : World :=
  match base with
  | None => w
  | Some b =>
      match ethEventGroup (inst w) with
      | None => w
      | Some _ =>
          let w1 := upd (fun m =>
              set_totalEventCount (u32 (totalEventCount m + 1)) m) w in
          match b with
          | IP_EVENT =>
              if id =? IP_EVENT_GOT_IP then onGotIp w1 else w1
          | ETH_EVENT =>
              if id =? ETHERNET_EVENT_START then w1
              else if id =? ETHERNET_EVENT_CONNECTED then onEthConnected w1
              else if (id =? ETHERNET_EVENT_DISCONNECTED)
                      || (id =? ETHERNET_EVENT_STOP)
              then onEthDisconnected w1
              else w1
          | OTHER_EVENT _ => w1
          end
      end
  end.

(** ** EthernetManager::setAutoReconnect *)
Definition setAutoReconnect (enable : bool)
  (maxRetries initialDelayMs maxDelayMs : Z) (w : World) : World :=
  if MutexGuard (ethMutex (inst w)) then
    upd (fun m =>
      let m1 :=
        set_reconnectCurrentDelay initialDelayMs
          (set_reconnectAttempts 0
            (set_reconnectMaxDelay maxDelayMs
              (set_reconnectInitialDelay initialDelayMs
                (set_reconnectMaxRetries maxRetries
                  (set_autoReconnectEnabled enable m))))) in
      match reconnectTimer m1 with
      | None =>
          if enable
          then set_reconnectTimer (xTimerCreate (platform w) initialDelayMs) m1
          else m1
      | Some _ => m1
      end) w
  else w.

(** ** EthernetManager::attemptReconnect

    The callback of the reconnect timer.  The first guarded block counts
    the attempt and returns when the retry limit is exceeded; the second
    doubles the delay and starts the timer again. *)
Definition attemptReconnect (w : World) : World :=
  let counted :=
    if MutexGuard (ethMutex (inst w))
    then upd (fun m => set_reconnectAttempts
                         (u8 (reconnectAttempts m + 1)) m) w
    else w in
  if MutexGuard (ethMutex (inst w))
     && (0 <? reconnectMaxRetries (inst counted))
     && (reconnectMaxRetries (inst counted)
           <? reconnectAttempts (inst counted))
  then upd (set_autoReconnectEnabled false) counted
  else if MutexGuard (ethMutex (inst counted)) then
    upd (fun m =>
      let m1 := set_reconnectCurrentDelay
                  (Z.min (u32 (reconnectCurrentDelay m * 2))
                         (reconnectMaxDelay m)) m in
      match reconnectTimer m1 with
      | Some t =>
          set_reconnectTimer
            (Some (xTimerStart
                     (xTimerChangePeriod t (reconnectCurrentDelay m1)))) m1
      | None => m1
      end) counted
  else counted.

(** The reconnect timer expires: the one-shot timer goes dormant, its
    period has passed on the clock, and the callback runs.  [None] when
    the timer is not running. *)
Definition reconnectTimerExpires (w : World) : option World :=
  match reconnectTimer (inst w) with
  | Some t =>
      if active t then
        Some (attemptReconnect
                (upd (set_reconnectTimer (Some (expire t)))
                     (set_millis (u32 (millis w + period t)) w)))
      else None
  | None => None
  end.

(** The delays before the next [n] expiries of the reconnect timer (fewer
    when the timer stops being re-armed), with the world they lead to. *)
Fixpoint reconnectDelays (n : nat) (w : World) : list Z * World :=
  match n with
  | O => ([], w)
  | S k =>
      match reconnectTimer (inst w), reconnectTimerExpires w with
      | Some t, Some w1 =>
          let (ds, w2) := reconnectDelays k w1 in (period t :: ds, w2)
      | _, _ => ([], w)
      end
  end.

(** ** EthernetManager::cleanup *)
Definition cleanup (w : World) : World :=
  if negb (MutexGuard (ethMutex (inst w))) then w
  else
    let w1 :=
      if eventHandlersRegistered (inst w) then
        upd (set_eventHandlersRegistered false)
            (emit (EventHandlerUnregister ETH_EVENT)
                  (emit (EventHandlerUnregister IP_EVENT) w))
      else w in
    upd (fun m =>
      set_lastError OK
        (set_stats zero_stats
          (set_previousState UNINITIALIZED
            (set_connectionState UNINITIALIZED
              (set_linkStatusCallback None
                (set_stateChangeCallback None
                  (set_disconnectedCallback None
                    (set_connectedCallback None
                      (set_linkMonitorTimer None
                        (set_reconnectTimer None
                          (set_ethEventGroup None
                            (set_connectionStartTime 0
                              (set_lastGotIpTime 0
                                (set_eth_netif None
                                  (set_netifCreated false
                                    (set_hasCustomMac false
                                      (set_gotIpAtLeastOnce false
                                        (set_phyStarted false m))))))))))))))))))
        w1.

(** ** EthernetManager::waitForConnection *)

(** What the clock and the other tasks make of the world while the caller
    is blocked for at most [waitTime] milliseconds. *)
Definition Blocking : Type := World -> Z -> World.

Definition connected_bit (g : option EventBits_t) : bool :=
  match g with
  | Some bits => negb (Z.land bits BIT_CONNECTED =? 0)
  | None => false
  end.

(** [xEventGroupWaitBits(group, BIT_CONNECTED, pdFALSE, pdTRUE, waitTime)]:
    returns at once when the bit is set, otherwise blocks. *)
Definition xEventGroupWaitBits (env : Blocking) (w : World) (waitTime : Z)
  : bool * World :=
  if connected_bit (ethEventGroup (inst w)) then (true, w)
  else let w1 := env w waitTime in
       (connected_bit (ethEventGroup (inst w1)), w1).

Definition timed_out (w : World) : EthResult * World :=
  (ResErr CONNECTION_TIMEOUT, upd (set_lastError CONNECTION_TIMEOUT) w).

(** The [while ((millis() - startWait) < timeout_ms)] loop; [fuel] bounds
    the number of iterations, [None] when it runs out. *)
Fixpoint waitLoop (env : Blocking) (fuel : nat) (startWait timeout_ms : Z)
  (w : World) : option (EthResult * World) :=
  match fuel with
  | O => None
  | S k =>
      if u32 (millis w - startWait) <? timeout_ms then
        let remainingTime := u32 (timeout_ms - u32 (millis w - startWait)) in
        let waitTime := if ETH_WAIT_CHUNK_MS <? remainingTime
                        then ETH_WAIT_CHUNK_MS else remainingTime in
        let (result, w1) := xEventGroupWaitBits env w waitTime in
        if result then Some (ResOk, w1)
        else if state_eqb (connectionState (inst w1)) ERROR_STATE
        then Some (timed_out w1)
        else
          let w2 := if linkMonitoringEnabled (inst w1)
                    then snd (updateLinkStatus w1) else w1 in
          waitLoop env k startWait timeout_ms w2
      else Some (timed_out w)
  end.

Definition waitForConnection (env : Blocking) (fuel : nat) (timeout_ms : Z)
  (w : World) : option (EthResult * World) :=
  if timeout_ms =? 0 then
    Some (ResErr INVALID_PARAMETER, upd (set_lastError INVALID_PARAMETER) w)
  else if isConnected w then Some (ResOk, w)
  else
    match ethEventGroup (inst w) with
    | None =>
        Some (ResErr NOT_INITIALIZED, upd (set_lastError NOT_INITIALIZED) w)
    | Some _ =>
        if negb (phyStarted (inst w)) then
          Some (ResErr NOT_INITIALIZED, upd (set_lastError NOT_INITIALIZED) w)
        else waitLoop env fuel (millis w) timeout_ms w
    end.

(** ** EthernetManager::earlyInit *)
Definition earlyInit (w : World) : bool * World :=
  match ethMutex (inst w) with
  | None => (false, upd (set_lastError MEMORY_ALLOCATION_FAILED) w)
  | Some _ =>
      if negb (MutexGuard (ethMutex (inst w))) then (false, w)
      else if negb (event_loop_ok (platform w)) then (false, w)
      else
        let created :=
          match ethEventGroup (inst w) with
          | Some _ => Some w
          | None =>
              if event_group_alloc (platform w)
              then Some (upd (set_ethEventGroup (Some 0)) w)
              else None
          end in
        match created with
        | None => (false, upd (set_lastError MEMORY_ALLOCATION_FAILED) w)
        | Some w1 =>
            if eventHandlersRegistered (inst w1) then (true, w1)
            else
              let w2 := emit (EventHandlerRegister IP_EVENT) w1 in
              if negb (register_ip_ok (platform w2)) then
                (false, upd (set_ethEventGroup None) w2)
              else
                let w3 := emit (EventHandlerRegister ETH_EVENT) w2 in
                if negb (register_eth_ok (platform w3)) then
                  (false, upd (set_ethEventGroup None)
                            (emit (EventHandlerUnregister IP_EVENT) w3))
                else (true, upd (set_eventHandlersRegistered true) w3)
        end
  end.

(** The early-initialisation step shared by both initialisers. *)
Definition ensureEarlyInit (w : World) : bool * World :=
  if negb (mutexCreated (inst w))
     || match ethEventGroup (inst w) with None => true | Some _ => false end
     || negb (eventHandlersRegistered (inst w))
  then earlyInit w
  else (true, w).

Definition clearConnectedBit (w : World) : World :=
  upd (fun m =>
    set_ethEventGroup
      (option_map (fun g => xEventGroupClearBits g BIT_CONNECTED)
                  (ethEventGroup m)) m) w.

(** [pin < -1 || pin >= GPIO_NUM_MAX] *)
Definition invalid_pin (pin : Z) : bool :=
  (pin <? -1) || (GPIO_NUM_MAX <=? pin).

(** [phy_addr < 0 || phy_addr > ETH_MAX_PHY_ADDRESS] *)
Definition invalid_phy_addr (phy_addr : Z) : bool :=
  (phy_addr <? 0) || (ETH_MAX_PHY_ADDRESS <? phy_addr).

Definition result_is_ok (r : EthResult) : bool :=
  match r with ResOk => true | ResErr _ => false end.

(** ** EthernetManager::internalInit

    [hostname] is [None] for a null pointer, [customMac] likewise.  The
    result is [None] only when the final wait runs out of fuel. *)
Definition internalInit (env : Blocking) (fuel : nat)
  (hostname : option string)
  (phy_addr mdc_pin mdio_pin power_pin clock_mode : Z)
  (customMac : option (list Z)) (waitForConn : bool) (w : World)
  : option (bool * World) :=
  if phyStarted (inst w)
     && negb (state_eqb (connectionState (inst w)) UNINITIALIZED)
  then Some (false, upd (set_lastError ALREADY_INITIALIZED) w)
  else
    match hostname with
    | None =>
        Some (false, changeState ERROR_STATE
                       (upd (set_lastError INVALID_PARAMETER) w))
    | Some h =>
        if Nat.eqb (String.length h) 0 then
          Some (false, changeState ERROR_STATE
                         (upd (set_lastError INVALID_PARAMETER) w))
        else if Nat.ltb ETH_MAX_HOSTNAME_LENGTH (String.length h) then
          Some (false, changeState ERROR_STATE
                         (upd (set_lastError INVALID_PARAMETER) w))
        else if invalid_phy_addr phy_addr then Some (false, w)
        else if invalid_pin mdc_pin then Some (false, w)
        else if invalid_pin mdio_pin then Some (false, w)
        else if invalid_pin power_pin then Some (false, w)
        else
          let (early, w1) := ensureEarlyInit w in
          if negb early then Some (false, w1)
          else if negb (MutexGuard (ethMutex (inst w1))) then Some (false, w1)
          else
            let w2 := clearConnectedBit w1 in
            let w3 := match customMac with
                      | Some mac =>
                          upd (fun m => set_hasCustomMac true
                                 (set_customMacAddress
                                    (firstn ETH_MAC_ADDRESS_SIZE mac) m)) w2
                      | None => w2
                      end in
            let w4 := changeState PHY_STARTING w3 in
            let w5 := emit (EthBegin phy_addr mdc_pin mdio_pin power_pin
                                     clock_mode)
                           (emit (EthSetHostname h) w4) in
            let success := eth_begin_result (platform w5) in
            let w6 := if success && hasCustomMac (inst w5)
                      then emit (EthConfig INADDR_NONE INADDR_NONE INADDR_NONE
                                   INADDR_NONE INADDR_NONE
                                   (Some (customMacAddress (inst w5)))) w5
                      else w5 in
            if negb success then
              Some (false, changeState ERROR_STATE
                             (upd (set_lastError PHY_START_FAILED) w6))
            else
              let w7 := upd (fun m => set_eth_netif (netif_handle (platform w6))
                                        (set_phyStarted true m)) w6 in
              let w8 :=
                match eth_netif (inst w7) with
                | None => w7
                | Some _ =>
                    let w' := upd (set_netifCreated true) w7 in
                    match netif_hostname (platform w') with
                    | Some cur =>
                        if String.eqb cur h then w'
                        else emit (NetifSetHostname h) w'
                    | None => emit (NetifSetHostname h) w'
                    end
                end in
              if negb waitForConn then Some (true, w8)
              else
                match waitForConnection env fuel ETH_INIT_TIMEOUT_MS w8 with
                | None => None
                | Some (r, w9) => Some (result_is_ok r, w9)
                end
    end.

(** ** EthernetManager::internalInitStatic *)
Definition internalInitStatic (env : Blocking) (fuel : nat)
  (hostname : option string) (local_ip gateway subnet dns1 dns2 : Z)
  (phy_addr mdc_pin mdio_pin power_pin clock_mode : Z) (w : World)
  : option (bool * World) :=
  match hostname with
  | None => Some (false, w)
  | Some h =>
      if Nat.eqb (String.length h) 0 then Some (false, w)
      else if local_ip =? 0 then Some (false, w)
      else if gateway =? 0 then Some (false, w)
      else if subnet =? 0 then Some (false, w)
      else if invalid_phy_addr phy_addr then Some (false, w)
      else if invalid_pin mdc_pin then Some (false, w)
      else if invalid_pin mdio_pin then Some (false, w)
      else if invalid_pin power_pin then Some (false, w)
      else
        let (early, w1) := ensureEarlyInit w in
        if negb early then Some (false, w1)
        else if negb (MutexGuard (ethMutex (inst w1))) then Some (false, w1)
        else
          let w2 := clearConnectedBit w1 in
          let w3 := emit (EthBegin phy_addr mdc_pin mdio_pin power_pin
                                   clock_mode)
                         (emit (EthSetHostname h) w2) in
          let began := eth_begin_result (platform w3) in
          let w4 :=
            if began then
              emit (EthConfig local_ip gateway subnet dns1 dns2
                      (if hasCustomMac (inst w3)
                       then Some (customMacAddress (inst w3)) else None)) w3
            else w3 in
          let success := began && eth_config_result (platform w4) in
          if negb success then Some (false, w4)
          else
            let w5 := upd (fun m => set_eth_netif (netif_handle (platform w4))
                                      (set_phyStarted true m)) w4 in
            let w6 := match eth_netif (inst w5) with
                      | None => w5
                      | Some _ => upd (set_netifCreated true) w5
                      end in
            match waitForConnection env fuel ETH_INIT_TIMEOUT_MS w6 with
            | None => None
            | Some (r, w7) => Some (result_is_ok r, w7)
            end
  end.

(** [result ? EthResult<void>::ok() : EthResult<void>(inst.lastError)] *)
Definition to_result (r : option (bool * World))
  : option (EthResult * World) :=
  match r with
  | None => None
  | Some (true, w) => Some (ResOk, w)
  | Some (false, w) => Some (ResErr (lastError (inst w)), w)
  end.

(** ** The public initialisers with explicit parameters *)

Definition initialize (env : Blocking) (fuel : nat) (hostname : option string)
  (phy_addr mdc_pin mdio_pin power_pin clock_mode : Z) (w : World)
  : option (EthResult * World) :=
  to_result
    (internalInit env fuel hostname phy_addr mdc_pin mdio_pin power_pin
       clock_mode
       (if hasCustomMac (inst w) then Some (customMacAddress (inst w))
        else None)
       true w).

Definition initializeStatic (env : Blocking) (fuel : nat)
  (hostname : option string) (local_ip gateway subnet dns1 dns2 : Z)
  (phy_addr mdc_pin mdio_pin power_pin clock_mode : Z) (w : World)
  : option (EthResult * World) :=
  to_result
    (internalInitStatic env fuel hostname local_ip gateway subnet dns1 dns2
       phy_addr mdc_pin mdio_pin power_pin clock_mode w).

Definition initializeAsync (env : Blocking) (fuel : nat)
  (hostname : option string)
  (phy_addr mdc_pin mdio_pin power_pin clock_mode : Z)
  (customMac : option (list Z)) (w : World) : option (EthResult * World) :=
  to_result
    (internalInit env fuel hostname phy_addr mdc_pin mdio_pin power_pin
       clock_mode customMac false w).

(** ** EthernetConfig and the initialisers that take one *)

Record EthernetConfig : Type := mkConfig {
  hostname : option string;
  phy_addr : Z;
  mdc_pin : Z;
  mdio_pin : Z;
  power_pin : Z;
  clock_mode : Z;
  custom_mac : option (list Z);
  use_static_ip : bool;
  static_ip : Z;
  gateway : Z;
  subnet : Z;
  primary_dns : Z;
  secondary_dns : Z;
  enable_link_monitoring : bool;
  link_monitor_interval : Z;
  enable_auto_reconnect : bool;
  reconnect_max_retries : Z;
  reconnect_initial_delay : Z;
  reconnect_max_delay : Z
}.

(** ** EthernetManager::setMacAddress *)
Definition setMacAddress (mac : option (list Z)) (w : World) : World :=
  match mac with
  | None => w
  | Some bytes =>
      if MutexGuard (ethMutex (inst w)) then
        upd (fun m => set_hasCustomMac true
               (set_customMacAddress (firstn ETH_MAC_ADDRESS_SIZE bytes) m)) w
      else w
  end.

(** ** EthernetManager::setLinkMonitoring *)
Definition setLinkMonitoring (enable : bool) (intervalMs : Z) (w : World)
  : World :=
  if MutexGuard (ethMutex (inst w)) then
    upd (fun m =>
      let m1 := set_linkMonitoringInterval intervalMs
                  (set_linkMonitoringEnabled enable m) in
      if enable then
        let m2 := match linkMonitorTimer m1 with
                  | Some _ => m1
                  | None =>
                      set_linkMonitorTimer
                        (xTimerCreate (platform w) intervalMs) m1
                  end in
        match linkMonitorTimer m2 with
        | Some t =>
            set_linkMonitorTimer
              (Some (xTimerStart (xTimerChangePeriod t intervalMs))) m2
        | None => m2
        end
      else
        match linkMonitorTimer m1 with
        | Some t => set_linkMonitorTimer (Some (xTimerStop t)) m1
        | None => m1
        end) w
  else w.

Definition applyConfig (config : EthernetConfig) (w : World) : World :=
  let w1 := setMacAddress (custom_mac config) w in
  if enable_auto_reconnect config
  then setAutoReconnect true (reconnect_max_retries config)
         (reconnect_initial_delay config) (reconnect_max_delay config) w1
  else w1.

Definition finishConfig (config : EthernetConfig)
  (r : option (EthResult * World)) : option (EthResult * World) :=
  match r with
  | Some (ResOk, w) =>
      Some (ResOk,
            if enable_link_monitoring config
            then setLinkMonitoring true (link_monitor_interval config) w
            else w)
  | other => other
  end.

(** [initialize(const EthernetConfig&)] *)
Definition initialize_config (env : Blocking) (fuel : nat)
  (config : EthernetConfig) (w : World) : option (EthResult * World) :=
  let w1 := applyConfig config w in
  finishConfig config
    (if use_static_ip config then
       initializeStatic env fuel (hostname config) (static_ip config)
         (gateway config) (subnet config) (primary_dns config)
         (secondary_dns config) (phy_addr config) (mdc_pin config)
         (mdio_pin config) (power_pin config) (clock_mode config) w1
     else
       to_result
         (internalInit env fuel (hostname config) (phy_addr config)
            (mdc_pin config) (mdio_pin config) (power_pin config)
            (clock_mode config) (custom_mac config) true w1)).

(** [initializeAsync(const EthernetConfig&)] *)
Definition initializeAsync_config (env : Blocking) (fuel : nat)
  (config : EthernetConfig) (w : World) : option (EthResult * World) :=
  let w1 := applyConfig config w in
  finishConfig config
    (to_result
       (if use_static_ip config then
          internalInitStatic env fuel (hostname config) (static_ip config)
            (gateway config) (subnet config) (primary_dns config)
            (secondary_dns config) (phy_addr config) (mdc_pin config)
            (mdio_pin config) (power_pin config) (clock_mode config) w1
        else
          internalInit env fuel (hostname config) (phy_addr config)
            (mdc_pin config) (mdio_pin config) (power_pin config)
            (clock_mode config) (custom_mac config) false w1)).

(** An environment in which the connected signal is never set: while the
    caller is blocked the full wait passes on the clock, the event group
    stays in place and its connected bit stays clear. *)
Definition quiet (env : Blocking) : Prop :=
  forall (w : World) (waitTime : Z) (g : EventBits_t),
    ethEventGroup (inst w) = Some g ->
    connected_bit (Some g) = false ->
    millis (env w waitTime) = u32 (millis w + waitTime) /\
    exists g', ethEventGroup (inst (env w waitTime)) = Some g' /\
               connected_bit (Some g') = false.

(** The result of a call, without the world it leaves. *)
Definition outcome (r : option (EthResult * World)) : option EthResult :=
  option_map fst r.

(** An event as the notification substrate delivers it: the time of
    delivery, the base and the identifier. *)
Record Delivery : Type := mkDelivery {
  at_ms : Z;
  ev_base : option esp_event_base_t;
  ev_id : Z
}.

Definition is_address_acquired (d : Delivery) : bool :=
  match ev_base d with
  | Some IP_EVENT => ev_id d =? IP_EVENT_GOT_IP
  | _ => false
  end.

(** Deliver the events in order, each at its own time. *)
Fixpoint deliver (ds : list Delivery) (w : World) : World :=
  match ds with
  | [] => w
  | d :: rest =>
      deliver rest (onEthEvent (ev_base d) (ev_id d) (set_millis (at_ms d) w))
  end.

(** ** Sample worlds used by the closed examples *)

(** A platform on which every service succeeds and the cable is plugged. *)
Definition good_platform : Platform :=
  mkPlatform true true true 3232235876 (Some 1) None true true true true true
    true.

(** While the caller is blocked nothing happens but the passing of time. *)
Definition idle : Blocking :=
  fun w waitTime => set_millis (u32 (millis w + waitTime)) w.

Definition link_lost (id : Z) : bool :=
  (id =? ETHERNET_EVENT_DISCONNECTED) || (id =? ETHERNET_EVENT_STOP).

(** Time since the link came up, as the handler computes it. *)
Definition elapsed (w : World) : Z :=
  u32 (millis w - connectionStartTime (inst w)).

(** The worlds of a small session: boot, asynchronous start, cable
    plugged at 1200 ms, address acquired at 1500 ms. *)
Definition after (r : option (EthResult * World)) (otherwise : World)
  : World :=
  match r with
  | Some (_, w) => w
  | None => otherwise
  end.

Definition booted : World := boot good_platform 1000.

Definition started : World :=
  after (initializeAsync idle 0 (Some "esp32-ethernet"%string)
           0 23 18 (-1) 0 None booted) booted.

Definition link_up : World :=
  onEthEvent (Some ETH_EVENT) ETHERNET_EVENT_CONNECTED
    (set_millis 1200 started).

Definition connected : World :=
  onEthEvent (Some IP_EVENT) IP_EVENT_GOT_IP (set_millis 1500 link_up).

(** The link is lost at 5000 ms and the address obtained again at
    6000 ms. *)
Definition reconnected : World :=
  onEthEvent (Some IP_EVENT) IP_EVENT_GOT_IP
    (set_millis 6000
       (onEthEvent (Some ETH_EVENT) ETHERNET_EVENT_DISCONNECTED
          (set_millis 5000 connected))).

(** How many times the trace shows a call of [ETH.begin]. *)
Fixpoint begin_calls (tr : list Effect) : nat :=
  match tr with
  | [] => O
  | EthBegin _ _ _ _ _ :: rest => S (begin_calls rest)
  | _ :: rest => begin_calls rest
  end.

(** A manager counts as started when the guard of [internalInit] says so. *)
Definition already_started (w : World) : bool :=
  phyStarted (inst w)
  && negb (state_eqb (connectionState (inst w)) UNINITIALIZED).

(** The hostnames [internalInit] rejects: null, empty, over-length. *)
Definition invalid_hostname (hostname : option string) : bool :=
  match hostname with
  | None => true
  | Some h =>
      Nat.eqb (String.length h) 0
      || Nat.ltb ETH_MAX_HOSTNAME_LENGTH (String.length h)
  end.

Definition sample_ip : Z := 3232235876.      (* 192.168.1.100 *)
Definition sample_gateway : Z := 3232235777. (* 192.168.1.1 *)
Definition sample_subnet : Z := 4294967040.  (* 255.255.255.0 *)
Definition sample_hostname : option string :=
  Some "esp32-ethernet"%string.

(** The delay before the [k]-th expiry of the reconnect timer, counting
    from 0: [D, min(2D,M), min(4D,M), ...]. *)
Definition backoff_delay (D M : Z) (k : nat) : Z :=
  match k with
  | O => D
  | S _ => Z.min (2 ^ Z.of_nat k * D) M
  end.

Fixpoint non_decreasing (l : list Z) : Prop :=
  match l with
  | a :: (b :: _) as rest => a <= b /\ non_decreasing rest
  | _ => True
  end.

(** The reconnect timer is running towards its [k]-th expiry. *)
Definition backing_off (N D M : Z) (k : nat) (w : World) : Prop :=
  MutexGuard (ethMutex (inst w)) = true /\
  reconnectMaxRetries (inst w) = N /\
  reconnectAttempts (inst w) = u8 (Z.of_nat k) /\
  reconnectMaxDelay (inst w) = M /\
  reconnectCurrentDelay (inst w) = backoff_delay D M k /\
  reconnectTimer (inst w) = Some (mkTimer (backoff_delay D M k) true).

(** The reconnect timer has stopped for good after its [k]-th expiry. *)
Definition gave_up (w : World) : Prop :=
  autoReconnectEnabled (inst w) = false /\
  exists t, reconnectTimer (inst w) = Some t /\ active t = false.

(** How many times the timer expires within [n] expiries when it is
    running towards its [k]-th. *)
Definition firings (N : Z) (n k : nat) : nat :=
  if N =? 0 then n else Nat.min n (Z.to_nat N + 1 - k).

(** * The rest of the public surface *)

(** ** EthernetManager::disconnect

    Both early returns leave the function, so the callback after the
    guarded block is reached only when the teardown ran. *)
Definition disconnect (w : World) : World :=
  if negb (MutexGuard (ethMutex (inst w))) then w
  else if state_eqb (connectionState (inst w)) UNINITIALIZED then w
  else
    let wasConnected :=
      state_eqb (connectionState (inst w)) CONNECTED
      && (0 <? connectionStartTime (inst w)) in
    let connectedDuration :=
      if wasConnected
      then u32 (millis w - connectionStartTime (inst w)) else 0 in
    let w1 :=
      if wasConnected then
        upd (fun m => set_stats
               (set_disconnectCount
                  (u32 (disconnectCount (stats m) + 1)) (stats m)) m) w
      else w in
    let w2 := changeState DISCONNECTING w1 in
    let w3 :=
      if autoReconnectEnabled (inst w2) then
        upd (fun m => set_reconnectTimer
               (option_map xTimerStop (reconnectTimer m))
               (set_autoReconnectEnabled false m)) w2
      else w2 in
    let w4 := upd (fun m => set_linkMonitorTimer
                     (option_map xTimerStop (linkMonitorTimer m)) m) w3 in
    let w5 := upd (fun m => set_connectionStartTime 0
                     (set_gotIpAtLeastOnce false
                        (set_phyStarted false m))) w4 in
    let w6 := changeState UNINITIALIZED w5 in
    if 0 <? connectedDuration
    then invoke (disconnectedCallback (inst w6))
                (fun cb => CallDisconnected cb connectedDuration) w6
    else w6.

(** ** EthernetManager::resetInterface *)
Definition resetInterface (w : World) : bool * World :=
  if negb (phyStarted (inst w)) then (false, w)
  else if negb (MutexGuard (ethMutex (inst w))) then (false, w)
  else
    let w1 := upd (set_gotIpAtLeastOnce false) (clearConnectedBit w) in
    let w2 := changeState LINK_DOWN w1 in
    let w3 :=
      if autoReconnectEnabled (inst w2) then
        match reconnectTimer (inst w2) with
        | Some t =>
            upd (fun m => set_reconnectTimer (Some (xTimerStart t))
                   (set_reconnectCurrentDelay (reconnectInitialDelay m)
                      (set_reconnectAttempts 0 m))) w2
        | None => w2
        end
      else w2 in
    (true, w3).

(** ** EthernetManager::resetStatistics and getStatistics *)
Definition resetStatistics (w : World) : World :=
  if MutexGuard (ethMutex (inst w))
  then upd (set_stats zero_stats) w
  else w.

Definition getStatistics (w : World) : NetworkStats :=
  if MutexGuard (ethMutex (inst w)) then
    if isConnected w && (0 <? connectTime (stats (inst w)))
    then set_uptimeMs (u32 (millis w - connectTime (stats (inst w))))
           (stats (inst w))
    else stats (inst w)
  else zero_stats.

(** ** EthernetManager::getUptimeMs (EthernetManager.h) *)
Definition getUptimeMs (w : World) : Z :=
  if isConnected w && (0 <? connectTime (stats (inst w)))
  then u32 (millis w - connectTime (stats (inst w)))
  else 0.

(** [String(n)] for an unsigned number: its decimal digits. *)
Definition decimal (n : Z) : string :=
  NilZero.string_of_uint (N.to_uint (Z.to_N n)).

(** ** EthernetManager::getUptimeString *)
Definition getUptimeString (w : World) : string :=
  let uptimeMs := getUptimeMs w in
  if uptimeMs =? 0 then "Not connected"%string
  else
    let seconds := uptimeMs / 1000 in
    let minutes := seconds / 60 in
    let hours := minutes / 60 in
    let days := hours / 24 in
    let seconds := seconds mod 60 in
    let minutes := minutes mod 60 in
    let hours := hours mod 24 in
    String.append
      (if 0 <? days then String.append (decimal days) "d "%string
       else ""%string)
      (String.append
         (if (0 <? hours) || (0 <? days)
          then String.append (decimal hours) "h "%string else ""%string)
         (String.append
            (if (0 <? minutes) || (0 <? hours) || (0 <? days)
             then String.append (decimal minutes) "m "%string
             else ""%string)
            (String.append (decimal seconds) "s"%string))).

(** ** EthernetManager::getPerformanceMetrics

    [None] when the function returns false and leaves its four outputs
    alone; otherwise the outputs in the order of the parameters. *)
Definition getPerformanceMetrics (w : World) : option (Z * Z * Z * Z) :=
  let m := inst w in
  if initStartTime m =? 0 then None
  else
    Some ((if 0 <? linkUpTime m
           then u32 (linkUpTime m - initStartTime m) else 0),
          (if (0 <? ipObtainedTime m) && (0 <? linkUpTime m)
           then u32 (ipObtainedTime m - linkUpTime m) else 0),
          (if 0 <? ipObtainedTime m
           then u32 (ipObtainedTime m - initStartTime m) else 0),
          totalEventCount m).

(** ** EthernetManager::checkLinkStatus and isLinkUp *)
Definition checkLinkStatus (w : World) : bool * World :=
  if negb (phyStarted (inst w)) then (false, w)
  else (eth_linkUp (platform w), snd (updateLinkStatus w)).

Definition isLinkUp (w : World) : bool :=
  phyStarted (inst w) && eth_linkUp (platform w).

(** ** The callback setters *)
Definition setConnectedCallback (cb : option Callback) (w : World) : World :=
  if MutexGuard (ethMutex (inst w))
  then upd (set_connectedCallback cb) w else w.

Definition setDisconnectedCallback (cb : option Callback) (w : World)
  : World :=
  if MutexGuard (ethMutex (inst w))
  then upd (set_disconnectedCallback cb) w else w.

Definition setStateChangeCallback (cb : option Callback) (w : World)
  : World :=
  if MutexGuard (ethMutex (inst w))
  then upd (set_stateChangeCallback cb) w else w.

Definition setLinkStatusCallback (cb : option Callback) (w : World)
  : World :=
  if MutexGuard (ethMutex (inst w))
  then upd (set_linkStatusCallback cb) w else w.

(** ** EthernetManager::errorToString and stateToString *)
Definition errorToString (error : EthError) : string :=
  match error with
  | OK => "OK"
  | INVALID_PARAMETER => "Invalid parameter"
  | MUTEX_TIMEOUT => "Mutex timeout"
  | ALREADY_INITIALIZED => "Already initialized"
  | NOT_INITIALIZED => "Not initialized"
  | PHY_START_FAILED => "PHY start failed"
  | CONFIG_FAILED => "Configuration failed"
  | CONNECTION_TIMEOUT => "Connection timeout"
  | EVENT_HANDLER_FAILED => "Event handler failed"
  | MEMORY_ALLOCATION_FAILED => "Memory allocation failed"
  | NETIF_ERROR => "Network interface error"
  | UNKNOWN_ERROR => "Unknown error"
  end%string.

Definition stateToString (state : EthConnectionState) : string :=
  match state with
  | UNINITIALIZED => "Uninitialized"
  | PHY_STARTING => "PHY Starting"
  | LINK_DOWN => "Link Down"
  | LINK_UP => "Link Up"
  | OBTAINING_IP => "Obtaining IP"
  | CONNECTED => "Connected"
  | DISCONNECTING => "Disconnecting"
  | ERROR_STATE => "Error"
  end%string.

(** ** Predicates used in the statements *)

(** Every service [earlyInit] and the bring-up ask of the platform
    succeeds, except possibly [ETH.begin] itself. *)
Definition services_ok (p : Platform) : bool :=
  event_loop_ok p && register_ip_ok p && register_eth_ok p
  && event_group_alloc p.

(** The parameters [internalInit] accepts. *)
Definition valid_parameters (hostname : option string)
  (phy_addr mdc_pin mdio_pin power_pin : Z) : bool :=
  negb (invalid_hostname hostname) && negb (invalid_phy_addr phy_addr)
  && negb (invalid_pin mdc_pin) && negb (invalid_pin mdio_pin)
  && negb (invalid_pin power_pin).

(** The events the handler has a branch for. *)
Definition recognized (b : esp_event_base_t) (id : Z) : bool :=
  match b with
  | IP_EVENT => id =? IP_EVENT_GOT_IP
  | ETH_EVENT =>
      (id =? ETHERNET_EVENT_CONNECTED) || (id =? ETHERNET_EVENT_DISCONNECTED)
      || (id =? ETHERNET_EVENT_STOP)
  | OTHER_EVENT _ => false
  end.

Definition timer_running (t : option Timer) : bool :=
  match t with
  | Some x => active x
  | None => false
  end.

(** A counter after one operation: untouched, or incremented once. *)
Definition stays_or_steps (before after : Z) : Prop :=
  after = before \/ after = u32 (before + 1).

(** The call a callback slot gives rise to: none when it is empty. *)
Definition calls (slot : option Callback) (call : Callback -> Effect)
  : list Effect :=
  match slot with
  | Some cb => [call cb]
  | None => []
  end.

(** The disconnect request finds an established connection. *)
Definition was_connected (w : World) : bool :=
  state_eqb (connectionState (inst w)) CONNECTED
  && (0 <? connectionStartTime (inst w)).

(** Another task holds the mutex: every [MutexGuard] of the caller times
    out. *)
Definition mutex_held_elsewhere (w : World) : World :=
  upd (fun m =>
    mkManager
      (ethEventGroup m) (lastGotIpTime m) (connectionStartTime m)
      (gotIpAtLeastOnce m) (phyStarted m) (eventHandlersRegistered m)
      (customMacAddress m) (hasCustomMac m) (eth_netif m) (netifCreated m)
      (option_map (fun _ => HeldElsewhere) (ethMutex m)) (mutexCreated m)
      (lastError m) (stats m) (connectedCallback m)
      (disconnectedCallback m) (stateChangeCallback m) (linkStatusCallback m)
      (autoReconnectEnabled m) (reconnectMaxRetries m) (reconnectAttempts m)
      (reconnectInitialDelay m) (reconnectMaxDelay m)
      (reconnectCurrentDelay m) (reconnectTimer m) (connectionState m)
      (previousState m) (linkMonitoringEnabled m) (linkMonitoringInterval m)
      (linkMonitorTimer m) (lastLinkStatus m) (initStartTime m)
      (linkUpTime m) (ipObtainedTime m) (totalEventCount m)) w.

(** The cable is pulled: the platform of [w] with the link down. *)
Definition cable_pulled (w : World) : World :=
  let p := platform w in
  set_platform
    (mkPlatform (eth_begin_result p) (eth_config_result p) false
       (eth_localIP p) (netif_handle p) (netif_hostname p)
       (event_loop_ok p) (register_ip_ok p) (register_eth_ok p)
       (event_group_alloc p) (mutex_alloc p) (timer_alloc p)) w.

(** The parameters [internalInitStatic] accepts. *)
Definition valid_static_parameters (hostname : option string)
  (local_ip gateway subnet phy_addr mdc_pin mdio_pin power_pin : Z) : bool :=
  match hostname with
  | None => false
  | Some h => negb (Nat.eqb (String.length h) 0)
  end
  && negb (local_ip =? 0) && negb (gateway =? 0) && negb (subnet =? 0)
  && negb (invalid_phy_addr phy_addr) && negb (invalid_pin mdc_pin)
  && negb (invalid_pin mdio_pin) && negb (invalid_pin power_pin).

(** How many times the trace shows a call of [ETH.config]. *)
Fixpoint config_calls (tr : list Effect) : nat :=
  match tr with
  | [] => O
  | EthConfig _ _ _ _ _ _ :: rest => S (config_calls rest)
  | _ :: rest => config_calls rest
  end.

(** * Sessions

    The operations of the manager in the order in which they run: the
    public functions, the event handler and the two timer callbacks.  The
    public initialisers are [internalInit] and [internalInitStatic] with
    the arguments they pass on; those that take a configuration run
    [setMacAddress] and [setAutoReconnect] before and [setLinkMonitoring]
    after.  [Clock] is the passing of time between two operations. *)
Inductive Operation : Type :=
| Clock (now : Z)
| Event (base : option esp_event_base_t) (id : Z)
| Start (env : Blocking) (fuel : nat) (hostname : option string)
    (phy_addr mdc_pin mdio_pin power_pin clock_mode : Z)
    (customMac : option (list Z)) (waitForConn : bool)
| StartStatic (env : Blocking) (fuel : nat) (hostname : option string)
    (local_ip gateway subnet dns1 dns2 : Z)
    (phy_addr mdc_pin mdio_pin power_pin clock_mode : Z)
| EarlyInit
| Wait (env : Blocking) (fuel : nat) (timeout_ms : Z)
| Cleanup
| Disconnect
| ResetInterface
| CheckLinkStatus
| LinkMonitorTask
| ReconnectTimerExpiry
| SetLinkMonitoring (enable : bool) (intervalMs : Z)
| SetAutoReconnect (enable : bool)
    (maxRetries initialDelayMs maxDelayMs : Z)
| SetMacAddress (mac : option (list Z))
| ResetStatistics
| SetConnectedCallback (cb : option Callback)
| SetDisconnectedCallback (cb : option Callback)
| SetStateChangeCallback (cb : option Callback)
| SetLinkStatusCallback (cb : option Callback).

(** The world a call leaves; [otherwise] when the model of a blocking
    call runs out of fuel. *)
Definition landed {A : Type} (r : option (A * World)) (otherwise : World)
  : World :=
  match r with
  | Some (_, w) => w
  | None => otherwise
  end.

Definition perform (op : Operation) (w : World) : World :=
  match op with
  | Clock now => set_millis now w
  | Event base id => onEthEvent base id w
  | Start env fuel hostname phy_addr mdc_pin mdio_pin power_pin clock_mode
      customMac waitForConn =>
      landed (internalInit env fuel hostname phy_addr mdc_pin mdio_pin
                power_pin clock_mode customMac waitForConn w) w
  | StartStatic env fuel hostname local_ip gateway subnet dns1 dns2
      phy_addr mdc_pin mdio_pin power_pin clock_mode =>
      landed (internalInitStatic env fuel hostname local_ip gateway subnet
                dns1 dns2 phy_addr mdc_pin mdio_pin power_pin clock_mode w) w
  | EarlyInit => snd (earlyInit w)
  | Wait env fuel timeout_ms => landed (waitForConnection env fuel timeout_ms w) w
  | Cleanup => cleanup w
  | Disconnect => disconnect w
  | ResetInterface => snd (resetInterface w)
  | CheckLinkStatus => snd (checkLinkStatus w)
  | LinkMonitorTask => snd (updateLinkStatus w)
  | ReconnectTimerExpiry =>
      match reconnectTimerExpires w with
      | Some w' => w'
      | None => w
      end
  | SetLinkMonitoring enable intervalMs => setLinkMonitoring enable intervalMs w
  | SetAutoReconnect enable maxRetries initialDelayMs maxDelayMs =>
      setAutoReconnect enable maxRetries initialDelayMs maxDelayMs w
  | SetMacAddress mac => setMacAddress mac w
  | ResetStatistics => resetStatistics w
  | SetConnectedCallback cb => setConnectedCallback cb w
  | SetDisconnectedCallback cb => setDisconnectedCallback cb w
  | SetStateChangeCallback cb => setStateChangeCallback cb w
  | SetLinkStatusCallback cb => setLinkStatusCallback cb w
  end.

Fixpoint run (ops : list Operation) (w : World) : World :=
  match ops with
  | [] => w
  | op :: rest => run rest (perform op w)
  end.

(** The environment of an operation that blocks. *)
Definition environment (op : Operation) : option Blocking :=
  match op with
  | Start env _ _ _ _ _ _ _ _ true => Some env
  | StartStatic env _ _ _ _ _ _ _ _ _ _ _ _ => Some env
  | Wait env _ _ => Some env
  | _ => None
  end.

(** What the other tasks do while a caller is blocked keeps [I]. *)
Definition keeps (I : World -> Prop) (env : Blocking) : Prop :=
  forall (w : World) (waitTime : Z), I w -> I (env w waitTime).

Definition environment_keeps (I : World -> Prop) (op : Operation) : Prop :=
  match environment op with
  | Some env => keeps I env
  | None => True
  end.

(** ** The handlers and the event group *)

(** While the handlers are registered the event group exists. *)
Definition handlers_need_group (w : World) : Prop :=
  eventHandlersRegistered (inst w) = true -> ethEventGroup (inst w) <> None.

(** ** Holding an address *)

Definition address_held (w : World) : Prop :=
  gotIpAtLeastOnce (inst w) = true.

(** The event is a link loss that the handler confirms: it takes the
    branch that ends in [LINK_DOWN]. *)
Definition confirmed_loss (base : option esp_event_base_t) (id : Z)
  (w : World) : bool :=
  match base, ethEventGroup (inst w) with
  | Some ETH_EVENT, Some _ =>
      link_lost id && gotIpAtLeastOnce (inst w)
      && negb (elapsed w <? ETH_CONNECTION_TRUST_WINDOW_MS)
  | _, _ => false
  end.

(** The operation does not clear the address flag: it is no confirmed
    link loss and none of the three teardowns. *)
Definition keeps_address (op : Operation) (w : World) : Prop :=
  match op with
  | Event base id => confirmed_loss base id w = false
  | Cleanup | Disconnect | ResetInterface => False
  | _ => environment_keeps address_held op
  end.

Fixpoint address_kept (ops : list Operation) (w : World) : Prop :=
  match ops with
  | [] => True
  | op :: rest => keeps_address op w /\ address_kept rest (perform op w)
  end.

(** ** The reconnect timer between its creation and its first start *)

(** [setAutoReconnect(true, N, D, M)] has created the timer and nothing
    has started it or changed the settings since. *)
Definition armed (N D M : Z) (w : World) : Prop :=
  MutexGuard (ethMutex (inst w)) = true /\
  autoReconnectEnabled (inst w) = true /\
  reconnectMaxRetries (inst w) = N /\
  reconnectInitialDelay (inst w) = D /\
  reconnectMaxDelay (inst w) = M /\
  reconnectAttempts (inst w) = 0 /\
  reconnectCurrentDelay (inst w) = D /\
  reconnectTimer (inst w) = Some (mkTimer D false).

Definition leaves_armed (N D M : Z) (op : Operation) (w : World) : Prop :=
  match op with
  | Event base id => confirmed_loss base id w = false
  | Cleanup | Disconnect | ResetInterface => False
  | SetAutoReconnect _ _ _ _ => False
  | _ => environment_keeps (armed N D M) op
  end.

Fixpoint undisturbed (N D M : Z) (ops : list Operation) (w : World) : Prop :=
  match ops with
  | [] => True
  | op :: rest =>
      leaves_armed N D M op w /\ undisturbed N D M rest (perform op w)
  end.

(** ** What the invariants look at *)

Definition handler_view (m : EthernetManager) : bool * bool :=
  (eventHandlersRegistered m,
   match ethEventGroup m with Some _ => true | None => false end).

Definition reconnect_view (m : EthernetManager)
  : option Semaphore * bool * Z * Z * Z * Z * Z * option Timer :=
  (ethMutex m, autoReconnectEnabled m, reconnectMaxRetries m,
   reconnectInitialDelay m, reconnectMaxDelay m, reconnectAttempts m,
   reconnectCurrentDelay m, reconnectTimer m).

(** * Properties *)

(** ** Proof tools *)

Lemma state_eqb_eq (a b : EthConnectionState) :
  state_eqb a b = true <-> a = b.
Proof.
  split.
  - destruct a, b; simpl; intro H; try discriminate H; reflexivity.
  - intros ->. destruct b; reflexivity.
Qed.

(** Name every field of a world, so that field reads through chains of
    assignments compute. *)
Ltac open_now w :=
  let m := fresh "m" in
  destruct w as [m ? ? ?]; destruct m.

(** Case analysis on whatever the goal still branches on. *)
Ltac split_cases :=
  repeat match goal with
  | |- context [match ?x with _ => _ end] =>
      match type of x with
      | bool => destruct x eqn:?
      | option _ => destruct x eqn:?
      | EthConnectionState => destruct x eqn:?
      end; cbn in *; try discriminate
  end.

Ltac use_state_eqb :=
  repeat match goal with
  | H : state_eqb _ _ = true |- _ => apply state_eqb_eq in H
  | H : match ?x with _ => _ end = _ |- _ =>
      destruct x; try discriminate H; clear H
  end.

Lemma u32_small (x : Z) : 0 <= x < 2 ^ 32 -> u32 x = x.
Proof. intro H. unfold u32. apply Z.mod_small. exact H. Qed.

Lemma u32_succ (x : Z) : 0 <= x < UINT32_MAX -> u32 (x + 1) = x + 1.
Proof. unfold UINT32_MAX. intro H. apply u32_small. lia. Qed.

(** ** The event bridge *)

Lemma link_lost_cases (id : Z) :
  link_lost id = true ->
  (id =? ETHERNET_EVENT_START) = false /\
  (id =? ETHERNET_EVENT_CONNECTED) = false.
Proof.
  unfold link_lost, ETHERNET_EVENT_DISCONNECTED, ETHERNET_EVENT_STOP,
    ETHERNET_EVENT_START, ETHERNET_EVENT_CONNECTED.
  intros H. apply orb_true_iff in H.
  destruct H as [H | H]; apply Z.eqb_eq in H; subst id; split; reflexivity.
Qed.

(** Once the two guards are passed, a link-lost event is counted and handed
    to the disconnect branch. *)
Lemma onEthEvent_link_lost (w : World) (id : Z) (g : EventBits_t) :
  link_lost id = true ->
  ethEventGroup (inst w) = Some g ->
  onEthEvent (Some ETH_EVENT) id w =
  onEthDisconnected
    (upd (fun m => set_totalEventCount (u32 (totalEventCount m + 1)) m) w).
Proof.
  intros Hid Hg. unfold onEthEvent. rewrite Hg.
  destruct (link_lost_cases id Hid) as [E1 E2]. rewrite E1, E2.
  unfold link_lost in Hid. rewrite Hid. reflexivity.
Qed.

(** The trust window, as the handler has it.  A link-lost or PHY-stopped
    event that arrives while the address flag is set is ignored when the
    time since [connectionStartTime] is below the trust window (state,
    signal bits, statistics and callbacks untouched); at or past the window
    the state becomes [LINK_DOWN] and [disconnectCount] and
    [linkDownEvents] are each incremented once (as [uint32_t], so by
    exactly 1 below [UINT32_MAX]). *)
Lemma trust_window_while_flag_set (w : World) (id : Z) (g : EventBits_t) :
  link_lost id = true ->
  gotIpAtLeastOnce (inst w) = true ->
  ethEventGroup (inst w) = Some g ->
  let w' := onEthEvent (Some ETH_EVENT) id w in
  (elapsed w < ETH_CONNECTION_TRUST_WINDOW_MS ->
     connectionState (inst w') = connectionState (inst w) /\
     previousState (inst w') = previousState (inst w) /\
     ethEventGroup (inst w') = ethEventGroup (inst w) /\
     stats (inst w') = stats (inst w) /\
     trace w' = trace w) /\
  (ETH_CONNECTION_TRUST_WINDOW_MS <= elapsed w ->
     connectionState (inst w') = LINK_DOWN /\
     disconnectCount (stats (inst w'))
       = u32 (disconnectCount (stats (inst w)) + 1) /\
     linkDownEvents (stats (inst w'))
       = u32 (linkDownEvents (stats (inst w)) + 1) /\
     (0 <= disconnectCount (stats (inst w)) < UINT32_MAX ->
        disconnectCount (stats (inst w'))
          = disconnectCount (stats (inst w)) + 1) /\
     (0 <= linkDownEvents (stats (inst w)) < UINT32_MAX ->
        linkDownEvents (stats (inst w'))
          = linkDownEvents (stats (inst w)) + 1)).
Proof.
  intros Hid Hgot Hg w'. subst w'.
  rewrite (onEthEvent_link_lost w id g Hid Hg). clear Hid Hg.
  destruct w as [m now p tr]; destruct m. cbn in Hgot. subst.
  unfold onEthDisconnected, elapsed, changeState, invoke, emit, upd. cbn.
  split; intros Hwin.
  - apply Z.ltb_lt in Hwin. rewrite Hwin. cbn. auto.
  - apply Z.ltb_ge in Hwin. rewrite Hwin.
    split_cases; use_state_eqb; subst;
      repeat split; auto; intros; apply u32_succ; assumption.
Qed.

(** While the address flag is clear a link-lost or PHY-stopped event
    changes nothing but the event counter. *)
Lemma link_lost_ignored_while_flag_clear (w : World) (id : Z) :
  link_lost id = true ->
  gotIpAtLeastOnce (inst w) = false ->
  let w' := onEthEvent (Some ETH_EVENT) id w in
  connectionState (inst w') = connectionState (inst w) /\
  previousState (inst w') = previousState (inst w) /\
  stats (inst w') = stats (inst w) /\
  ethEventGroup (inst w') = ethEventGroup (inst w) /\
  gotIpAtLeastOnce (inst w') = false /\
  trace w' = trace w.
Proof.
  intros Hid Hgot w'. subst w'.
  destruct (ethEventGroup (inst w)) as [g |] eqn:Hg.
  - rewrite (onEthEvent_link_lost w id g Hid Hg). clear Hid.
    destruct w as [m now p tr]; destruct m. cbn in Hgot, Hg. subst.
    unfold onEthDisconnected, upd. cbn.
    repeat split; reflexivity.
  - unfold onEthEvent. rewrite Hg. repeat split; assumption.
Qed.

(** Read fields through assignments, and nothing else. *)
Ltac fields :=
  cbn [
    inst millis platform trace set_inst set_millis set_platform set_trace
    ethEventGroup lastGotIpTime connectionStartTime gotIpAtLeastOnce
    phyStarted eventHandlersRegistered customMacAddress hasCustomMac
    eth_netif netifCreated ethMutex mutexCreated lastError stats
    connectedCallback disconnectedCallback stateChangeCallback
    linkStatusCallback autoReconnectEnabled reconnectMaxRetries
    reconnectAttempts reconnectInitialDelay reconnectMaxDelay
    reconnectCurrentDelay reconnectTimer connectionState previousState
    linkMonitoringEnabled linkMonitoringInterval linkMonitorTimer
    lastLinkStatus initStartTime linkUpTime ipObtainedTime totalEventCount
    set_ethEventGroup set_lastGotIpTime set_connectionStartTime
    set_gotIpAtLeastOnce set_phyStarted set_eventHandlersRegistered
    set_customMacAddress set_hasCustomMac set_eth_netif set_netifCreated
    set_lastError set_stats set_connectedCallback set_disconnectedCallback
    set_stateChangeCallback set_linkStatusCallback set_autoReconnectEnabled
    set_reconnectMaxRetries set_reconnectAttempts set_reconnectInitialDelay
    set_reconnectMaxDelay set_reconnectCurrentDelay set_reconnectTimer
    set_connectionState set_previousState set_linkMonitoringEnabled
    set_linkMonitoringInterval set_linkMonitorTimer set_lastLinkStatus
    set_initStartTime set_linkUpTime set_ipObtainedTime set_totalEventCount
    connectTime disconnectCount reconnectCount txPackets rxPackets txBytes
    rxBytes linkDownEvents dhcpRenewals lastErrorCode uptimeMs
    set_connectTime set_disconnectCount set_reconnectCount
    set_linkDownEvents set_uptimeMs upd emit fst snd period active].

(** *** Fields the state machine leaves alone *)

Lemma invoke_inst (slot : option Callback) (call : Callback -> Effect)
  (w : World) : inst (invoke slot call w) = inst w.
Proof. unfold invoke. destruct slot; reflexivity. Qed.

Lemma invoke_millis (slot : option Callback) (call : Callback -> Effect)
  (w : World) : millis (invoke slot call w) = millis w.
Proof. unfold invoke. destruct slot; reflexivity. Qed.

(** What [changeState] does to the singleton when the state differs. *)
Lemma changeState_inst (s : EthConnectionState) (w : World) :
  state_eqb s (connectionState (inst w)) = false ->
  inst (changeState s w) =
  let m := set_connectionState s
             (set_previousState (connectionState (inst w)) (inst w)) in
  match s with
  | PHY_STARTING => set_initStartTime (millis w) m
  | LINK_UP => set_linkUpTime (millis w) m
  | CONNECTED => set_ipObtainedTime (millis w) m
  | _ => m
  end.
Proof.
  intro E. unfold changeState. rewrite E. cbv zeta.
  destruct s; fields; rewrite ?invoke_inst, ?invoke_millis; reflexivity.
Qed.

Lemma changeState_same (s : EthConnectionState) (w : World) :
  state_eqb s (connectionState (inst w)) = true -> changeState s w = w.
Proof. intro E. unfold changeState. rewrite E. reflexivity. Qed.

Ltac frame_changeState s w :=
  destruct (state_eqb s (connectionState (inst w))) eqn:?E;
  [ rewrite (changeState_same s w) by assumption; reflexivity
  | rewrite (changeState_inst s w) by assumption;
    destruct s; reflexivity ].

Lemma changeState_totalEventCount (s : EthConnectionState) (w : World) :
  totalEventCount (inst (changeState s w)) = totalEventCount (inst w).
Proof. frame_changeState s w. Qed.

Lemma changeState_ethEventGroup (s : EthConnectionState) (w : World) :
  ethEventGroup (inst (changeState s w)) = ethEventGroup (inst w).
Proof. frame_changeState s w. Qed.

Lemma changeState_phyStarted (s : EthConnectionState) (w : World) :
  phyStarted (inst (changeState s w)) = phyStarted (inst w).
Proof. frame_changeState s w. Qed.

Lemma changeState_stats (s : EthConnectionState) (w : World) :
  stats (inst (changeState s w)) = stats (inst w).
Proof. frame_changeState s w. Qed.

Lemma changeState_millis (s : EthConnectionState) (w : World) :
  millis (changeState s w) = millis w.
Proof.
  unfold changeState.
  destruct (state_eqb s (connectionState (inst w))); [reflexivity |].
  cbv zeta. destruct s; fields; rewrite ?invoke_millis; reflexivity.
Qed.

Lemma changeState_state (s : EthConnectionState) (w : World) :
  connectionState (inst (changeState s w)) = s.
Proof.
  destruct (state_eqb s (connectionState (inst w))) eqn:E.
  - rewrite (changeState_same s w E). apply state_eqb_eq in E.
    symmetry. exact E.
  - rewrite (changeState_inst s w E). destruct s; reflexivity.
Qed.

(** [updateLinkStatus] either leaves the world alone or records the new
    link status, changes state, possibly counts a link-down event, and
    tells the link callback. *)
Lemma updateLinkStatus_cases (w : World) :
  snd (updateLinkStatus w) = w \/
  exists s st cb,
    inst (snd (updateLinkStatus w)) =
      set_stats st (inst (changeState s (upd (set_lastLinkStatus cb) w))) /\
    millis (snd (updateLinkStatus w)) = millis w.
Proof.
  unfold updateLinkStatus.
  destruct (negb (phyStarted (inst w))); [left; reflexivity |].
  destruct (Bool.eqb _ _); [left; reflexivity |].
  right. cbv zeta. cbn [snd]. 
  destruct (negb (eth_linkUp (platform w))).
  - eexists _, _, _. rewrite invoke_inst, invoke_millis. fields.
    rewrite changeState_millis. split; reflexivity.
  - destruct (isConnected _).
    + exists CONNECTED, (stats (inst (changeState CONNECTED
                 (upd (set_lastLinkStatus (eth_linkUp (platform w))) w)))),
             (eth_linkUp (platform w)).
      rewrite invoke_inst, invoke_millis, changeState_millis.
      split; [| reflexivity].
      destruct (inst (changeState _ _)); reflexivity.
    + exists LINK_UP, (stats (inst (changeState LINK_UP
                 (upd (set_lastLinkStatus (eth_linkUp (platform w))) w)))),
             (eth_linkUp (platform w)).
      rewrite invoke_inst, invoke_millis, changeState_millis.
      split; [| reflexivity].
      destruct (inst (changeState _ _)); reflexivity.
Qed.

Lemma updateLinkStatus_totalEventCount (w : World) :
  totalEventCount (inst (snd (updateLinkStatus w)))
  = totalEventCount (inst w).
Proof.
  destruct (updateLinkStatus_cases w) as [-> | (s & st & cb & -> & _)];
    [reflexivity |].
  fields. rewrite changeState_totalEventCount. reflexivity.
Qed.

Lemma updateLinkStatus_millis (w : World) :
  millis (snd (updateLinkStatus w)) = millis w.
Proof.
  destruct (updateLinkStatus_cases w) as [-> | (s & st & cb & _ & ->)];
    reflexivity.
Qed.

Lemma updateLinkStatus_ethEventGroup (w : World) :
  ethEventGroup (inst (snd (updateLinkStatus w))) = ethEventGroup (inst w).
Proof.
  destruct (updateLinkStatus_cases w) as [-> | (s & st & cb & -> & _)];
    [reflexivity |].
  fields. rewrite changeState_ethEventGroup. reflexivity.
Qed.

Lemma onGotIp_totalEventCount (w : World) :
  totalEventCount (inst (onGotIp w)) = totalEventCount (inst w).
Proof.
  unfold onGotIp, changeState, invoke, emit, upd. open_now w.
  cbn. split_cases; reflexivity.
Qed.

(** The address event sets the address flag. *)
Lemma onGotIp_sets_flag (w : World) :
  gotIpAtLeastOnce (inst (onGotIp w)) = true.
Proof.
  unfold onGotIp, changeState, invoke, emit, upd. open_now w.
  cbn. split_cases; reflexivity.
Qed.

Lemma onEthConnected_totalEventCount (w : World) :
  totalEventCount (inst (onEthConnected w)) = totalEventCount (inst w).
Proof.
  unfold onEthConnected. cbv zeta.
  rewrite updateLinkStatus_totalEventCount, changeState_totalEventCount.
  reflexivity.
Qed.

Lemma onEthDisconnected_totalEventCount (w : World) :
  totalEventCount (inst (onEthDisconnected w)) = totalEventCount (inst w).
Proof.
  unfold onEthDisconnected, changeState, invoke, emit, upd. open_now w.
  cbn. split_cases; reflexivity.
Qed.

(** The two guards and the counter.  An invocation with a non-null base
    while the event group exists adds one to [totalEventCount] (as
    [uint32_t]), whatever the base and identifier and however the event is
    classified; an invocation of the function with a null base, or while
    the event group is absent, returns before the counter and changes
    nothing. *)
Lemma event_counted_past_guards (b : option esp_event_base_t) (id : Z)
  (w : World) :
  let w' := onEthEvent b id w in
  match b, ethEventGroup (inst w) with
  | Some _, Some _ =>
      totalEventCount (inst w') = u32 (totalEventCount (inst w) + 1)
  | _, _ => w' = w
  end.
Proof.
  cbv zeta. unfold onEthEvent.
  destruct b as [b |]; [| reflexivity].
  destruct (ethEventGroup (inst w)) as [g |] eqn:Hg; [| reflexivity].
  cbv zeta.
  destruct b.
  - destruct (id =? IP_EVENT_GOT_IP);
      rewrite ?onGotIp_totalEventCount; reflexivity.
  - destruct (id =? ETHERNET_EVENT_START); [reflexivity |].
    destruct (id =? ETHERNET_EVENT_CONNECTED);
      [rewrite onEthConnected_totalEventCount; reflexivity |].
    destruct (_ || _);
      rewrite ?onEthDisconnected_totalEventCount; reflexivity.
  - reflexivity.
Qed.

(** *** The address flag is set by the address event only *)

Lemma changeState_gotIpAtLeastOnce (s : EthConnectionState) (w : World) :
  gotIpAtLeastOnce (inst (changeState s w)) = gotIpAtLeastOnce (inst w).
Proof. frame_changeState s w. Qed.

Lemma updateLinkStatus_gotIpAtLeastOnce (w : World) :
  gotIpAtLeastOnce (inst (snd (updateLinkStatus w)))
  = gotIpAtLeastOnce (inst w).
Proof.
  destruct (updateLinkStatus_cases w) as [-> | (s & st & cb & -> & _)];
    [reflexivity |].
  fields. rewrite changeState_gotIpAtLeastOnce. reflexivity.
Qed.

Lemma onEthEvent_keeps_flag_clear (b : option esp_event_base_t) (id : Z)
  (w : World) :
  is_address_acquired (mkDelivery (millis w) b id) = false ->
  gotIpAtLeastOnce (inst w) = false ->
  gotIpAtLeastOnce (inst (onEthEvent b id w)) = false.
Proof.
  unfold is_address_acquired. cbn [ev_base ev_id]. intros Hev Hgot.
  unfold onEthEvent.
  destruct b as [b |]; [| exact Hgot].
  destruct (ethEventGroup (inst w)); [| exact Hgot].
  cbv zeta. destruct b.
  - rewrite Hev. exact Hgot.
  - destruct (id =? ETHERNET_EVENT_START); [exact Hgot |].
    destruct (id =? ETHERNET_EVENT_CONNECTED).
    + unfold onEthConnected. cbv zeta.
      rewrite updateLinkStatus_gotIpAtLeastOnce,
        changeState_gotIpAtLeastOnce.
      exact Hgot.
    + destruct (_ || _); [| exact Hgot].
      unfold onEthDisconnected. cbv zeta.
      replace (gotIpAtLeastOnce (inst (upd _ w))) with false
        by (symmetry; exact Hgot).
      exact Hgot.
  - exact Hgot.
Qed.

Lemma deliver_keeps_flag_clear (ds : list Delivery) :
  forallb (fun d => negb (is_address_acquired d)) ds = true ->
  forall w : World,
    gotIpAtLeastOnce (inst w) = false ->
    gotIpAtLeastOnce (inst (deliver ds w)) = false.
Proof.
  induction ds as [| d ds IH]; intros Hds w Hgot; [exact Hgot |].
  cbn [forallb] in Hds. apply andb_true_iff in Hds. destruct Hds as [Hd Hds].
  cbn [deliver]. apply (IH Hds).
  apply onEthEvent_keeps_flag_clear; [| exact Hgot].
  destruct d as [t b id]. apply negb_true_iff in Hd. exact Hd.
Qed.

(** C3. A session starts with the address flag clear.  Whatever events
    were delivered since, at whatever times, as long as none of them was
    the address-acquired event, a link-lost or PHY-stopped event is
    ignored: connection state, previous state, statistics and signal bits
    are unchanged and no callback is invoked. *)
Theorem link_lost_before_address_ignored (w0 : World) (ds : list Delivery)
  (t id : Z) :
  gotIpAtLeastOnce (inst w0) = false ->
  forallb (fun d => negb (is_address_acquired d)) ds = true ->
  link_lost id = true ->
  let w := set_millis t (deliver ds w0) in
  let w' := onEthEvent (Some ETH_EVENT) id w in
  connectionState (inst w') = connectionState (inst w) /\
  previousState (inst w') = previousState (inst w) /\
  stats (inst w') = stats (inst w) /\
  ethEventGroup (inst w') = ethEventGroup (inst w) /\
  trace w' = trace w.
Proof.
  intros Hstart Hds Hid w w'.
  assert (Hflag : gotIpAtLeastOnce (inst w) = false).
  { subst w. cbn [inst set_millis].
    apply deliver_keeps_flag_clear; assumption. }
  destruct (link_lost_ignored_while_flag_clear w id Hid Hflag)
    as (H1 & H2 & H3 & H4 & _ & H5).
  repeat split; assumption.
Qed.

Lemma link_lost_before_address_ignored_witness :
  let w := set_millis 9000
             (deliver [mkDelivery 1100 (Some ETH_EVENT) ETHERNET_EVENT_START;
                       mkDelivery 1200 (Some ETH_EVENT)
                         ETHERNET_EVENT_CONNECTED] started) in
  connectionState
    (inst (onEthEvent (Some ETH_EVENT) ETHERNET_EVENT_DISCONNECTED w))
  = connectionState (inst w).
Proof.
  apply (link_lost_before_address_ignored started
           [mkDelivery 1100 (Some ETH_EVENT) ETHERNET_EVENT_START;
            mkDelivery 1200 (Some ETH_EVENT) ETHERNET_EVENT_CONNECTED]
           9000 ETHERNET_EVENT_DISCONNECTED);
    reflexivity.
Defined.

(** ** Waiting for the connection *)

Lemma u32_elapsed (start e : Z) :
  0 <= e < 2 ^ 32 -> u32 (u32 (start + e) - start) = e.
Proof.
  intro He. unfold u32. rewrite Zminus_mod_idemp_l.
  replace (start + e - start) with e by lia. apply Z.mod_small. exact He.
Qed.

Lemma u32_advance (start e t : Z) :
  u32 (u32 (start + e) + t) = u32 (start + (e + t)).
Proof.
  unfold u32. rewrite Zplus_mod_idemp_l. f_equal. lia.
Qed.

(** The loop only ever reports success or a timeout. *)
Lemma waitLoop_outcomes (env : Blocking) (fuel : nat) (start timeout_ms : Z) :
  forall (w w' : World) (r : EthResult),
    waitLoop env fuel start timeout_ms w = Some (r, w') ->
    r = ResOk \/ r = ResErr CONNECTION_TIMEOUT.
Proof.
  induction fuel as [| k IH]; intros w w' r H; [discriminate H |].
  cbn [waitLoop] in H.
  destruct (u32 (millis w - start) <? timeout_ms).
  - destruct (xEventGroupWaitBits env w _) as [result w1].
    destruct result.
    + injection H as <- _. left. reflexivity.
    + destruct (state_eqb _ _).
      * injection H as <- _. right. reflexivity.
      * apply IH in H. exact H.
  - injection H as <- _. right. reflexivity.
Qed.

Lemma waitLoop_times_out (env : Blocking) (start timeout_ms : Z) :
  quiet env ->
  0 < timeout_ms < 2 ^ 32 ->
  forall (fuel : nat) (w : World) (e : Z) (g : EventBits_t),
    0 <= e <= timeout_ms ->
    millis w = u32 (start + e) ->
    ethEventGroup (inst w) = Some g ->
    connected_bit (Some g) = false ->
    (timeout_ms - e + 99) / 100 + 1 <= Z.of_nat fuel ->
    exists w',
      waitLoop env fuel start timeout_ms w
        = Some (ResErr CONNECTION_TIMEOUT, w') /\
      lastError (inst w') = CONNECTION_TIMEOUT.
Proof.
  intros Hquiet Ht.
  induction fuel as [| k IH]; intros w e g He Hm Hg Hbit Hfuel.
  - exfalso. assert (0 <= (timeout_ms - e + 99) / 100)
      by (apply Z.div_pos; lia). lia.
  - cbn [waitLoop]. rewrite Hm, u32_elapsed by lia.
    destruct (e <? timeout_ms) eqn:Hlt.
    + apply Z.ltb_lt in Hlt.
      rewrite (u32_small (timeout_ms - e)) by lia.
      set (waitTime := if ETH_WAIT_CHUNK_MS <? timeout_ms - e
                       then ETH_WAIT_CHUNK_MS else timeout_ms - e).
      assert (Hw : 0 < waitTime /\ e + waitTime <= timeout_ms /\
                   (timeout_ms - (e + waitTime) + 99) / 100 + 1
                     <= Z.of_nat k).
      { subst waitTime. unfold ETH_WAIT_CHUNK_MS.
        destruct (100 <? timeout_ms - e) eqn:Hc.
        - apply Z.ltb_lt in Hc. repeat split; try lia.
          replace (timeout_ms - e + 99)
            with (timeout_ms - (e + 100) + 99 + 1 * 100) in Hfuel by lia.
          rewrite Z.div_add in Hfuel by lia. lia.
        - apply Z.ltb_ge in Hc. repeat split; try lia.
          replace (timeout_ms - (e + (timeout_ms - e)) + 99) with 99 by lia.
          assert (1 <= (timeout_ms - e + 99) / 100).
          { apply Z.div_le_lower_bound; lia. }
          change (99 / 100) with 0. lia. }
      destruct Hw as (Hpos & Hle & Hk).
      unfold xEventGroupWaitBits. rewrite Hg, Hbit.
      destruct (Hquiet w waitTime g Hg Hbit) as (Hm1 & g1 & Hg1 & Hbit1).
      rewrite Hg1, Hbit1.
      destruct (state_eqb _ _).
      * eexists. split; reflexivity.
      * apply (IH _ (e + waitTime) g1); try lia.
        -- destruct (linkMonitoringEnabled _);
             rewrite ?updateLinkStatus_millis, Hm1, Hm, u32_advance;
             reflexivity.
        -- destruct (linkMonitoringEnabled _);
             rewrite ?updateLinkStatus_ethEventGroup; exact Hg1.
        -- exact Hbit1.
    + apply Z.ltb_ge in Hlt. eexists. split; reflexivity.
Qed.

(** C10. A timeout of exactly 0 ms is rejected with [INVALID_PARAMETER]
    before the connected signal is looked at and without waiting: whatever
    the world, only [lastError] changes.  No other timeout value is
    rejected as invalid. *)
Theorem wait_zero_timeout_is_the_invalid_one (env : Blocking) (fuel : nat)
  (w : World) :
  waitForConnection env fuel 0 w
    = Some (ResErr INVALID_PARAMETER, upd (set_lastError INVALID_PARAMETER) w)
  /\
  (forall timeout_ms : Z,
     timeout_ms <> 0 ->
     outcome (waitForConnection env fuel timeout_ms w)
       <> Some (ResErr INVALID_PARAMETER)).
Proof.
  split; [reflexivity |].
  intros timeout_ms Hne. unfold waitForConnection.
  destruct (timeout_ms =? 0) eqn:E; [apply Z.eqb_eq in E; contradiction |].
  destruct (isConnected w); [discriminate |].
  destruct (ethEventGroup (inst w)); [| discriminate].
  destruct (negb (phyStarted (inst w))); [discriminate |].
  destruct (waitLoop env fuel (millis w) timeout_ms w) as [[r w'] |] eqn:Hl;
    [| discriminate].
  apply waitLoop_outcomes in Hl. cbn.
  destruct Hl as [-> | ->]; discriminate.
Qed.

Lemma wait_zero_timeout_is_the_invalid_one_witness :
  outcome (waitForConnection idle 10 0 connected)
    = Some (ResErr INVALID_PARAMETER) /\
  outcome (waitForConnection idle 10 1 connected)
    <> Some (ResErr INVALID_PARAMETER).
Proof.
  destruct (wait_zero_timeout_is_the_invalid_one idle 10 connected)
    as [H0 H1].
  split.
  - rewrite H0. reflexivity.
  - apply H1. discriminate.
Defined.

(** C6, as the guards of the source have it.  On a manager whose PHY is
    started and whose event group exists, a wait with a positive timeout
    returns success at once, leaving the world as it is, when the connected
    bit is already set; and it returns [CONNECTION_TIMEOUT] (and records it
    in [lastError]) when the connected signal is never set during the
    wait.  When the PHY is not started or the event group is absent the
    wait is refused with [NOT_INITIALIZED]. *)
Theorem wait_for_connection_outcomes (env : Blocking) (timeout_ms : Z)
  (w : World) :
  0 < timeout_ms < 2 ^ 32 ->
  0 <= millis w < 2 ^ 32 ->
  (forall g : EventBits_t,
     phyStarted (inst w) = true ->
     ethEventGroup (inst w) = Some g ->
     connected_bit (Some g) = true ->
     forall fuel : nat,
       waitForConnection env fuel timeout_ms w = Some (ResOk, w))
  /\
  (forall g : EventBits_t,
     phyStarted (inst w) = true ->
     ethEventGroup (inst w) = Some g ->
     connected_bit (Some g) = false ->
     quiet env ->
     forall fuel : nat,
       timeout_ms / ETH_WAIT_CHUNK_MS + 2 <= Z.of_nat fuel ->
       exists w',
         waitForConnection env fuel timeout_ms w
           = Some (ResErr CONNECTION_TIMEOUT, w') /\
         lastError (inst w') = CONNECTION_TIMEOUT)
  /\
  (phyStarted (inst w) = false \/ ethEventGroup (inst w) = None ->
   forall fuel : nat,
     waitForConnection env fuel timeout_ms w
       = Some (ResErr NOT_INITIALIZED, upd (set_lastError NOT_INITIALIZED) w)).
Proof.
  intros Ht Hm.
  assert (Hz : (timeout_ms =? 0) = false) by (apply Z.eqb_neq; lia).
  split; [| split].
  - intros g Hphy Hg Hbit fuel. unfold waitForConnection, isConnected.
    rewrite Hz, Hphy, Hg. cbn [negb]. cbn [connected_bit] in Hbit.
    rewrite Hbit. reflexivity.
  - intros g Hphy Hg Hbit Hquiet fuel Hfuel.
    unfold waitForConnection, isConnected.
    rewrite Hz, Hphy, Hg. cbn [negb]. pose proof Hbit as Hbit'.
    cbn [connected_bit] in Hbit'. rewrite Hbit'.
    apply (waitLoop_times_out env (millis w) timeout_ms Hquiet Ht
             fuel w 0 g); try assumption; try lia.
    + rewrite Z.add_0_r. symmetry. apply u32_small. exact Hm.
    + unfold ETH_WAIT_CHUNK_MS in Hfuel.
      assert ((timeout_ms - 0 + 99) / 100 <= timeout_ms / 100 + 1).
      { replace (timeout_ms - 0 + 99) with (timeout_ms - 1 + 1 * 100) by lia.
        rewrite Z.div_add by lia.
        assert ((timeout_ms - 1) / 100 <= timeout_ms / 100)
          by (apply Z.div_le_mono; lia).
        lia. }
      lia.
  - intros Hnot fuel. unfold waitForConnection, isConnected. rewrite Hz.
    destruct Hnot as [Hphy | Hg].
    + rewrite Hphy. cbn [negb].
      destruct (ethEventGroup (inst w)); reflexivity.
    + rewrite Hg. destruct (negb (phyStarted (inst w))); reflexivity.
Qed.

Lemma idle_is_quiet : quiet idle.
Proof.
  intros w waitTime g Hg Hbit. unfold idle. split; [reflexivity |].
  exists g. split; [exact Hg | exact Hbit].
Qed.

Lemma wait_for_connection_outcomes_witness :
  waitForConnection idle 3 100 connected = Some (ResOk, connected) /\
  (exists w',
     waitForConnection idle 3 100 started
       = Some (ResErr CONNECTION_TIMEOUT, w') /\
     lastError (inst w') = CONNECTION_TIMEOUT) /\
  outcome (waitForConnection idle 3 100 booted)
    = Some (ResErr NOT_INITIALIZED).
Proof.
  assert (Ht : 0 < 100 < 2 ^ 32) by (split; reflexivity).
  assert (Hc : 0 <= millis connected < 2 ^ 32)
    by (vm_compute; split; [discriminate | reflexivity]).
  assert (Hs : 0 <= millis started < 2 ^ 32)
    by (vm_compute; split; [discriminate | reflexivity]).
  assert (Hb : 0 <= millis booted < 2 ^ 32)
    by (vm_compute; split; [discriminate | reflexivity]).
  split; [| split].
  - apply (proj1 (wait_for_connection_outcomes idle 100 connected Ht Hc) 1);
      reflexivity.
  - apply (proj1 (proj2 (wait_for_connection_outcomes idle 100 started
                           Ht Hs)) 0).
    + reflexivity.
    + reflexivity.
    + reflexivity.
    + exact idle_is_quiet.
    + vm_compute. discriminate.
  - rewrite (proj2 (proj2 (wait_for_connection_outcomes idle 100 booted
                             Ht Hb))).
    + reflexivity.
    + left. reflexivity.
Defined.

(** On a manager that was never started the same wait is refused with
    [NOT_INITIALIZED], although the connected signal is never set. *)
Lemma wait_not_started_is_not_a_timeout :
  outcome (waitForConnection idle 3 100 booted)
    = Some (ResErr NOT_INITIALIZED) /\
  outcome (waitForConnection idle 3 100 booted)
    <> Some (ResErr CONNECTION_TIMEOUT).
Proof. split; [reflexivity | discriminate]. Qed.

(** ** Milestone timestamps *)

(** C7, as [changeState] has it.  A transition to the current state
    changes nothing; every other transition into [PHY_STARTING], [LINK_UP]
    or [CONNECTED] writes the matching timestamp with the current
    [millis()], whether or not the state was entered before, and leaves the
    other two timestamps alone. *)
Theorem milestones_recorded_on_every_entry (s : EthConnectionState)
  (w : World) :
  let w' := changeState s w in
  (s = connectionState (inst w) -> w' = w) /\
  (s <> connectionState (inst w) ->
   initStartTime (inst w')
     = (if state_eqb s PHY_STARTING then millis w
        else initStartTime (inst w)) /\
   linkUpTime (inst w')
     = (if state_eqb s LINK_UP then millis w else linkUpTime (inst w)) /\
   ipObtainedTime (inst w')
     = (if state_eqb s CONNECTED then millis w
        else ipObtainedTime (inst w))).
Proof.
  cbv zeta. split.
  - intro E. apply changeState_same. apply state_eqb_eq. exact E.
  - intro Hne.
    assert (E : state_eqb s (connectionState (inst w)) = false).
    { destruct (state_eqb s (connectionState (inst w))) eqn:E;
        [apply state_eqb_eq in E; contradiction | reflexivity]. }
    rewrite (changeState_inst s w E).
    destruct s; repeat split; reflexivity.
Qed.

Lemma milestones_recorded_on_every_entry_witness :
  ipObtainedTime (inst (changeState CONNECTED (set_millis 7000 link_up)))
  = 7000.
Proof.
  apply (proj2 (milestones_recorded_on_every_entry CONNECTED
                  (set_millis 7000 link_up))).
  vm_compute. discriminate.
Defined.

(** One PHY start, the address obtained at 1500 ms, the link lost at
    5000 ms and the address obtained again at 6000 ms: the second entry
    into [CONNECTED] overwrites the address-obtained timestamp. *)
Lemma address_time_recorded_again :
  connectionState (inst connected) = CONNECTED /\
  connectionState (inst reconnected) = CONNECTED /\
  initStartTime (inst reconnected) = initStartTime (inst connected) /\
  ipObtainedTime (inst reconnected) <> ipObtainedTime (inst connected).
Proof. vm_compute. repeat split; discriminate. Qed.

(** ** Teardown *)

(** C8, as [cleanup] has it.  When the lock is obtained, [cleanup] puts the
    state machine back to [UNINITIALIZED], zeroes the statistics, clears the
    last error, the four callbacks and the started and address flags,
    deletes the reconnect and link-monitor timers, and keeps the mutex; the
    event group is deleted and its handle set to null. *)
Theorem cleanup_resets_and_keeps_mutex (w : World) :
  MutexGuard (ethMutex (inst w)) = true ->
  let m' := inst (cleanup w) in
  (connectionState m' = UNINITIALIZED /\
   previousState m' = UNINITIALIZED /\
   stats m' = zero_stats /\
   lastError m' = OK) /\
  (connectedCallback m' = None /\
   disconnectedCallback m' = None /\
   stateChangeCallback m' = None /\
   linkStatusCallback m' = None) /\
  (reconnectTimer m' = None /\
   linkMonitorTimer m' = None) /\
  (phyStarted m' = false /\
   gotIpAtLeastOnce m' = false /\
   eventHandlersRegistered m' = false) /\
  (ethMutex m' = ethMutex (inst w) /\
   mutexCreated m' = mutexCreated (inst w)) /\
  ethEventGroup m' = None.
Proof.
  intros Hlock. open_now w. cbn in Hlock.
  unfold cleanup, upd, emit. cbn. rewrite Hlock. cbn.
  split_cases; repeat split; reflexivity.
Qed.

Lemma cleanup_resets_and_keeps_mutex_witness :
  connectionState (inst (cleanup connected)) = UNINITIALIZED /\
  ethMutex (inst (cleanup connected)) = Some Free.
Proof.
  pose proof (cleanup_resets_and_keeps_mutex connected eq_refl) as H.
  cbv zeta in H.
  split.
  - apply H.
  - destruct H as (_ & _ & _ & _ & (Hm & _) & _). rewrite Hm. reflexivity.
Defined.

(** [cleanup] deletes the event group that the constructor created. *)
Lemma cleanup_deletes_event_group :
  ethEventGroup (inst booted) = Some 0 /\
  ethEventGroup (inst (cleanup booted)) <> ethEventGroup (inst booted).
Proof. vm_compute. split; [reflexivity | discriminate]. Qed.

(** ** Initialisation *)

Lemma begin_calls_app (a b : list Effect) :
  begin_calls (a ++ b) = (begin_calls a + begin_calls b)%nat.
Proof.
  induction a as [| e a IH]; [reflexivity |].
  destruct e; cbn [app begin_calls]; rewrite IH; reflexivity.
Qed.

(** The guard of [internalInit]: on a started manager it records
    [ALREADY_INITIALIZED] and does nothing else. *)
Lemma internalInit_already_started (env : Blocking) (fuel : nat)
  (h : option string) (phy mdc mdio power clock : Z)
  (mac : option (list Z)) (wait : bool) (w : World) :
  already_started w = true ->
  internalInit env fuel h phy mdc mdio power clock mac wait w
  = Some (false, upd (set_lastError ALREADY_INITIALIZED) w).
Proof.
  unfold already_started, internalInit. intros ->. reflexivity.
Qed.

(** The two initialisers built on [internalInit] return
    [ALREADY_INITIALIZED] on a started manager and leave the connection
    state, the statistics, the signal bits and the trace as they are. *)
Lemma initialize_already_started (env : Blocking) (fuel : nat)
  (h : option string) (phy mdc mdio power clock : Z) (w : World) :
  already_started w = true ->
  exists w',
    initialize env fuel h phy mdc mdio power clock w
      = Some (ResErr ALREADY_INITIALIZED, w') /\
    connectionState (inst w') = connectionState (inst w) /\
    stats (inst w') = stats (inst w) /\
    ethEventGroup (inst w') = ethEventGroup (inst w) /\
    trace w' = trace w.
Proof.
  intro H. unfold initialize.
  rewrite (internalInit_already_started _ _ _ _ _ _ _ _ _ _ _ H).
  eexists. split; [reflexivity |]. repeat split; reflexivity.
Qed.

Lemma initializeAsync_already_started (env : Blocking) (fuel : nat)
  (h : option string) (phy mdc mdio power clock : Z)
  (mac : option (list Z)) (w : World) :
  already_started w = true ->
  exists w',
    initializeAsync env fuel h phy mdc mdio power clock mac w
      = Some (ResErr ALREADY_INITIALIZED, w') /\
    connectionState (inst w') = connectionState (inst w) /\
    stats (inst w') = stats (inst w) /\
    ethEventGroup (inst w') = ethEventGroup (inst w) /\
    trace w' = trace w.
Proof.
  intro H. unfold initializeAsync.
  rewrite (internalInit_already_started _ _ _ _ _ _ _ _ _ _ _ H).
  eexists. split; [reflexivity |]. repeat split; reflexivity.
Qed.

(** C4 at the static initialiser.  [internalInitStatic] has no such guard:
    called on a connected manager it clears the connected bit, calls
    [ETH.begin] and [ETH.config] a second time and waits, here until the
    timeout; the result is [CONNECTION_TIMEOUT], not
    [ALREADY_INITIALIZED], and the manager is left in state [CONNECTED]
    with the connected bit clear. *)
Theorem initializeStatic_while_connected_starts_again :
  let r := initializeStatic idle 60 sample_hostname sample_ip sample_gateway
             sample_subnet 0 0 0 23 18 (-1) 0 connected in
  already_started connected = true /\
  isConnected connected = true /\
  begin_calls (trace connected) = 1%nat /\
  outcome r = Some (ResErr CONNECTION_TIMEOUT) /\
  begin_calls (trace (after r connected)) = 2%nat /\
  connectionState (inst (after r connected)) = CONNECTED /\
  isConnected (after r connected) = false /\
  lastError (inst (after r connected)) <> lastError (inst connected).
Proof. vm_compute. repeat split; discriminate. Qed.

(** [internalInit] returns before the bring-up on every invalid
    parameter: no call of [ETH.begin] is added to the trace. *)
Lemma internalInit_invalid_no_begin (env : Blocking) (fuel : nat)
  (h : option string) (phy mdc mdio power clock : Z)
  (mac : option (list Z)) (wait : bool) (w : World) :
  invalid_hostname h || invalid_phy_addr phy || invalid_pin mdc
    || invalid_pin mdio || invalid_pin power = true ->
  exists w',
    internalInit env fuel h phy mdc mdio power clock mac wait w
      = Some (false, w') /\
    begin_calls (trace w') = begin_calls (trace w).
Proof.
  intro Hinv. unfold internalInit.
  destruct (phyStarted (inst w) && _).
  { eexists. split; reflexivity. }
  assert (Herr : begin_calls
                   (trace (changeState ERROR_STATE
                             (upd (set_lastError INVALID_PARAMETER) w)))
                 = begin_calls (trace w)).
  { unfold changeState, invoke, emit, upd. open_now w. cbn.
    split_cases; rewrite ?begin_calls_app; cbn; lia. }
  destruct h as [h |]; [| eexists; split; [reflexivity | exact Herr]].
  cbn [invalid_hostname] in Hinv.
  destruct (Nat.eqb (String.length h) 0);
    [eexists; split; [reflexivity | exact Herr] |].
  destruct (Nat.ltb ETH_MAX_HOSTNAME_LENGTH (String.length h));
    [eexists; split; [reflexivity | exact Herr] |].
  destruct (invalid_phy_addr phy); [eexists; split; reflexivity |].
  destruct (invalid_pin mdc); [eexists; split; reflexivity |].
  destruct (invalid_pin mdio); [eexists; split; reflexivity |].
  destruct (invalid_pin power); [eexists; split; reflexivity |].
  discriminate Hinv.
Qed.

(** An invalid hostname is recorded: [INVALID_PARAMETER] and
    [ERROR_STATE]. *)
Lemma internalInit_invalid_hostname (env : Blocking) (fuel : nat)
  (h : option string) (phy mdc mdio power clock : Z)
  (mac : option (list Z)) (wait : bool) (w : World) :
  already_started w = false ->
  invalid_hostname h = true ->
  exists w',
    internalInit env fuel h phy mdc mdio power clock mac wait w
      = Some (false, w') /\
    lastError (inst w') = INVALID_PARAMETER /\
    connectionState (inst w') = ERROR_STATE.
Proof.
  unfold already_started, internalInit. intros -> Hinv.
  assert (Herr : lastError
                   (inst (changeState ERROR_STATE
                            (upd (set_lastError INVALID_PARAMETER) w)))
                 = INVALID_PARAMETER /\
                 connectionState
                   (inst (changeState ERROR_STATE
                            (upd (set_lastError INVALID_PARAMETER) w)))
                 = ERROR_STATE).
  { split; [| apply changeState_state].
    unfold changeState, invoke, emit, upd. open_now w. cbn.
    split_cases; reflexivity. }
  destruct h as [h |]; [| eexists; split; [reflexivity | exact Herr]].
  cbn [invalid_hostname] in Hinv.
  destruct (Nat.eqb (String.length h) 0);
    [eexists; split; [reflexivity | exact Herr] |].
  destruct (Nat.ltb ETH_MAX_HOSTNAME_LENGTH (String.length h));
    [eexists; split; [reflexivity | exact Herr] | discriminate Hinv].
Qed.

(** C5 at an invalid PHY address.  [initialize] with PHY address 32 on a
    freshly constructed manager returns without recording anything:
    [lastError] is still [OK] (and is what the result carries), the state
    is still [UNINITIALIZED], and [ETH.begin] was not called. *)
Theorem initialize_invalid_phy_address_records_nothing :
  let r := initialize idle 0 sample_hostname 32 23 18 (-1) 0 booted in
  invalid_phy_addr 32 = true /\
  r = Some (ResErr OK, booted) /\
  lastError (inst (after r booted)) = OK /\
  connectionState (inst (after r booted)) = UNINITIALIZED /\
  begin_calls (trace (after r booted)) = 0%nat.
Proof. vm_compute. repeat split; reflexivity. Qed.

(** The static initialiser records nothing on any validation failure, a
    null hostname included, and does not check the hostname length: with a
    hostname of 64 characters it goes on to call [ETH.begin]. *)
Lemma initializeStatic_null_hostname_records_nothing :
  initializeStatic idle 0 None sample_ip sample_gateway sample_subnet 0 0
    0 23 18 (-1) 0 booted
  = Some (ResErr OK, booted).
Proof. reflexivity. Qed.

Lemma initializeStatic_long_hostname_reaches_begin :
  let long :=
    Some "aaaaaaaaaaaaaaaaaaaaaaaaaaaaaaaaaaaaaaaaaaaaaaaaaaaaaaaaaaaaaaaa"%string
  in
  let r := initializeStatic idle 60 long sample_ip sample_gateway
             sample_subnet 0 0 0 23 18 (-1) 0 booted in
  invalid_hostname long = true /\
  begin_calls (trace (after r booted)) = 1%nat.
Proof. vm_compute. split; reflexivity. Qed.

(** ** Reconnection backoff *)

Lemma u8_small (x : Z) : 0 <= x < 2 ^ 8 -> u8 x = x.
Proof. intro H. unfold u8. apply Z.mod_small. exact H. Qed.

Lemma u8_succ (x : Z) : u8 (u8 x + 1) = u8 (x + 1).
Proof. unfold u8. apply Zplus_mod_idemp_l. Qed.

(** The retry limit and the two delays of one [setAutoReconnect] call, in
    the range where neither the [uint32_t] doubling nor the [uint8_t]
    attempt counter wraps. *)
Section Backoff.

Variables N D M : Z.
Hypothesis HD : 0 < D < 2 ^ 31.
Hypothesis HM : 0 < M < 2 ^ 31.
Hypothesis HN : 0 <= N < 255.

Lemma backoff_delay_next (k : nat) :
  Z.min (u32 (backoff_delay D M k * 2)) M = backoff_delay D M (S k).
Proof.
  destruct k as [| k].
  - cbn [backoff_delay]. rewrite u32_small by lia.
    change (2 ^ Z.of_nat 1) with 2. f_equal. lia.
  - cbn [backoff_delay].
    assert (Hp : 0 < 2 ^ Z.of_nat (S k)) by (apply Z.pow_pos_nonneg; lia).
    replace (2 ^ Z.of_nat (S (S k))) with (2 * 2 ^ Z.of_nat (S k)).
    2:{ rewrite (Nat2Z.inj_succ (S k)), Z.pow_succ_r by lia. reflexivity. }
    set (x := 2 ^ Z.of_nat (S k) * D).
    assert (Hx : 0 < x) by (subst x; nia).
    replace (2 * 2 ^ Z.of_nat (S k) * D) with (2 * x) by (subst x; ring).
    rewrite u32_small by lia. lia.
Qed.

Ltac take_lock H :=
  match type of H with
  | MutexGuard ?m = true =>
      destruct m as [[|] |]; try discriminate H; clear H
  end.

(** An expiry below the retry limit re-arms the timer with the next
    delay. *)
Lemma expiry_backs_off (k : nat) (w : World) :
  N = 0 \/ Z.of_nat k < N ->
  backing_off N D M k w ->
  exists w1,
    reconnectTimerExpires w = Some w1 /\ backing_off N D M (S k) w1.
Proof.
  intros Hk (Hlock & Hmax & Hatt & Hmd & Hcur & Htimer).
  open_now w. cbn in Hlock, Hmax, Hatt, Hmd, Hcur, Htimer. subst.
  take_lock Hlock.
  unfold reconnectTimerExpires, attemptReconnect, upd. cbn.
  assert (Hlim : (0 <? N) && (N <? u8 (u8 (Z.of_nat k) + 1)) = false).
  { rewrite u8_succ. destruct Hk as [-> | Hk]; [reflexivity |].
    rewrite u8_small by lia.
    apply andb_false_iff. right. apply Z.ltb_ge. lia. }
  rewrite Hlim. cbn [andb].
  eexists. split; [reflexivity |].
  unfold backing_off. fields. cbn [MutexGuard].
  rewrite u8_succ, backoff_delay_next.
  rewrite Nat2Z.inj_succ. unfold Z.succ.
  repeat split; reflexivity.
Qed.

(** The expiry after the last permitted retry disables reconnection and
    leaves the timer dormant. *)
Lemma expiry_gives_up (k : nat) (w : World) :
  0 < N -> Z.of_nat k = N ->
  backing_off N D M k w ->
  exists w1, reconnectTimerExpires w = Some w1 /\ gave_up w1.
Proof.
  intros Hpos Hk (Hlock & Hmax & Hatt & Hmd & Hcur & Htimer).
  open_now w. cbn in Hlock, Hmax, Hatt, Hmd, Hcur, Htimer. subst.
  take_lock Hlock.
  unfold reconnectTimerExpires, attemptReconnect, upd, gave_up. cbn.
  assert (Hlim : (0 <? Z.of_nat k)
                 && (Z.of_nat k <? u8 (u8 (Z.of_nat k) + 1)) = true).
  { rewrite u8_succ, u8_small by lia.
    apply andb_true_iff. split; apply Z.ltb_lt; lia. }
  rewrite Hlim.
  eexists. split; [reflexivity |]. fields.
  split; [reflexivity |]. eexists. split; reflexivity.
Qed.

Lemma gave_up_no_expiry (w : World) :
  gave_up w -> reconnectTimerExpires w = None.
Proof.
  intros (_ & t & Ht & Ha). unfold reconnectTimerExpires.
  rewrite Ht, Ha. reflexivity.
Qed.

Lemma reconnectDelays_gave_up (n : nat) (w : World) :
  gave_up w -> reconnectDelays n w = ([], w).
Proof.
  intro H. destruct n as [| n]; [reflexivity |].
  cbn [reconnectDelays]. rewrite (gave_up_no_expiry w H).
  destruct (reconnectTimer (inst w)); reflexivity.
Qed.

Lemma reconnectDelays_backing_off :
  forall (n k : nat) (w : World),
    backing_off N D M k w ->
    N = 0 \/ Z.of_nat k <= N ->
    fst (reconnectDelays n w)
      = map (backoff_delay D M) (seq k (firings N n k)) /\
    (0 < N -> (Z.to_nat N - k < n)%nat ->
     gave_up (snd (reconnectDelays n w))).
Proof.
  induction n as [| n IH]; intros k w Hw Hk.
  - split.
    + unfold firings. destruct (N =? 0); reflexivity.
    + intros _ Hlt. lia.
  - assert (Htimer : reconnectTimer (inst w)
                     = Some (mkTimer (backoff_delay D M k) true))
      by apply Hw.
    assert (Hcase : (N = 0 \/ Z.of_nat k < N) \/ (0 < N /\ Z.of_nat k = N))
      by lia.
    destruct Hcase as [Hgo | [Hpos Hlast]].
    + destruct (expiry_backs_off k w Hgo Hw)
        as (w1 & Hexp & Hw1).
      cbn [reconnectDelays]. rewrite Htimer, Hexp.
      destruct (IH (S k) w1 Hw1) as [Hds Hend]; [lia |].
      destruct (reconnectDelays n w1) as [ds w2].
      cbn [fst snd period] in *. split.
      * rewrite Hds.
        replace (firings N (S n) k) with (S (firings N n (S k))).
        { reflexivity. }
        unfold firings. destruct (N =? 0) eqn:E; [reflexivity |].
        apply Z.eqb_neq in E. lia.
      * intros Hp Hlt. apply Hend; [exact Hp | lia].
    + destruct (expiry_gives_up k w Hpos Hlast Hw) as (w1 & Hexp & Hw1).
      cbn [reconnectDelays]. rewrite Htimer, Hexp.
      rewrite (reconnectDelays_gave_up n w1 Hw1).
      cbn [fst snd period]. split.
      * replace (firings N (S n) k) with 1%nat; [reflexivity |].
        unfold firings. destruct (N =? 0) eqn:E.
        { apply Z.eqb_eq in E. lia. }
        lia.
      * intros _ _. exact Hw1.
Qed.

End Backoff.

Lemma backoff_delay_le_next (D M : Z) (k : nat) :
  0 < D <= M -> backoff_delay D M k <= backoff_delay D M (S k).
Proof.
  intros HD. destruct k as [| k].
  - cbn [backoff_delay]. change (2 ^ Z.of_nat 1) with 2. lia.
  - cbn [backoff_delay].
    assert (Hp : 0 < 2 ^ Z.of_nat (S k)) by (apply Z.pow_pos_nonneg; lia).
    replace (2 ^ Z.of_nat (S (S k))) with (2 * 2 ^ Z.of_nat (S k)).
    2:{ rewrite (Nat2Z.inj_succ (S k)), Z.pow_succ_r by lia. reflexivity. }
    set (x := 2 ^ Z.of_nat (S k) * D).
    assert (Hx : 0 < x) by (subst x; nia).
    replace (2 * 2 ^ Z.of_nat (S k) * D) with (2 * x) by (subst x; ring).
    lia.
Qed.

Lemma backoff_delay_le_max (D M : Z) (k : nat) :
  D <= M -> backoff_delay D M k <= M.
Proof.
  intro H. destruct k; cbn [backoff_delay]; [exact H | apply Z.le_min_r].
Qed.

Lemma backoff_delays_bounded_monotone (D M : Z) :
  0 < D <= M ->
  forall n k : nat,
    Forall (fun d => d <= M) (map (backoff_delay D M) (seq k n)) /\
    non_decreasing (map (backoff_delay D M) (seq k n)).
Proof.
  intros HD. induction n as [| n IH]; intro k.
  - split; [constructor | exact I].
  - destruct (IH (S k)) as [Hb Hm]. cbn [seq map]. split.
    + constructor; [apply backoff_delay_le_max; lia | exact Hb].
    + destruct n as [| n]; [exact I |].
      cbn [seq map non_decreasing] in *. split; [| exact Hm].
      apply backoff_delay_le_next. exact HD.
Qed.

(** What [setAutoReconnect(true, N, D, M)] leaves behind on a manager
    that has no reconnect timer yet. *)
Lemma setAutoReconnect_creates_timer (w0 : World) (N D M : Z) :
  MutexGuard (ethMutex (inst w0)) = true ->
  reconnectTimer (inst w0) = None ->
  timer_alloc (platform w0) = true ->
  let w := setAutoReconnect true N D M w0 in
  (ethMutex (inst w) = ethMutex (inst w0) /\
   gotIpAtLeastOnce (inst w) = gotIpAtLeastOnce (inst w0) /\
   ethEventGroup (inst w) = ethEventGroup (inst w0) /\
   elapsed w = elapsed w0) /\
  autoReconnectEnabled (inst w) = true /\
  reconnectMaxRetries (inst w) = N /\
  reconnectAttempts (inst w) = 0 /\
  reconnectMaxDelay (inst w) = M /\
  reconnectCurrentDelay (inst w) = D /\
  reconnectTimer (inst w) = Some (mkTimer D false).
Proof.
  intros Hlock Htimer Halloc. open_now w0. cbn in Hlock, Htimer, Halloc.
  subst.
  unfold setAutoReconnect, xTimerCreate, upd, elapsed. cbn.
  rewrite Hlock. cbn. rewrite Halloc.
  repeat split; reflexivity.
Qed.

(** A link loss past the trust window starts the reconnect timer of a
    manager with auto-reconnect enabled and leaves the backoff settings
    alone. *)
Lemma onEthDisconnected_starts_timer (w : World) (t : Timer) :
  gotIpAtLeastOnce (inst w) = true ->
  ETH_CONNECTION_TRUST_WINDOW_MS <= elapsed w ->
  autoReconnectEnabled (inst w) = true ->
  reconnectTimer (inst w) = Some t ->
  let w' := onEthDisconnected w in
  ethMutex (inst w') = ethMutex (inst w) /\
  reconnectMaxRetries (inst w') = reconnectMaxRetries (inst w) /\
  reconnectAttempts (inst w') = reconnectAttempts (inst w) /\
  reconnectMaxDelay (inst w') = reconnectMaxDelay (inst w) /\
  reconnectCurrentDelay (inst w') = reconnectCurrentDelay (inst w) /\
  reconnectTimer (inst w') = Some (xTimerStart t).
Proof.
  intros Hgot Hwin Hen Htimer. unfold elapsed in Hwin.
  apply Z.ltb_ge in Hwin.
  open_now w. cbn in Hgot, Hwin, Hen, Htimer. subst.
  unfold onEthDisconnected, changeState, invoke, emit, upd.
  cbn. rewrite Hwin.
  split_cases;
    repeat match goal with
    | H : Some _ = Some _ |- _ => injection H as H; subst
    end;
    repeat split; reflexivity.
Qed.

(** With a retry limit of 1 the timer expires twice: the first expiry is
    the one permitted retry and starts the timer again, with 2000 ms. *)
Lemma reconnect_timer_expires_after_last_retry :
  let w := onEthEvent (Some ETH_EVENT) ETHERNET_EVENT_DISCONNECTED
             (setAutoReconnect true 1 1000 30000
                (set_millis 5000 connected)) in
  fst (reconnectDelays 10 w) = [1000; 2000] /\
  List.length (fst (reconnectDelays 10 w)) <> 1%nat /\
  (exists w1,
     reconnectTimerExpires w = Some w1 /\
     reconnectAttempts (inst w1) = 1 /\
     reconnectTimer (inst w1) = Some (mkTimer 2000 true)).
Proof.
  vm_compute. split; [reflexivity |]. split; [discriminate |].
  eexists. split; [reflexivity |]. split; reflexivity.
Qed.

(** Nothing compares the initial delay with the maximum: with [D > M] the
    first delay exceeds [M] and the second is smaller than the first. *)
Lemma reconnect_delays_initial_above_max :
  fst (reconnectDelays 3
         (onEthEvent (Some ETH_EVENT) ETHERNET_EVENT_DISCONNECTED
            (setAutoReconnect true 0 1000 500 (set_millis 5000 connected))))
  = [1000; 500; 500].
Proof. vm_compute. reflexivity. Qed.

(** A retry limit of 255 is never exceeded by the [uint8_t] attempt
    counter: the timer is still running after 300 expiries. *)
Lemma reconnect_limit_255_never_reached :
  List.length
    (fst (reconnectDelays 300
            (onEthEvent (Some ETH_EVENT) ETHERNET_EVENT_DISCONNECTED
               (setAutoReconnect true 255 1000 30000
                  (set_millis 5000 connected)))))
  = 300%nat.
Proof. vm_compute. reflexivity. Qed.

(** Acquiring an address resets [reconnectCurrentDelay] but neither stops
    the timer nor resets its period: after two expiries and a new address
    the timer still runs, with the period it was last given. *)
Lemma reconnect_timer_keeps_running_when_connected :
  let w := onEthEvent (Some ETH_EVENT) ETHERNET_EVENT_DISCONNECTED
             (setAutoReconnect true 0 1000 30000
                (set_millis 5000 connected)) in
  let w2 := snd (reconnectDelays 2 w) in
  let w3 := onEthEvent (Some IP_EVENT) IP_EVENT_GOT_IP w2 in
  isConnected w3 = true /\
  reconnectCurrentDelay (inst w3) = 1000 /\
  fst (reconnectDelays 3 w3) = [4000; 2000; 4000].
Proof. vm_compute. repeat split; reflexivity. Qed.
(** * Further properties of the code *)

Ltac same_options :=
  repeat match goal with
  | H : Some _ = Some _ |- _ => injection H as H; subst
  end.

(** ** Signal bits *)

Lemma set_connected_bit (g : EventBits_t) :
  connected_bit (Some (xEventGroupSetBits g BIT_CONNECTED)) = true.
Proof.
  unfold connected_bit, xEventGroupSetBits, BIT_CONNECTED.
  destruct (Z.land (Z.lor g 1) 1 =? 0) eqn:E; [| reflexivity].
  apply Z.eqb_eq in E.
  assert (H : Z.testbit (Z.land (Z.lor g 1) 1) 0 = true).
  { rewrite Z.land_spec, Z.lor_spec. cbn.
    rewrite orb_true_r. reflexivity. }
  rewrite E in H. discriminate H.
Qed.

Lemma clear_connected_bit (g : EventBits_t) :
  connected_bit (Some (xEventGroupClearBits g BIT_CONNECTED)) = false.
Proof.
  unfold connected_bit, xEventGroupClearBits, BIT_CONNECTED.
  replace (Z.land (Z.ldiff g 1) 1) with 0; [reflexivity |].
  symmetry. apply Z.bits_inj'. intros n Hn.
  rewrite Z.land_spec, Z.ldiff_spec, Z.bits_0.
  destruct (Z.testbit g n), (Z.testbit 1 n); reflexivity.
Qed.

Lemma isConnected_spec (w : World) :
  isConnected w = phyStarted (inst w) && connected_bit (ethEventGroup (inst w)).
Proof.
  unfold isConnected, connected_bit.
  destruct (phyStarted (inst w)), (ethEventGroup (inst w)); reflexivity.
Qed.

(** ** Events the handler has no branch for *)

(** X1. An event the handler has no branch for (any other base, any other
    identifier, and [ETHERNET_EVENT_START]) is counted and changes nothing
    else. *)
Theorem unrecognized_event_only_counted (b : esp_event_base_t) (id : Z)
  (w : World) (g : EventBits_t) :
  ethEventGroup (inst w) = Some g ->
  recognized b id = false ->
  onEthEvent (Some b) id w
  = upd (fun m => set_totalEventCount (u32 (totalEventCount m + 1)) m) w.
Proof.
  intros Hg Hrec. unfold onEthEvent. rewrite Hg.
  destruct b; cbn [recognized] in Hrec.
  - rewrite Hrec. reflexivity.
  - apply orb_false_iff in Hrec. destruct Hrec as [Hrec Hstop].
    apply orb_false_iff in Hrec. destruct Hrec as [Hconn Hdisc].
    rewrite Hconn, Hdisc, Hstop.
    destruct (id =? ETHERNET_EVENT_START); reflexivity.
  - reflexivity.
Qed.

Lemma unrecognized_event_only_counted_witness :
  connectionState
    (inst (onEthEvent (Some (OTHER_EVENT "WIFI_EVENT")) 7 connected))
  = CONNECTED.
Proof.
  rewrite (unrecognized_event_only_counted (OTHER_EVENT "WIFI_EVENT") 7
             connected 1 eq_refl eq_refl).
  reflexivity.
Defined.

(** ** The address event *)

(** X2. On a started manager whose event group exists, the address event
    makes [isConnected] true, puts the state machine in [CONNECTED], sets
    the address flag, stamps the connect time, resets the backoff to its
    initial delay, and counts a reconnection exactly when a disconnection
    was counted before. *)
Theorem address_event_connects (w : World) (g : EventBits_t) :
  phyStarted (inst w) = true ->
  ethEventGroup (inst w) = Some g ->
  let w' := onEthEvent (Some IP_EVENT) IP_EVENT_GOT_IP w in
  isConnected w' = true /\
  connectionState (inst w') = CONNECTED /\
  gotIpAtLeastOnce (inst w') = true /\
  connectTime (stats (inst w')) = millis w /\
  reconnectAttempts (inst w') = 0 /\
  reconnectCurrentDelay (inst w') = reconnectInitialDelay (inst w) /\
  reconnectCount (stats (inst w'))
    = (if 0 <? disconnectCount (stats (inst w))
       then u32 (reconnectCount (stats (inst w)) + 1)
       else reconnectCount (stats (inst w))) /\
  disconnectCount (stats (inst w')) = disconnectCount (stats (inst w)).
Proof.
  intros Hphy Hg w'. subst w'. unfold onEthEvent. rewrite Hg.
  change (IP_EVENT_GOT_IP =? IP_EVENT_GOT_IP) with true. cbv iota.
  rewrite isConnected_spec.
  pose proof (set_connected_bit g) as Hbit.
  open_now w. cbn in Hphy, Hg. subst.
  unfold onGotIp, changeState, invoke, emit, upd. cbn.
  split_cases; use_state_eqb;
    unfold connected_bit in Hbit; rewrite ?Hbit;
    repeat split; reflexivity.
Qed.

Lemma address_event_connects_witness :
  isConnected (onEthEvent (Some IP_EVENT) IP_EVENT_GOT_IP
                 (set_millis 1500 link_up)) = true.
Proof.
  apply (address_event_connects (set_millis 1500 link_up) 0);
    reflexivity.
Defined.

(** ** A confirmed link loss *)

(** X3. A link-lost or PHY-stopped event past the trust window makes
    [isConnected] false, clears the address flag, and calls the registered
    callbacks in this order: the state-change callback (when the state was
    not [LINK_DOWN] already), then the disconnected callback with the time
    since the connect time stamped by the last address event. *)
Theorem confirmed_link_loss_notifies (w : World) (id : Z) (g : EventBits_t) :
  link_lost id = true ->
  gotIpAtLeastOnce (inst w) = true ->
  ethEventGroup (inst w) = Some g ->
  ETH_CONNECTION_TRUST_WINDOW_MS <= elapsed w ->
  let w' := onEthEvent (Some ETH_EVENT) id w in
  isConnected w' = false /\
  gotIpAtLeastOnce (inst w') = false /\
  trace w' =
    trace w
    ++ match stateChangeCallback (inst w) with
       | Some cb =>
           if state_eqb LINK_DOWN (connectionState (inst w)) then []
           else [CallStateChange cb (connectionState (inst w)) LINK_DOWN]
       | None => []
       end
    ++ match disconnectedCallback (inst w) with
       | Some cb =>
           [CallDisconnected cb
              (u32 (millis w - connectTime (stats (inst w))))]
       | None => []
       end.
Proof.
  intros Hid Hgot Hg Hwin w'. subst w'.
  rewrite (onEthEvent_link_lost w id g Hid Hg). clear Hid.
  rewrite isConnected_spec. unfold elapsed in Hwin.
  apply Z.ltb_ge in Hwin.
  pose proof (clear_connected_bit g) as Hbit.
  open_now w. cbn in Hgot, Hg, Hwin. subst.
  unfold onEthDisconnected, changeState, invoke, emit, upd. cbn.
  rewrite Hwin.
  split_cases; same_options; use_state_eqb;
    unfold connected_bit in Hbit; cbn [option_map];
    rewrite ?Hbit, ?andb_false_r, <- ?app_assoc, ?app_nil_r;
    repeat split; reflexivity.
Qed.

Lemma confirmed_link_loss_notifies_witness :
  isConnected (onEthEvent (Some ETH_EVENT) ETHERNET_EVENT_DISCONNECTED
                 (set_millis 4200 connected)) = false.
Proof.
  apply (confirmed_link_loss_notifies (set_millis 4200 connected)
           ETHERNET_EVENT_DISCONNECTED 1);
    [reflexivity | reflexivity | reflexivity | vm_compute; discriminate].
Defined.

(** ** Statistics *)

Lemma updateLinkStatus_stats (w : World) :
  stats (inst (snd (updateLinkStatus w))) = stats (inst w) \/
  stats (inst (snd (updateLinkStatus w)))
  = set_linkDownEvents (u32 (linkDownEvents (stats (inst w)) + 1))
      (stats (inst w)).
Proof.
  unfold updateLinkStatus.
  destruct (negb (phyStarted (inst w))); [left; reflexivity |].
  destruct (Bool.eqb _ _); [left; reflexivity |].
  cbv zeta. cbn [snd]. rewrite invoke_inst.
  destruct (negb (eth_linkUp (platform w))).
  - right. unfold upd at 1. cbn [inst set_inst stats set_stats].
    rewrite changeState_stats. reflexivity.
  - left. destruct (isConnected _); rewrite changeState_stats;
      reflexivity.
Qed.

Lemma onGotIp_stats (w : World) :
  stats (inst (onGotIp w))
  = let st := set_connectTime (millis w) (stats (inst w)) in
    if 0 <? disconnectCount st
    then set_reconnectCount (u32 (reconnectCount st + 1)) st
    else st.
Proof.
  unfold onGotIp, changeState, invoke, emit, upd. open_now w.
  cbn. split_cases; reflexivity.
Qed.

Lemma onEthConnected_stats (w : World) :
  stats (inst (onEthConnected w)) = stats (inst w) \/
  stats (inst (onEthConnected w))
  = set_linkDownEvents (u32 (linkDownEvents (stats (inst w)) + 1))
      (stats (inst w)).
Proof.
  unfold onEthConnected. cbv zeta.
  match goal with
  | |- context [updateLinkStatus ?x] =>
      assert (Hs : stats (inst x) = stats (inst w))
        by (rewrite changeState_stats; reflexivity);
      destruct (updateLinkStatus_stats x) as [H | H];
      rewrite H, Hs; [left | right]; reflexivity
  end.
Qed.

Lemma onEthDisconnected_stats (w : World) :
  stats (inst (onEthDisconnected w)) = stats (inst w) \/
  stats (inst (onEthDisconnected w))
  = set_linkDownEvents (u32 (linkDownEvents (stats (inst w)) + 1))
      (set_disconnectCount (u32 (disconnectCount (stats (inst w)) + 1))
         (stats (inst w))).
Proof.
  unfold onEthDisconnected, changeState, invoke, emit, upd. open_now w.
  cbn. split_cases; (left; reflexivity) || (right; reflexivity).
Qed.

(** X4. One invocation of the event handler, whatever the event, moves
    each of the disconnect, reconnect and link-down counters by at most one
    step and never touches the packet, byte, renewal, error-code or uptime
    fields of the statistics. *)
Theorem event_moves_counters_by_at_most_one (b : option esp_event_base_t)
  (id : Z) (w : World) :
  let st := stats (inst w) in
  let st' := stats (inst (onEthEvent b id w)) in
  stays_or_steps (disconnectCount st) (disconnectCount st') /\
  stays_or_steps (reconnectCount st) (reconnectCount st') /\
  stays_or_steps (linkDownEvents st) (linkDownEvents st') /\
  txPackets st' = txPackets st /\ rxPackets st' = rxPackets st /\
  txBytes st' = txBytes st /\ rxBytes st' = rxBytes st /\
  dhcpRenewals st' = dhcpRenewals st /\
  lastErrorCode st' = lastErrorCode st /\
  uptimeMs st' = uptimeMs st.
Proof.
  cbv zeta.
  assert (Hsame : forall w' : World,
            stats (inst w') = stats (inst w) ->
            stays_or_steps (disconnectCount (stats (inst w)))
              (disconnectCount (stats (inst w'))) /\
            stays_or_steps (reconnectCount (stats (inst w)))
              (reconnectCount (stats (inst w'))) /\
            stays_or_steps (linkDownEvents (stats (inst w)))
              (linkDownEvents (stats (inst w'))) /\
            txPackets (stats (inst w')) = txPackets (stats (inst w)) /\
            rxPackets (stats (inst w')) = rxPackets (stats (inst w)) /\
            txBytes (stats (inst w')) = txBytes (stats (inst w)) /\
            rxBytes (stats (inst w')) = rxBytes (stats (inst w)) /\
            dhcpRenewals (stats (inst w')) = dhcpRenewals (stats (inst w)) /\
            lastErrorCode (stats (inst w')) = lastErrorCode (stats (inst w)) /\
            uptimeMs (stats (inst w')) = uptimeMs (stats (inst w))).
  { intros w' ->. unfold stays_or_steps. repeat split; left; reflexivity. }
  unfold onEthEvent.
  destruct b as [b |]; [| apply Hsame; reflexivity].
  destruct (ethEventGroup (inst w)); [| apply Hsame; reflexivity].
  cbv zeta.
  set (w1 := upd _ w).
  assert (H1 : stats (inst w1) = stats (inst w)) by reflexivity.
  destruct b.
  - destruct (id =? IP_EVENT_GOT_IP); [| apply Hsame; exact H1].
    rewrite onGotIp_stats, H1. cbv zeta. unfold stays_or_steps.
    destruct (stats (inst w)). cbn.
    destruct (0 <? _); cbn; repeat split; auto.
  - destruct (id =? ETHERNET_EVENT_START); [apply Hsame; exact H1 |].
    destruct (id =? ETHERNET_EVENT_CONNECTED).
    + destruct (onEthConnected_stats w1) as [H | H]; rewrite H, H1;
        [apply Hsame; reflexivity |].
      unfold stays_or_steps. destruct (stats (inst w)). cbn.
      repeat split; auto.
    + destruct (_ || _); [| apply Hsame; exact H1].
      destruct (onEthDisconnected_stats w1) as [H | H]; rewrite H, H1;
        [apply Hsame; reflexivity |].
      unfold stays_or_steps. destruct (stats (inst w)). cbn.
      repeat split; auto.
  - apply Hsame; exact H1.
Qed.

(** X5. Resetting the statistics while connected also resets the uptime:
    the connect time is zeroed with the rest, so until the next address
    event the uptime reads 0 and the uptime string reads "Not connected",
    although [isConnected] is unchanged. *)
Theorem reset_statistics_clears_uptime (w : World) :
  MutexGuard (ethMutex (inst w)) = true ->
  let w' := resetStatistics w in
  getStatistics w' = zero_stats /\
  getUptimeMs w' = 0 /\
  getUptimeString w' = "Not connected"%string /\
  isConnected w' = isConnected w.
Proof.
  intros Hlock w'. subst w'.
  unfold getUptimeString, getUptimeMs, getStatistics, resetStatistics.
  rewrite Hlock. rewrite !isConnected_spec.
  open_now w. cbn in Hlock. unfold upd. cbn. rewrite Hlock.
  rewrite andb_false_r. repeat split; reflexivity.
Qed.

Lemma reset_statistics_clears_uptime_witness :
  getUptimeMs (resetStatistics (set_millis 9000 connected)) = 0 /\
  getUptimeMs (set_millis 9000 connected) = 7500.
Proof.
  split.
  - apply (reset_statistics_clears_uptime (set_millis 9000 connected)).
    reflexivity.
  - vm_compute. reflexivity.
Defined.

Lemma isConnected_set_millis (t : Z) (w : World) :
  isConnected (set_millis t w) = isConnected w.
Proof. reflexivity. Qed.

Lemma inst_set_millis (t : Z) (w : World) : inst (set_millis t w) = inst w.
Proof. reflexivity. Qed.

Lemma millis_set_millis (t : Z) (w : World) : millis (set_millis t w) = t.
Proof. reflexivity. Qed.

Lemma onGotIp_connects (w : World) (g : EventBits_t) :
  phyStarted (inst w) = true ->
  ethEventGroup (inst w) = Some g ->
  isConnected (onGotIp w) = true /\
  connectTime (stats (inst (onGotIp w))) = millis w /\
  uptimeMs (stats (inst (onGotIp w))) = uptimeMs (stats (inst w)) /\
  ethMutex (inst (onGotIp w)) = ethMutex (inst w).
Proof.
  intros Hphy Hg. rewrite isConnected_spec.
  pose proof (set_connected_bit g) as Hbit.
  open_now w. cbn in Hphy, Hg. subst.
  unfold onGotIp, changeState, invoke, emit, upd. cbn.
  split_cases; use_state_eqb;
    unfold connected_bit in Hbit; rewrite ?Hbit;
    repeat split; reflexivity.
Qed.

(** X6. After the address event on a started manager the uptime counts,
    modulo 2^32, from the time of that event, both through [getUptimeMs]
    and through the snapshot of [getStatistics]; an address event delivered
    when the clock reads 0 leaves the uptime at 0. *)
Theorem uptime_counts_from_address_event (w : World) (g : EventBits_t)
  (t : Z) :
  phyStarted (inst w) = true ->
  ethEventGroup (inst w) = Some g ->
  MutexGuard (ethMutex (inst w)) = true ->
  let w' := set_millis t (onEthEvent (Some IP_EVENT) IP_EVENT_GOT_IP w) in
  getUptimeMs w' = (if 0 <? millis w then u32 (t - millis w) else 0) /\
  uptimeMs (getStatistics w')
  = (if 0 <? millis w then u32 (t - millis w)
     else uptimeMs (stats (inst w))).
Proof.
  intros Hphy Hg Hlock w'. subst w'. unfold onEthEvent. rewrite Hg.
  change (IP_EVENT_GOT_IP =? IP_EVENT_GOT_IP) with true. cbv iota zeta.
  set (w1 := upd _ w).
  assert (Hphy1 : phyStarted (inst w1) = true) by exact Hphy.
  assert (Hg1 : ethEventGroup (inst w1) = Some g) by exact Hg.
  assert (Hlock1 : MutexGuard (ethMutex (inst w1)) = true) by exact Hlock.
  assert (Hnow : millis w1 = millis w) by reflexivity.
  assert (Hup : uptimeMs (stats (inst w1)) = uptimeMs (stats (inst w)))
    by reflexivity.
  rewrite <- Hnow, <- Hup. clearbody w1. clear Hnow Hup.
  destruct (onGotIp_connects w1 g Hphy1 Hg1) as (Hc & Ht & Hu & Hm).
  unfold getUptimeMs, getStatistics.
  rewrite isConnected_set_millis, Hc, inst_set_millis, millis_set_millis.
  rewrite Hm, Hlock1, Ht. cbn [andb].
  destruct (0 <? millis w1); [split; reflexivity |].
  rewrite Hu. split; reflexivity.
Qed.

Lemma uptime_counts_from_address_event_witness :
  getUptimeMs
    (set_millis 9000
       (onEthEvent (Some IP_EVENT) IP_EVENT_GOT_IP (set_millis 1500 link_up)))
  = 7500.
Proof.
  apply (uptime_counts_from_address_event (set_millis 1500 link_up) 0 9000);
    reflexivity.
Defined.

Lemma u32_range (x : Z) : 0 <= u32 x < 2 ^ 32.
Proof. unfold u32. apply Z.mod_pos_bound. reflexivity. Qed.

Lemma getUptimeMs_range (w : World) : 0 <= getUptimeMs w < 2 ^ 32.
Proof.
  unfold getUptimeMs. destruct (_ && _); [apply u32_range |].
  split; [apply Z.le_refl | reflexivity].
Qed.

(** X7. The uptime string splits the whole seconds of the uptime into
    days, hours below 24, minutes below 60 and seconds below 60 that add up
    to them again; leading units that are zero are left out, the seconds
    are always shown. *)
Theorem uptime_string_breakdown (w : World) :
  getUptimeMs w <> 0 ->
  exists d h m s : Z,
    0 <= d /\ 0 <= h < 24 /\ 0 <= m < 60 /\ 0 <= s < 60 /\
    getUptimeMs w / 1000 = ((d * 24 + h) * 60 + m) * 60 + s /\
    getUptimeString w
    = String.append
        (if 0 <? d then String.append (decimal d) "d " else "")
        (String.append
           (if (0 <? h) || (0 <? d)
            then String.append (decimal h) "h " else "")
           (String.append
              (if (0 <? m) || (0 <? h) || (0 <? d)
               then String.append (decimal m) "m " else "")
              (String.append (decimal s) "s"))).
Proof.
  intro Hup. unfold getUptimeString.
  pose proof (getUptimeMs_range w) as Hr.
  set (u := getUptimeMs w) in *. clearbody u.
  apply Z.eqb_neq in Hup. rewrite Hup. cbv zeta.
  exists (u / 1000 / 60 / 60 / 24), ((u / 1000 / 60 / 60) mod 24),
    ((u / 1000 / 60) mod 60), ((u / 1000) mod 60).
  assert (0 <= u / 1000) by (apply Z.div_pos; lia).
  assert (0 <= u / 1000 / 60) by (apply Z.div_pos; lia).
  assert (0 <= u / 1000 / 60 / 60) by (apply Z.div_pos; lia).
  split; [apply Z.div_pos; lia |].
  split; [apply Z.mod_pos_bound; lia |].
  split; [apply Z.mod_pos_bound; lia |].
  split; [apply Z.mod_pos_bound; lia |].
  split; [| reflexivity].
  pose proof (Z.div_mod (u / 1000) 60 ltac:(lia)).
  pose proof (Z.div_mod (u / 1000 / 60) 60 ltac:(lia)).
  pose proof (Z.div_mod (u / 1000 / 60 / 60) 24 ltac:(lia)).
  lia.
Qed.

Lemma uptime_string_breakdown_witness :
  exists d h m s : Z,
    0 <= d /\ 0 <= h < 24 /\ 0 <= m < 60 /\ 0 <= s < 60 /\
    getUptimeMs (set_millis 93784500 connected) / 1000
    = ((d * 24 + h) * 60 + m) * 60 + s /\
    getUptimeString (set_millis 93784500 connected)
    = String.append
        (if 0 <? d then String.append (decimal d) "d " else "")
        (String.append
           (if (0 <? h) || (0 <? d)
            then String.append (decimal h) "h " else "")
           (String.append
              (if (0 <? m) || (0 <? h) || (0 <? d)
               then String.append (decimal m) "m " else "")
              (String.append (decimal s) "s"))).
Proof.
  apply (uptime_string_breakdown (set_millis 93784500 connected)).
  vm_compute. discriminate.
Defined.

(** ** Performance metrics *)

(** X8. The performance metrics are refused exactly when no PHY start
    has been stamped; once the three milestones are stamped, the time to
    link-up and the time from link-up to the address add up, modulo 2^32,
    to the time to the address, and the event count is the handler's
    counter. *)
Theorem performance_metrics_phases_add_up (w : World) :
  (getPerformanceMetrics w = None <-> initStartTime (inst w) = 0) /\
  forall initTimeMs linkUpTimeMs ipObtainTimeMs eventCount : Z,
    getPerformanceMetrics w
    = Some (initTimeMs, linkUpTimeMs, ipObtainTimeMs, eventCount) ->
    eventCount = totalEventCount (inst w) /\
    (0 < linkUpTime (inst w) -> 0 < ipObtainedTime (inst w) ->
     u32 (initTimeMs + linkUpTimeMs) = ipObtainTimeMs).
Proof.
  unfold getPerformanceMetrics. cbv zeta.
  destruct (initStartTime (inst w) =? 0) eqn:E0.
  - split; [| intros ? ? ? ? H; discriminate H].
    apply Z.eqb_eq in E0. split; [intros _; exact E0 | reflexivity].
  - split.
    { apply Z.eqb_neq in E0. split; [intro H; discriminate H |].
      intro H. contradiction. }
    intros a b c n H. injection H as Ha Hb Hc Hn.
    split; [symmetry; exact Hn |].
    intros Hl Hi. apply Z.ltb_lt in Hl, Hi. rewrite Hl, Hi in *.
    cbn [andb] in Hb. subst a b c. unfold u32.
    rewrite <- Zplus_mod. f_equal. lia.
Qed.

Lemma performance_metrics_phases_add_up_witness :
  getPerformanceMetrics connected = Some (200, 300, 500, 2) /\
  u32 (200 + 300) = 500.
Proof.
  assert (H : getPerformanceMetrics connected = Some (200, 300, 500, 2))
    by (vm_compute; reflexivity).
  split; [exact H |].
  apply (proj2 (performance_metrics_phases_add_up connected)
           200 300 500 2 H);
    vm_compute; reflexivity.
Defined.

(** ** Names of errors and states *)

(** X9. Distinct error codes have distinct names. *)
Theorem errorToString_injective (a b : EthError) :
  errorToString a = errorToString b -> a = b.
Proof.
  destruct a, b; intro H; try reflexivity; discriminate H.
Qed.

Lemma errorToString_injective_witness :
  CONNECTION_TIMEOUT = CONNECTION_TIMEOUT.
Proof.
  apply (errorToString_injective CONNECTION_TIMEOUT CONNECTION_TIMEOUT).
  reflexivity.
Defined.

(** X10. Distinct connection states have distinct names. *)
Theorem stateToString_injective (a b : EthConnectionState) :
  stateToString a = stateToString b -> a = b.
Proof.
  destruct a, b; intro H; try reflexivity; discriminate H.
Qed.

Lemma stateToString_injective_witness : LINK_DOWN = LINK_DOWN.
Proof.
  apply (stateToString_injective LINK_DOWN LINK_DOWN). reflexivity.
Defined.

(** ** More of what [changeState] leaves alone *)

Lemma changeState_connectionStartTime (s : EthConnectionState) (w : World) :
  connectionStartTime (inst (changeState s w)) = connectionStartTime (inst w).
Proof. frame_changeState s w. Qed.

Lemma changeState_autoReconnectEnabled (s : EthConnectionState)
  (w : World) :
  autoReconnectEnabled (inst (changeState s w))
  = autoReconnectEnabled (inst w).
Proof. frame_changeState s w. Qed.

Lemma changeState_reconnectTimer (s : EthConnectionState) (w : World) :
  reconnectTimer (inst (changeState s w)) = reconnectTimer (inst w).
Proof. frame_changeState s w. Qed.

Lemma changeState_linkMonitorTimer (s : EthConnectionState) (w : World) :
  linkMonitorTimer (inst (changeState s w)) = linkMonitorTimer (inst w).
Proof. frame_changeState s w. Qed.

Lemma changeState_ethMutex (s : EthConnectionState) (w : World) :
  ethMutex (inst (changeState s w)) = ethMutex (inst w).
Proof. frame_changeState s w. Qed.

Lemma changeState_stateChangeCallback (s : EthConnectionState) (w : World) :
  stateChangeCallback (inst (changeState s w))
  = stateChangeCallback (inst w).
Proof. frame_changeState s w. Qed.

Lemma changeState_disconnectedCallback (s : EthConnectionState)
  (w : World) :
  disconnectedCallback (inst (changeState s w))
  = disconnectedCallback (inst w).
Proof. frame_changeState s w. Qed.

Lemma changeState_previousState (s : EthConnectionState) (w : World) :
  previousState (inst (changeState s w))
  = (if state_eqb s (connectionState (inst w))
     then previousState (inst w) else connectionState (inst w)).
Proof.
  destruct (state_eqb s (connectionState (inst w))) eqn:E.
  - rewrite (changeState_same s w) by assumption. reflexivity.
  - rewrite (changeState_inst s w) by assumption. destruct s; reflexivity.
Qed.

Lemma invoke_trace (slot : option Callback) (call : Callback -> Effect)
  (w : World) : trace (invoke slot call w) = trace w ++ calls slot call.
Proof.
  unfold invoke, calls. destruct slot; [reflexivity |].
  symmetry. apply app_nil_r.
Qed.

(** [changeState] tells the state-change callback of an actual
    transition, once, and calls nothing else. *)
Lemma changeState_trace (s : EthConnectionState) (w : World) :
  trace (changeState s w)
  = trace w
    ++ (if state_eqb s (connectionState (inst w)) then []
        else calls (stateChangeCallback (inst w))
               (fun cb => CallStateChange cb (connectionState (inst w)) s)).
Proof.
  unfold changeState.
  destruct (state_eqb s (connectionState (inst w)));
    [symmetry; apply app_nil_r |].
  cbv zeta. destruct s; fields; rewrite ?invoke_trace; reflexivity.
Qed.

(** ** Disconnecting on request *)

Lemma disconnect_refused (w : World) :
  MutexGuard (ethMutex (inst w)) = false \/
  connectionState (inst w) = UNINITIALIZED ->
  disconnect w = w.
Proof.
  unfold disconnect. intros [H | H]; rewrite H; [reflexivity |].
  destruct (negb _); reflexivity.
Qed.

(** The assignments of [disconnect] between its two state changes. *)
Lemma disconnect_clears (w : World) :
  let w5 :=
    upd (fun m => set_connectionStartTime 0
           (set_gotIpAtLeastOnce false (set_phyStarted false m)))
      (upd (fun m => set_linkMonitorTimer
              (option_map xTimerStop (linkMonitorTimer m)) m)
         (if autoReconnectEnabled (inst w) then
            upd (fun m => set_reconnectTimer
                   (option_map xTimerStop (reconnectTimer m))
                   (set_autoReconnectEnabled false m)) w
          else w)) in
  (connectionState (inst w5) = connectionState (inst w) /\
   previousState (inst w5) = previousState (inst w) /\
   phyStarted (inst w5) = false /\
   gotIpAtLeastOnce (inst w5) = false /\
   connectionStartTime (inst w5) = 0 /\
   autoReconnectEnabled (inst w5) = false /\
   timer_running (linkMonitorTimer (inst w5)) = false /\
   (autoReconnectEnabled (inst w) = true ->
    timer_running (reconnectTimer (inst w5)) = false)) /\
  (ethEventGroup (inst w5) = ethEventGroup (inst w) /\
   ethMutex (inst w5) = ethMutex (inst w) /\
   stats (inst w5) = stats (inst w) /\
   stateChangeCallback (inst w5) = stateChangeCallback (inst w) /\
   disconnectedCallback (inst w5) = disconnectedCallback (inst w) /\
   trace w5 = trace w /\
   millis w5 = millis w).
Proof.
  open_now w. unfold upd, timer_running. cbn.
  match goal with
  | |- context [if ?b then _ else _] => is_var b; destruct b
  end.
  all: cbn.
  all: repeat match goal with
       | |- context [option_map xTimerStop ?x] => is_var x; destruct x; cbn
       end.
  all: repeat split; intros; reflexivity || congruence.
Qed.

Lemma disconnect_done (w : World) :
  MutexGuard (ethMutex (inst w)) = true ->
  connectionState (inst w) <> UNINITIALIZED ->
  let w' := disconnect w in
  connectionState (inst w') = UNINITIALIZED /\
  previousState (inst w') = DISCONNECTING /\
  phyStarted (inst w') = false /\
  gotIpAtLeastOnce (inst w') = false /\
  connectionStartTime (inst w') = 0 /\
  autoReconnectEnabled (inst w') = false /\
  timer_running (linkMonitorTimer (inst w')) = false /\
  (autoReconnectEnabled (inst w) = true ->
   timer_running (reconnectTimer (inst w')) = false) /\
  ethEventGroup (inst w') = ethEventGroup (inst w) /\
  ethMutex (inst w') = ethMutex (inst w).
Proof.
  intros Hlock Hstate w'. subst w'. unfold disconnect.
  rewrite Hlock. cbn [negb].
  destruct (state_eqb (connectionState (inst w)) UNINITIALIZED) eqn:E;
    [apply state_eqb_eq in E; contradiction |].
  cbv zeta.
  set (w1 := if _ && _ then upd _ w else w).
  assert (H1 : autoReconnectEnabled (inst w1) = autoReconnectEnabled (inst w)
               /\ ethEventGroup (inst w1) = ethEventGroup (inst w)
               /\ ethMutex (inst w1) = ethMutex (inst w)).
  { subst w1. destruct (_ && _); repeat split; reflexivity. }
  destruct H1 as (Ha1 & Hg1 & Hm1). rewrite <- Ha1, <- Hg1, <- Hm1.
  clearbody w1. clear Ha1 Hg1 Hm1 Hlock Hstate E.
  set (w2 := changeState DISCONNECTING w1).
  assert (Hs2 : connectionState (inst w2) = DISCONNECTING)
    by apply changeState_state.
  rewrite <- (changeState_autoReconnectEnabled DISCONNECTING w1),
    <- (changeState_ethEventGroup DISCONNECTING w1),
    <- (changeState_ethMutex DISCONNECTING w1).
  fold w2. clearbody w2. clear w1.
  destruct (disconnect_clears w2)
    as ((Hc & _ & Hphy & Hgot & Hcst & Hauto & Hlm & Hrt)
        & (Hg & Hm & _)).
  match goal with
  | |- context [changeState UNINITIALIZED ?x] => set (w5 := x) in *
  end.
  rewrite <- Hg, <- Hm. rewrite Hs2 in Hc.
  clearbody w5.
  destruct (0 <? _);
    rewrite ?invoke_inst, changeState_state, changeState_previousState,
      changeState_phyStarted, changeState_gotIpAtLeastOnce,
      changeState_connectionStartTime, changeState_autoReconnectEnabled,
      changeState_linkMonitorTimer, changeState_reconnectTimer,
      changeState_ethEventGroup, changeState_ethMutex, Hc;
    repeat split; assumption || reflexivity.
Qed.

(** X11. A disconnect request that obtains the lock on an initialised
    manager ends in [UNINITIALIZED] by way of [DISCONNECTING], clears the
    started and address flags and the link-up time stamp, disables
    auto-reconnect and stops both timers; the event group and its connected
    bit are left as they are, so [isConnected] is false only because the
    started flag is. *)
Theorem disconnect_tears_down (w : World) :
  MutexGuard (ethMutex (inst w)) = true ->
  connectionState (inst w) <> UNINITIALIZED ->
  let w' := disconnect w in
  connectionState (inst w') = UNINITIALIZED /\
  previousState (inst w') = DISCONNECTING /\
  phyStarted (inst w') = false /\
  gotIpAtLeastOnce (inst w') = false /\
  connectionStartTime (inst w') = 0 /\
  autoReconnectEnabled (inst w') = false /\
  timer_running (linkMonitorTimer (inst w')) = false /\
  (autoReconnectEnabled (inst w) = true ->
   timer_running (reconnectTimer (inst w')) = false) /\
  isConnected w' = false /\
  ethEventGroup (inst w') = ethEventGroup (inst w).
Proof.
  intros Hlock Hstate w'. subst w'.
  destruct (disconnect_done w Hlock Hstate)
    as (H1 & H2 & H3 & H4 & H5 & H6 & H7 & H8 & H9 & _).
  rewrite isConnected_spec, H3.
  repeat split; assumption || reflexivity.
Qed.

Lemma disconnect_tears_down_witness :
  connectionState (inst (disconnect connected)) = UNINITIALIZED /\
  ethEventGroup (inst (disconnect connected)) = Some 1.
Proof.
  assert (Hlock : MutexGuard (ethMutex (inst connected)) = true)
    by (vm_compute; reflexivity).
  assert (Hstate : connectionState (inst connected) <> UNINITIALIZED)
    by (vm_compute; discriminate).
  pose proof (disconnect_tears_down connected Hlock Hstate) as H.
  cbv zeta in H.
  destruct H as (H1 & _ & _ & _ & _ & _ & _ & _ & _ & H10).
  split; [exact H1 |]. rewrite H10. vm_compute. reflexivity.
Defined.

(** X12. A disconnect request counts a disconnection only when it finds
    the state [CONNECTED] with a link-up time stamp, and reports to the
    callbacks in this order: the state change to [DISCONNECTING] (unless
    that was the state already), the state change to [UNINITIALIZED], and,
    for a counted disconnection of non-zero length, the disconnected
    callback with the time since the link came up. *)
Theorem disconnect_reports_established_connection (w : World) :
  MutexGuard (ethMutex (inst w)) = true ->
  connectionState (inst w) <> UNINITIALIZED ->
  let w' := disconnect w in
  let old := connectionState (inst w) in
  let duration := u32 (millis w - connectionStartTime (inst w)) in
  stats (inst w')
  = (if was_connected w
     then set_disconnectCount (u32 (disconnectCount (stats (inst w)) + 1))
            (stats (inst w))
     else stats (inst w)) /\
  trace w'
  = trace w
    ++ (if state_eqb DISCONNECTING old then []
        else calls (stateChangeCallback (inst w))
               (fun cb => CallStateChange cb old DISCONNECTING))
    ++ calls (stateChangeCallback (inst w))
         (fun cb => CallStateChange cb DISCONNECTING UNINITIALIZED)
    ++ (if was_connected w && (0 <? duration)
        then calls (disconnectedCallback (inst w))
               (fun cb => CallDisconnected cb duration)
        else []).
Proof.
  intros Hlock Hstate w'. subst w'. unfold disconnect.
  rewrite Hlock. cbn [negb].
  destruct (state_eqb (connectionState (inst w)) UNINITIALIZED) eqn:E;
    [apply state_eqb_eq in E; contradiction |].
  cbv zeta. fold (was_connected w).
  set (w1 := if was_connected w then upd _ w else w).
  assert (H1 : stats (inst w1)
               = (if was_connected w
                  then set_disconnectCount
                         (u32 (disconnectCount (stats (inst w)) + 1))
                         (stats (inst w))
                  else stats (inst w))
               /\ connectionState (inst w1) = connectionState (inst w)
               /\ stateChangeCallback (inst w1) = stateChangeCallback (inst w)
               /\ disconnectedCallback (inst w1)
                  = disconnectedCallback (inst w)
               /\ trace w1 = trace w).
  { subst w1. destruct (was_connected w); repeat split; reflexivity. }
  destruct H1 as (Hst1 & Hcs1 & Hscb1 & Hdcb1 & Htr1).
  set (c := if was_connected w then _ else 0).
  assert (Hc : (0 <? c)
               = was_connected w
                 && (0 <? u32 (millis w - connectionStartTime (inst w)))).
  { subst c. destruct (was_connected w); reflexivity. }
  rewrite <- Hc.
  assert (Hd : forall cb : Callback,
             (0 <? c) = true ->
             CallDisconnected cb c
             = CallDisconnected cb
                 (u32 (millis w - connectionStartTime (inst w)))).
  { intros cb Hpos. subst c. destruct (was_connected w);
      [reflexivity | discriminate Hpos]. }
  pose proof (changeState_state DISCONNECTING w1) as Hs2.
  pose proof (changeState_stats DISCONNECTING w1) as Hst2.
  pose proof (changeState_stateChangeCallback DISCONNECTING w1) as Hscb2.
  pose proof (changeState_disconnectedCallback DISCONNECTING w1) as Hdcb2.
  pose proof (changeState_trace DISCONNECTING w1) as Htr2.
  rewrite Hst1 in Hst2. rewrite Hscb1 in Hscb2. rewrite Hdcb1 in Hdcb2.
  rewrite Hcs1, Hscb1, Htr1 in Htr2.
  set (w2 := changeState DISCONNECTING w1) in *.
  clearbody c w2. clear Hst1 Hcs1 Hscb1 Hdcb1 Htr1 Hlock Hstate E Hc w1.
  destruct (disconnect_clears w2)
    as ((Hcs & _) & (_ & _ & Hst & Hscb & Hdcb & Htr & _)).
  rewrite Hs2 in Hcs. rewrite Hst2 in Hst. rewrite Hscb2 in Hscb.
  rewrite Hdcb2 in Hdcb. rewrite Htr2 in Htr.
  match goal with
  | |- context [changeState UNINITIALIZED ?x] => set (w5 := x) in *
  end.
  clearbody w5. clear Hs2 Hst2 Hscb2 Hdcb2 Htr2 w2.
  split.
  - destruct (0 <? c); rewrite ?invoke_inst, changeState_stats; exact Hst.
  - destruct (0 <? c) eqn:Hpos.
    + rewrite invoke_trace, changeState_trace,
        changeState_disconnectedCallback, Hcs, Hscb, Hdcb, Htr.
      change (state_eqb UNINITIALIZED DISCONNECTING) with false. cbv iota.
      rewrite <- !app_assoc. do 3 apply f_equal.
      unfold calls. destruct (disconnectedCallback (inst w));
        [rewrite (Hd _ eq_refl) |]; reflexivity.
    + rewrite changeState_trace, Hcs, Hscb, Htr.
      change (state_eqb UNINITIALIZED DISCONNECTING) with false. cbv iota.
      rewrite <- !app_assoc. rewrite app_nil_r. reflexivity.
Qed.

Lemma disconnect_reports_established_connection_witness :
  disconnectCount (stats (inst (disconnect (set_millis 9000 connected))))
  = 1.
Proof.
  assert (Hlock : MutexGuard (ethMutex (inst (set_millis 9000 connected)))
                  = true) by (vm_compute; reflexivity).
  assert (Hstate : connectionState (inst (set_millis 9000 connected))
                   <> UNINITIALIZED) by (vm_compute; discriminate).
  pose proof (disconnect_reports_established_connection
                (set_millis 9000 connected) Hlock Hstate) as H.
  cbv zeta in H. destruct H as [H _]. rewrite H.
  vm_compute. reflexivity.
Defined.

(** X13. Disconnecting twice is the same as disconnecting once. *)
Theorem disconnect_idempotent (w : World) :
  disconnect (disconnect w) = disconnect w.
Proof.
  destruct (MutexGuard (ethMutex (inst w))) eqn:Hlock.
  - destruct (state_eqb (connectionState (inst w)) UNINITIALIZED) eqn:E.
    + apply state_eqb_eq in E.
      rewrite (disconnect_refused w (or_intror E)).
      apply disconnect_refused. right. exact E.
    + assert (Hstate : connectionState (inst w) <> UNINITIALIZED).
      { intro H. apply state_eqb_eq in H. rewrite H in E. discriminate E. }
      apply disconnect_refused. right.
      apply (disconnect_done w Hlock Hstate).
  - rewrite (disconnect_refused w (or_introl Hlock)).
    apply disconnect_refused. left. exact Hlock.
Qed.

(** ** Resetting the interface *)

(** X14. [resetInterface] succeeds exactly when the PHY is started and
    the lock is obtained, and otherwise changes nothing.  When it succeeds
    the connection is dropped silently: [isConnected] is false, the address
    flag is clear and the state is [LINK_DOWN], but no disconnection is
    counted and only the state-change callback is called; with
    auto-reconnect enabled the backoff starts afresh and the reconnect
    timer is started. *)
Theorem reset_interface_drops_connection_silently (w : World) :
  let r := resetInterface w in
  fst r = phyStarted (inst w) && MutexGuard (ethMutex (inst w)) /\
  (fst r = false -> snd r = w) /\
  (fst r = true ->
   isConnected (snd r) = false /\
   gotIpAtLeastOnce (inst (snd r)) = false /\
   connectionState (inst (snd r)) = LINK_DOWN /\
   phyStarted (inst (snd r)) = true /\
   stats (inst (snd r)) = stats (inst w) /\
   trace (snd r)
   = trace w
     ++ (if state_eqb LINK_DOWN (connectionState (inst w)) then []
         else calls (stateChangeCallback (inst w))
                (fun cb =>
                   CallStateChange cb (connectionState (inst w)) LINK_DOWN)) /\
   (autoReconnectEnabled (inst w) = true ->
    forall t : Timer,
      reconnectTimer (inst w) = Some t ->
      reconnectTimer (inst (snd r)) = Some (xTimerStart t) /\
      reconnectAttempts (inst (snd r)) = 0 /\
      reconnectCurrentDelay (inst (snd r))
      = reconnectInitialDelay (inst w))).
Proof.
  cbv zeta. unfold resetInterface.
  destruct (phyStarted (inst w)) eqn:Hphy; cbn [negb andb fst snd];
    [| repeat split; intros; reflexivity || congruence].
  destruct (MutexGuard (ethMutex (inst w))) eqn:Hlock; cbn [negb fst snd];
    [| repeat split; intros; reflexivity || congruence].
  split; [reflexivity |]. split; [intro H; discriminate H |]. intros _.
  rewrite isConnected_spec. clear Hlock.
  assert (Hbit : forall g : EventBits_t,
             Z.land (xEventGroupClearBits g BIT_CONNECTED) BIT_CONNECTED = 0).
  { intro g. pose proof (clear_connected_bit g) as H.
    unfold connected_bit in H. apply negb_false_iff, Z.eqb_eq in H.
    exact H. }
  open_now w. cbn in Hphy. subst.
  unfold clearConnectedBit, changeState, invoke, emit, upd, calls,
    connected_bit.
  cbn.
  match goal with
  | |- context [option_map _ ?x] => is_var x; destruct x
  end.
  all: cbn; split_cases; same_options; use_state_eqb; cbn;
    rewrite ?Hbit, ?app_nil_r; cbn;
    repeat split; intros; same_options;
    reflexivity || congruence.
Qed.

Lemma reset_interface_drops_connection_silently_witness :
  fst (resetInterface connected) = true /\
  isConnected (snd (resetInterface connected)) = false /\
  disconnectCount (stats (inst (snd (resetInterface connected)))) = 0.
Proof.
  assert (Hok : fst (resetInterface connected) = true)
    by (vm_compute; reflexivity).
  pose proof (proj2 (proj2 (reset_interface_drops_connection_silently
                              connected)) Hok) as H.
  destruct H as (H1 & _ & _ & _ & H5 & _).
  split; [exact Hok |]. split; [exact H1 |].
  rewrite H5. vm_compute. reflexivity.
Defined.

(** ** Polling the link *)

Lemma updateLinkStatus_not_started (w : World) :
  phyStarted (inst w) = false -> updateLinkStatus w = (false, w).
Proof. intro H. unfold updateLinkStatus. rewrite H. reflexivity. Qed.

Lemma updateLinkStatus_phyStarted (w : World) :
  phyStarted (inst (snd (updateLinkStatus w))) = phyStarted (inst w).
Proof.
  destruct (updateLinkStatus_cases w) as [-> | (s & st & cb & -> & _)];
    [reflexivity |].
  fields. rewrite changeState_phyStarted. reflexivity.
Qed.

Lemma updateLinkStatus_started (w : World) :
  phyStarted (inst w) = true ->
  fst (updateLinkStatus w) = eth_linkUp (platform w) /\
  platform (snd (updateLinkStatus w)) = platform w /\
  lastLinkStatus (inst (snd (updateLinkStatus w))) = eth_linkUp (platform w).
Proof.
  intro Hphy. open_now w. cbn in Hphy. subst.
  unfold updateLinkStatus, isConnected, changeState, invoke, emit, upd.
  cbn.
  split_cases; use_state_eqb; cbn; repeat split;
    try reflexivity;
    match goal with
    | H : Bool.eqb _ _ = true |- _ =>
        apply eqb_prop in H; symmetry; exact H
    end.
Qed.

(** When the link is found down after having been up, the state becomes
    [LINK_DOWN] and a link-down event is counted, nothing else. *)
Lemma updateLinkStatus_link_down (w : World) :
  phyStarted (inst w) = true ->
  lastLinkStatus (inst w) = true ->
  eth_linkUp (platform w) = false ->
  connectionState (inst (snd (updateLinkStatus w))) = LINK_DOWN /\
  stats (inst (snd (updateLinkStatus w)))
  = set_linkDownEvents (u32 (linkDownEvents (stats (inst w)) + 1))
      (stats (inst w)).
Proof.
  intros Hphy Hlast Hlink. open_now w. cbn in Hphy, Hlast, Hlink. subst.
  unfold updateLinkStatus, isConnected, changeState, invoke, emit, upd.
  cbn. rewrite Hlink. cbn.
  split_cases; use_state_eqb; cbn; repeat split; reflexivity.
Qed.

Lemma checkLinkStatus_snd (w : World) :
  snd (checkLinkStatus w) = snd (updateLinkStatus w).
Proof.
  unfold checkLinkStatus.
  destruct (phyStarted (inst w)) eqn:H; cbn [negb snd]; [reflexivity |].
  rewrite (updateLinkStatus_not_started w H). reflexivity.
Qed.

(** X15. Polling the link a second time, with the link as it was at the
    first poll, changes nothing and gives the same answer: the first poll
    has recorded the status it found.  The answer of a poll, through
    [updateLinkStatus] or [checkLinkStatus], is that of [isLinkUp]. *)
Theorem link_poll_settles (w : World) :
  updateLinkStatus (snd (updateLinkStatus w)) = updateLinkStatus w /\
  fst (updateLinkStatus w) = isLinkUp w /\
  fst (checkLinkStatus w) = isLinkUp w.
Proof.
  unfold isLinkUp, checkLinkStatus.
  destruct (phyStarted (inst w)) eqn:Hphy; cbn [negb andb fst].
  - destruct (updateLinkStatus_started w Hphy) as (Hfst & Hp & Hlast).
    split; [| split; [exact Hfst | reflexivity]].
    pose proof (updateLinkStatus_phyStarted w) as Hphy'.
    rewrite Hphy in Hphy'.
    rewrite (surjective_pairing (updateLinkStatus w)) at 2.
    rewrite Hfst.
    set (w' := snd (updateLinkStatus w)) in *. clearbody w'.
    unfold updateLinkStatus. rewrite Hphy', Hp, Hlast.
    cbn [negb]. rewrite eqb_reflx. reflexivity.
  - rewrite (updateLinkStatus_not_started w Hphy). cbn [fst snd].
    split; [| split; reflexivity].
    apply updateLinkStatus_not_started. exact Hphy.
Qed.

(** X16. A link poll never touches the connected signal: [isConnected]
    and the address flag are as before, even when the poll finds the link
    down after it was up, moves the state to [LINK_DOWN] and counts a
    link-down event (no disconnection is counted). *)
Theorem link_poll_keeps_connected_signal (w : World) :
  let w' := snd (checkLinkStatus w) in
  isConnected w' = isConnected w /\
  gotIpAtLeastOnce (inst w') = gotIpAtLeastOnce (inst w) /\
  (phyStarted (inst w) = true ->
   lastLinkStatus (inst w) = true ->
   eth_linkUp (platform w) = false ->
   connectionState (inst w') = LINK_DOWN /\
   linkDownEvents (stats (inst w'))
   = u32 (linkDownEvents (stats (inst w)) + 1) /\
   disconnectCount (stats (inst w')) = disconnectCount (stats (inst w))).
Proof.
  cbv zeta. rewrite checkLinkStatus_snd, !isConnected_spec.
  rewrite updateLinkStatus_phyStarted, updateLinkStatus_ethEventGroup,
    updateLinkStatus_gotIpAtLeastOnce.
  split; [reflexivity |]. split; [reflexivity |].
  intros Hphy Hlast Hlink.
  destruct (updateLinkStatus_link_down w Hphy Hlast Hlink) as [Hs Hst].
  rewrite Hs, Hst. destruct (stats (inst w)).
  repeat split; reflexivity.
Qed.

Lemma link_poll_keeps_connected_signal_witness :
  isConnected (snd (checkLinkStatus (cable_pulled connected))) = true /\
  connectionState (inst (snd (checkLinkStatus (cable_pulled connected))))
  = LINK_DOWN.
Proof.
  pose proof (link_poll_keeps_connected_signal (cable_pulled connected))
    as H.
  cbv zeta in H. destruct H as (Hc & _ & Hdown).
  split.
  - rewrite Hc. vm_compute. reflexivity.
  - apply Hdown; vm_compute; reflexivity.
Defined.

(** ** Link monitoring *)

(** X17. With the lock free and a positive interval, enabling link
    monitoring leaves a running monitor timer with the requested interval
    when a timer exists already or one can be allocated; disabling it
    afterwards stops that timer and keeps its period, although the stored
    interval is overwritten with the one passed to the disabling call.
    When there is no timer and none can be allocated, monitoring is
    recorded as enabled with no timer behind it. *)
Theorem link_monitoring_timer_follows_setting (w : World) (i j : Z) :
  MutexGuard (ethMutex (inst w)) = true ->
  0 < i ->
  let w1 := setLinkMonitoring true i w in
  let w2 := setLinkMonitoring false j w1 in
  linkMonitoringEnabled (inst w1) = true /\
  linkMonitoringInterval (inst w1) = i /\
  (linkMonitorTimer (inst w) <> None \/ timer_alloc (platform w) = true ->
   linkMonitorTimer (inst w1) = Some (mkTimer i true) /\
   linkMonitoringEnabled (inst w2) = false /\
   linkMonitoringInterval (inst w2) = j /\
   linkMonitorTimer (inst w2) = Some (mkTimer i false)) /\
  (linkMonitorTimer (inst w) = None ->
   timer_alloc (platform w) = false ->
   linkMonitorTimer (inst w1) = None /\
   linkMonitoringEnabled (inst w2) = false /\
   linkMonitorTimer (inst w2) = None).
Proof.
  intros Hlock _. cbv zeta.
  destruct w as [m now p tr]; destruct m; destruct p.
  cbn in Hlock.
  unfold setLinkMonitoring, xTimerCreate, upd. cbn. rewrite Hlock. cbn.
  repeat match goal with
  | |- context [match ?x with _ => _ end] => is_var x; destruct x; cbn
  end.
  all: rewrite ?Hlock; cbn.
  all: repeat split; intros; try reflexivity; try congruence.
  all: intuition congruence.
Qed.

Lemma link_monitoring_timer_follows_setting_witness :
  linkMonitorTimer
    (inst (setLinkMonitoring false 0 (setLinkMonitoring true 250 connected)))
  = Some (mkTimer 250 false).
Proof.
  apply (link_monitoring_timer_follows_setting connected 250 0);
    [reflexivity | reflexivity | right; reflexivity].
Defined.

(** The monitor timer cannot be allocated: the setting is recorded and
    nothing polls the link. *)
Lemma link_monitoring_without_timer :
  let starved :=
    set_platform
      (mkPlatform true true true 3232235876 (Some 1) None true true true
         true true false) booted in
  let w1 := setLinkMonitoring true 250 starved in
  linkMonitoringEnabled (inst w1) = true /\
  linkMonitorTimer (inst w1) = None.
Proof. vm_compute. split; reflexivity. Qed.

(** Case analysis from the inside: split on a scrutinee only when it has
    no case analysis of its own. *)
Ltac split_inner :=
  repeat match goal with
  | |- context [match ?x with _ => _ end] =>
      lazymatch x with
      | context [match _ with _ => _ end] => fail
      | _ => idtac
      end;
      match type of x with
      | bool => destruct x eqn:?
      | option _ => destruct x eqn:?
      | EthConnectionState => destruct x eqn:?
      | Semaphore => destruct x eqn:?
      end; cbn in *; try discriminate
  end.

(** ** Early initialisation *)

(** What a successful [earlyInit] leaves behind. *)
Lemma earlyInit_done (w : World) :
  fst (earlyInit w) = true ->
  let w' := snd (earlyInit w) in
  (MutexGuard (ethMutex (inst w')) = true /\
   (exists g, ethEventGroup (inst w') = Some g) /\
   eventHandlersRegistered (inst w') = true /\
   event_loop_ok (platform w') = true) /\
  (ethMutex (inst w') = ethMutex (inst w) /\
   platform w' = platform w /\
   millis w' = millis w /\
   phyStarted (inst w') = phyStarted (inst w) /\
   connectionState (inst w') = connectionState (inst w) /\
   lastError (inst w') = lastError (inst w) /\
   hasCustomMac (inst w') = hasCustomMac (inst w) /\
   begin_calls (trace w') = begin_calls (trace w)).
Proof.
  destruct w as [m now p tr]; destruct m; destruct p.
  unfold earlyInit, emit, upd. cbn.
  split_inner; intro H; try discriminate H;
    repeat match goal with
    | Hn : negb ?b = false |- _ => apply negb_false_iff in Hn; subst b
    end;
    rewrite ?begin_calls_app; cbn [begin_calls];
    rewrite ?Nat.add_0_r;
    repeat split; try reflexivity;
    eexists; reflexivity.
Qed.

(** X18. Early initialisation is idempotent: once it has succeeded, a
    second call succeeds without registering the handlers again or
    changing anything else. *)
Theorem early_init_idempotent (w : World) :
  fst (earlyInit w) = true ->
  earlyInit (snd (earlyInit w)) = (true, snd (earlyInit w)).
Proof.
  intro Hok.
  destruct (earlyInit_done w Hok) as ((Hlock & (g & Hg) & Hreg & Hloop) & _).
  set (w' := snd (earlyInit w)) in *. clearbody w'.
  unfold earlyInit. rewrite Hlock, Hloop, Hg, Hreg.
  destruct (ethMutex (inst w')); [reflexivity | discriminate Hlock].
Qed.

Lemma early_init_idempotent_witness :
  earlyInit (snd (earlyInit (cleanup connected)))
  = (true, snd (earlyInit (cleanup connected))).
Proof.
  apply (early_init_idempotent (cleanup connected)).
  vm_compute. reflexivity.
Defined.

(** X19. When one of the two handler registrations fails, early
    initialisation undoes the one that succeeded, deletes the event group,
    also when it existed before the call, and reports failure without
    recording an error code. *)
Theorem early_init_registration_failure_rolls_back (w : World) :
  MutexGuard (ethMutex (inst w)) = true ->
  event_loop_ok (platform w) = true ->
  eventHandlersRegistered (inst w) = false ->
  ethEventGroup (inst w) <> None \/ event_group_alloc (platform w) = true ->
  register_ip_ok (platform w) && register_eth_ok (platform w) = false ->
  let r := earlyInit w in
  fst r = false /\
  ethEventGroup (inst (snd r)) = None /\
  eventHandlersRegistered (inst (snd r)) = false /\
  lastError (inst (snd r)) = lastError (inst w) /\
  trace (snd r)
  = trace w
    ++ (if register_ip_ok (platform w)
        then [EventHandlerRegister IP_EVENT; EventHandlerRegister ETH_EVENT;
              EventHandlerUnregister IP_EVENT]
        else [EventHandlerRegister IP_EVENT]).
Proof.
  intros Hlock Hloop Hreg Hgroup Hfail. cbv zeta.
  destruct w as [m now p tr]; destruct m; destruct p.
  cbn in Hlock, Hloop, Hreg, Hgroup, Hfail. subst.
  unfold earlyInit, emit, upd. cbn.
  split_inner; rewrite <- ?app_assoc; cbn [app];
    repeat split; try reflexivity; try discriminate;
    try (destruct Hgroup as [Hgroup | Hgroup]; congruence);
    match goal with
    | H1 : ?b = false, H2 : negb ?b = false |- _ =>
        rewrite H1 in H2; discriminate H2
    end.
Qed.

Lemma early_init_registration_failure_rolls_back_witness :
  let w := set_platform
             (mkPlatform true true true 3232235876 (Some 1) None
                true true false true true true)
             (boot good_platform 1000) in
  ethEventGroup (inst w) = Some 0 /\
  fst (earlyInit w) = false /\
  ethEventGroup (inst (snd (earlyInit w))) = None.
Proof.
  cbv zeta.
  set (w := set_platform _ _).
  assert (H1 : MutexGuard (ethMutex (inst w)) = true) by reflexivity.
  assert (H2 : event_loop_ok (platform w) = true) by reflexivity.
  assert (H3 : eventHandlersRegistered (inst w) = false) by reflexivity.
  assert (H4 : ethEventGroup (inst w) <> None
               \/ event_group_alloc (platform w) = true)
    by (right; reflexivity).
  assert (H5 : register_ip_ok (platform w) && register_eth_ok (platform w)
               = false) by reflexivity.
  pose proof (early_init_registration_failure_rolls_back w H1 H2 H3 H4 H5)
    as H.
  cbv zeta in H. destruct H as (Ha & Hb & _).
  split; [reflexivity |]. split; assumption.
Defined.

(** ** Bringing the PHY up *)

Lemma earlyInit_succeeds (w : World) :
  MutexGuard (ethMutex (inst w)) = true ->
  services_ok (platform w) = true ->
  fst (earlyInit w) = true.
Proof.
  intros Hlock Hsvc.
  destruct w as [m now p tr]; destruct m; destruct p.
  unfold services_ok in Hsvc. cbn in Hlock, Hsvc.
  repeat (apply andb_true_iff in Hsvc; destruct Hsvc as [Hsvc ?]). subst.
  unfold earlyInit, emit, upd. cbn.
  split_inner; reflexivity.
Qed.

Lemma ensureEarlyInit_ok (w : World) :
  MutexGuard (ethMutex (inst w)) = true ->
  services_ok (platform w) = true ->
  let w' := snd (ensureEarlyInit w) in
  fst (ensureEarlyInit w) = true /\
  (MutexGuard (ethMutex (inst w')) = true /\
   (exists g, ethEventGroup (inst w') = Some g) /\
   eventHandlersRegistered (inst w') = true) /\
  (platform w' = platform w /\
   millis w' = millis w /\
   phyStarted (inst w') = phyStarted (inst w) /\
   connectionState (inst w') = connectionState (inst w) /\
   lastError (inst w') = lastError (inst w) /\
   hasCustomMac (inst w') = hasCustomMac (inst w) /\
   begin_calls (trace w') = begin_calls (trace w)).
Proof.
  intros Hlock Hsvc. cbv zeta. unfold ensureEarlyInit.
  destruct (negb (mutexCreated (inst w)) || _ || _) eqn:E.
  - pose proof (earlyInit_succeeds w Hlock Hsvc) as Hok.
    destruct (earlyInit_done w Hok)
      as ((H1 & H2 & H3 & _) & (_ & H5 & H6 & H7 & H8 & H9 & H10 & H11)).
    repeat split; assumption.
  - apply orb_false_iff in E. destruct E as [E Hreg].
    apply orb_false_iff in E. destruct E as [_ Hg].
    apply negb_false_iff in Hreg. cbn [fst snd].
    destruct (ethEventGroup (inst w)) as [g |] eqn:Hgrp;
      [| discriminate Hg].
    repeat split; try assumption; try reflexivity.
    exists g. reflexivity.
Qed.

Lemma changeState_begin_calls (s : EthConnectionState) (w : World) :
  begin_calls (trace (changeState s w)) = begin_calls (trace w).
Proof.
  rewrite changeState_trace, begin_calls_app.
  destruct (state_eqb _ _); [apply Nat.add_0_r |].
  unfold calls. destruct (stateChangeCallback (inst w)); apply Nat.add_0_r.
Qed.

Lemma changeState_lastError (s : EthConnectionState) (w : World) :
  lastError (inst (changeState s w)) = lastError (inst w).
Proof. frame_changeState s w. Qed.

Lemma changeState_eventHandlersRegistered (s : EthConnectionState)
  (w : World) :
  eventHandlersRegistered (inst (changeState s w))
  = eventHandlersRegistered (inst w).
Proof. frame_changeState s w. Qed.

Lemma changeState_platform (s : EthConnectionState) (w : World) :
  platform (changeState s w) = platform w.
Proof.
  unfold changeState.
  destruct (state_eqb s (connectionState (inst w))); [reflexivity |].
  cbv zeta. unfold invoke.
  destruct s; fields; destruct (stateChangeCallback _); reflexivity.
Qed.

(** The bring-up of [internalInit] up to and including [ETH.begin]. *)
Lemma bring_up_begin (h : string) (phy mdc mdio power clock : Z)
  (mac : option (list Z)) (w1 : World) (g : EventBits_t) :
  ethEventGroup (inst w1) = Some g ->
  let w2 := clearConnectedBit w1 in
  let w3 := match mac with
            | Some mac =>
                upd (fun m => set_hasCustomMac true
                       (set_customMacAddress
                          (firstn ETH_MAC_ADDRESS_SIZE mac) m)) w2
            | None => w2
            end in
  let w4 := changeState PHY_STARTING w3 in
  let w5 := emit (EthBegin phy mdc mdio power clock)
                 (emit (EthSetHostname h) w4) in
  (platform w5 = platform w1 /\
   millis w5 = millis w1 /\
   begin_calls (trace w5) = S (begin_calls (trace w1))) /\
  (ethEventGroup (inst w5) = Some (xEventGroupClearBits g BIT_CONNECTED) /\
   connectionState (inst w5) = PHY_STARTING /\
   phyStarted (inst w5) = phyStarted (inst w1) /\
   lastError (inst w5) = lastError (inst w1) /\
   eventHandlersRegistered (inst w5) = eventHandlersRegistered (inst w1) /\
   ethMutex (inst w5) = ethMutex (inst w1)).
Proof.
  intros Hg. cbv zeta.
  set (w3 := match mac with Some _ => _ | None => _ end).
  assert (H3 : platform w3 = platform w1 /\ millis w3 = millis w1 /\
               trace w3 = trace w1 /\
               ethEventGroup (inst w3)
               = Some (xEventGroupClearBits g BIT_CONNECTED) /\
               phyStarted (inst w3) = phyStarted (inst w1) /\
               lastError (inst w3) = lastError (inst w1) /\
               eventHandlersRegistered (inst w3)
               = eventHandlersRegistered (inst w1) /\
               ethMutex (inst w3) = ethMutex (inst w1)).
  { subst w3. unfold clearConnectedBit.
    destruct mac; fields; rewrite Hg; repeat split; reflexivity. }
  destruct H3 as (Hp & Hm & Htr & Hgrp & Hphy & Herr & Hreg & Hmx).
  rewrite <- Hp, <- Hm, <- Htr, <- Hphy, <- Herr, <- Hreg, <- Hmx.
  rewrite <- Hgrp.
  clearbody w3. clear Hp Hm Htr Hgrp Hphy Herr Hreg Hmx Hg.
  fields.
  rewrite !begin_calls_app, changeState_begin_calls. cbn [begin_calls].
  rewrite changeState_platform, changeState_millis, changeState_ethEventGroup,
    changeState_state, changeState_phyStarted, changeState_lastError,
    changeState_eventHandlersRegistered, changeState_ethMutex.
  repeat split; try reflexivity. lia.
Qed.

(** The rest of a successful bring-up: the started flag and the network
    interface. *)
Lemma bring_up_netif (h : string) (w6 : World) :
  let w7 := upd (fun m => set_eth_netif (netif_handle (platform w6))
                            (set_phyStarted true m)) w6 in
  let w8 :=
    match eth_netif (inst w7) with
    | None => w7
    | Some _ =>
        let w' := upd (set_netifCreated true) w7 in
        match netif_hostname (platform w') with
        | Some cur =>
            if String.eqb cur h then w'
            else emit (NetifSetHostname h) w'
        | None => emit (NetifSetHostname h) w'
        end
    end in
  (platform w8 = platform w6 /\
   millis w8 = millis w6 /\
   begin_calls (trace w8) = begin_calls (trace w6)) /\
  (ethEventGroup (inst w8) = ethEventGroup (inst w6) /\
   connectionState (inst w8) = connectionState (inst w6) /\
   phyStarted (inst w8) = true /\
   lastError (inst w8) = lastError (inst w6) /\
   eventHandlersRegistered (inst w8) = eventHandlersRegistered (inst w6) /\
   ethMutex (inst w8) = ethMutex (inst w6)).
Proof.
  destruct w6 as [m now p tr]; destruct m; destruct p.
  unfold emit, upd. cbn.
  split_inner; rewrite ?begin_calls_app; cbn [begin_calls];
    rewrite ?Nat.add_0_r; repeat split; reflexivity.
Qed.

(** [internalInit] on valid parameters, with the lock free and the
    platform services working: everything up to the optional wait. *)
Lemma internalInit_bring_up (env : Blocking) (fuel : nat) (h : string)
  (phy mdc mdio power clock : Z) (mac : option (list Z)) (wait : bool)
  (w : World) :
  already_started w = false ->
  valid_parameters (Some h) phy mdc mdio power = true ->
  MutexGuard (ethMutex (inst w)) = true ->
  services_ok (platform w) = true ->
  exists (w8 : World) (g : EventBits_t),
    internalInit env fuel (Some h) phy mdc mdio power clock mac wait w
    = (if eth_begin_result (platform w) then
         if negb wait then Some (true, w8)
         else match waitForConnection env fuel ETH_INIT_TIMEOUT_MS w8 with
              | None => None
              | Some (r, w9) => Some (result_is_ok r, w9)
              end
       else Some (false, w8)) /\
    (begin_calls (trace w8) = S (begin_calls (trace w)) /\
     millis w8 = millis w /\
     ethEventGroup (inst w8) = Some g /\
     connected_bit (Some g) = false /\
     eventHandlersRegistered (inst w8) = true) /\
    (eth_begin_result (platform w) = true ->
     phyStarted (inst w8) = true /\
     connectionState (inst w8) = PHY_STARTING /\
     lastError (inst w8) = lastError (inst w)) /\
    (eth_begin_result (platform w) = false ->
     phyStarted (inst w8) = phyStarted (inst w) /\
     connectionState (inst w8) = ERROR_STATE /\
     lastError (inst w8) = PHY_START_FAILED).
Proof.
  intros Hns Hvalid Hlock Hsvc.
  unfold internalInit. unfold already_started in Hns. rewrite Hns.
  unfold valid_parameters, invalid_hostname in Hvalid.
  repeat (apply andb_true_iff in Hvalid; destruct Hvalid as [Hvalid ?]).
  repeat match goal with
         | H : negb _ = true |- _ => apply negb_true_iff in H
         end.
  apply orb_false_iff in Hvalid. destruct Hvalid as [Hempty Hlong].
  rewrite Hempty, Hlong.
  repeat match goal with
         | H : invalid_phy_addr _ = false |- _ => rewrite H; clear H
         | H : invalid_pin _ = false |- _ => rewrite H; clear H
         end.
  destruct (ensureEarlyInit_ok w Hlock Hsvc)
    as (He & (Hl1 & (g & Hg1) & Hreg1)
        & (Hp1 & Hm1 & Hphy1 & Hcs1 & Herr1 & _ & Hb1)).
  destruct (ensureEarlyInit w) as [early w1].
  cbn [fst snd] in He, Hl1, Hg1, Hreg1, Hp1, Hm1, Hphy1, Hcs1, Herr1, Hb1.
  subst early. cbn [negb]. rewrite Hl1. cbn [negb]. cbv zeta.
  rewrite <- Hp1, <- Hm1, <- Hphy1, <- Herr1, <- Hb1.
  clear Hns Hlock Hsvc Hempty Hlong Hl1 Hp1 Hm1 Hphy1 Hcs1 Herr1 Hb1.
  destruct (bring_up_begin h phy mdc mdio power clock mac w1 g Hg1)
    as ((Hp5 & Hm5 & Hb5) & (Hg5 & Hcs5 & Hphy5 & Herr5 & Hreg5 & _)).
  rewrite Hreg1 in Hreg5.
  rewrite <- Hp5, <- Hm5, <- Hphy5, <- Herr5, <- Hb5.
  match goal with
  | |- context [emit (EthBegin _ _ _ _ _) ?x] =>
      set (w5 := emit (EthBegin phy mdc mdio power clock) x) in *
  end.
  clearbody w5. clear Hp5 Hm5 Hb5 Hphy5 Herr5 Hg1 Hreg1 w1.
  pose proof (clear_connected_bit g) as Hbit.
  set (g5 := xEventGroupClearBits g BIT_CONNECTED) in *. clearbody g5.
  destruct (eth_begin_result (platform w5)) eqn:Hbegin; cbn [andb negb].
  - set (w6 := if hasCustomMac (inst w5) then emit _ w5 else w5).
    assert (H6 : (platform w6 = platform w5 /\ millis w6 = millis w5 /\
                  begin_calls (trace w6) = begin_calls (trace w5)) /\
                 (ethEventGroup (inst w6) = ethEventGroup (inst w5) /\
                  connectionState (inst w6) = connectionState (inst w5) /\
                  lastError (inst w6) = lastError (inst w5) /\
                  eventHandlersRegistered (inst w6)
                  = eventHandlersRegistered (inst w5))).
    { subst w6. destruct (hasCustomMac (inst w5)); fields;
        rewrite ?begin_calls_app; cbn [begin_calls];
        rewrite ?Nat.add_0_r; repeat split; reflexivity. }
    destruct H6 as ((Hp6 & Hm6 & Hb6) & (Hg6 & Hcs6 & Herr6 & Hreg6)).
    rewrite <- Hm6, <- Hb6, <- Herr6.
    rewrite <- Hg6 in Hg5. rewrite <- Hcs6 in Hcs5.
    rewrite <- Hreg6 in Hreg5.
    clearbody w6. clear Hp6 Hm6 Hb6 Hg6 Hcs6 Herr6 Hreg6 Hbegin.
    destruct (bring_up_netif h w6)
      as ((_ & Hm8 & Hb8) & (Hg8 & Hcs8 & Hphy8 & Herr8 & Hreg8 & _)).
    match goal with
    | |- context [if negb wait then Some (true, ?x) else _] =>
        set (w8 := x) in *
    end.
    clearbody w8.
    exists w8, g5. split; [reflexivity |].
    rewrite <- Hm8, <- Hb8, <- Herr8.
    rewrite Hg8, Hcs8, Hreg8, Hphy8.
    repeat split; intros; assumption || reflexivity || congruence.
  - exists (changeState ERROR_STATE (upd (set_lastError PHY_START_FAILED) w5)),
      g5.
    split; [reflexivity |].
    rewrite changeState_begin_calls, changeState_millis,
      changeState_ethEventGroup, changeState_eventHandlersRegistered,
      changeState_phyStarted, changeState_state, changeState_lastError.
    fields.
    repeat split; intros; assumption || reflexivity || congruence.
Qed.

(** X20. An asynchronous start with valid parameters, the lock free and
    the platform services working calls [ETH.begin] once and leaves the
    connected signal clear.  When [ETH.begin] succeeds the call returns
    success with the PHY marked started in state [PHY_STARTING]; when it
    fails the call returns [PHY_START_FAILED], the state is [ERROR_STATE]
    and the started flag is as it was. *)
Theorem async_start_outcome (env : Blocking) (fuel : nat) (h : string)
  (phy mdc mdio power clock : Z) (mac : option (list Z)) (w : World) :
  already_started w = false ->
  valid_parameters (Some h) phy mdc mdio power = true ->
  MutexGuard (ethMutex (inst w)) = true ->
  services_ok (platform w) = true ->
  exists w' : World,
    initializeAsync env fuel (Some h) phy mdc mdio power clock mac w
    = Some ((if eth_begin_result (platform w) then ResOk
             else ResErr PHY_START_FAILED), w') /\
    begin_calls (trace w') = S (begin_calls (trace w)) /\
    isConnected w' = false /\
    eventHandlersRegistered (inst w') = true /\
    phyStarted (inst w')
    = (if eth_begin_result (platform w) then true
       else phyStarted (inst w)) /\
    connectionState (inst w')
    = (if eth_begin_result (platform w) then PHY_STARTING
       else ERROR_STATE).
Proof.
  intros Hns Hvalid Hlock Hsvc.
  destruct (internalInit_bring_up env fuel h phy mdc mdio power clock mac
              false w Hns Hvalid Hlock Hsvc)
    as (w8 & g & Hrun & (Hb & _ & Hg & Hbit & Hreg) & Hok & Hfail).
  exists w8. unfold initializeAsync. rewrite Hrun.
  rewrite isConnected_spec, Hg, Hbit, andb_false_r.
  destruct (eth_begin_result (platform w)).
  - destruct (Hok eq_refl) as (Hphy & Hcs & _).
    cbn [negb to_result]. repeat split; assumption.
  - destruct (Hfail eq_refl) as (Hphy & Hcs & Herr).
    cbn [to_result]. rewrite Herr. repeat split; assumption.
Qed.

Lemma async_start_outcome_witness :
  outcome (initializeAsync idle 0 sample_hostname 0 23 18 (-1) 0 None booted)
  = Some ResOk.
Proof.
  destruct (async_start_outcome idle 0 "esp32-ethernet"%string 0 23 18 (-1)
              0 None booted eq_refl eq_refl eq_refl eq_refl)
    as (w' & H & _).
  unfold sample_hostname. rewrite H. reflexivity.
Defined.

(** ** More on waiting for the connection *)




(** X22. In state [ERROR_STATE] a wait gives up after its first slice,
    however long the timeout: when the connected bit is still clear after
    one slice of at most [ETH_WAIT_CHUNK_MS] and the state is then
    [ERROR_STATE], the wait returns [CONNECTION_TIMEOUT] at once. *)
Theorem wait_gives_up_early_in_error_state (env : Blocking) (fuel : nat)
  (timeout_ms : Z) (w : World) (g : EventBits_t) :
  0 < timeout_ms < 2 ^ 32 ->
  phyStarted (inst w) = true ->
  ethEventGroup (inst w) = Some g ->
  connected_bit (Some g) = false ->
  let w1 := env w (Z.min ETH_WAIT_CHUNK_MS timeout_ms) in
  connected_bit (ethEventGroup (inst w1)) = false ->
  connectionState (inst w1) = ERROR_STATE ->
  waitForConnection env (S fuel) timeout_ms w
  = Some (ResErr CONNECTION_TIMEOUT,
          upd (set_lastError CONNECTION_TIMEOUT) w1).
Proof.
  intros Ht Hphy Hg Hbit w1 Hbit1 Hstate.
  unfold waitForConnection.
  replace (timeout_ms =? 0) with false by (symmetry; apply Z.eqb_neq; lia).
  rewrite isConnected_spec, Hphy, Hg, Hbit. cbn [andb negb].
  cbn [waitLoop]. rewrite Z.sub_diag.
  change (u32 0) with 0.
  replace (0 <? timeout_ms) with true by (symmetry; apply Z.ltb_lt; lia).
  rewrite Z.sub_0_r, (u32_small timeout_ms) by lia.
  replace (if ETH_WAIT_CHUNK_MS <? timeout_ms then ETH_WAIT_CHUNK_MS
           else timeout_ms)
    with (Z.min ETH_WAIT_CHUNK_MS timeout_ms).
  2:{ destruct (ETH_WAIT_CHUNK_MS <? timeout_ms) eqn:E.
      - apply Z.ltb_lt in E. apply Z.min_l. lia.
      - apply Z.ltb_ge in E. apply Z.min_r. exact E. }
  unfold xEventGroupWaitBits. rewrite Hg, Hbit. fold w1.
  rewrite Hbit1, Hstate. reflexivity.
Qed.

Lemma wait_gives_up_early_in_error_state_witness :
  outcome
    (waitForConnection idle 1 60000
       (changeState ERROR_STATE started))
  = Some (ResErr CONNECTION_TIMEOUT).
Proof.
  assert (Ht : 0 < 60000 < 2 ^ 32) by (split; reflexivity).
  rewrite (wait_gives_up_early_in_error_state idle 0 60000
             (changeState ERROR_STATE started) 0 Ht
             eq_refl eq_refl eq_refl eq_refl eq_refl).
  reflexivity.
Defined.

(** The wait loop does not touch the started flag when the environment
    does not. *)
Lemma waitLoop_phyStarted (env : Blocking) (start timeout_ms : Z) :
  (forall (w : World) (t : Z),
     phyStarted (inst (env w t)) = phyStarted (inst w)) ->
  forall (fuel : nat) (w w' : World) (r : EthResult),
    waitLoop env fuel start timeout_ms w = Some (r, w') ->
    phyStarted (inst w') = phyStarted (inst w).
Proof.
  intros Henv.
  induction fuel as [| k IH]; intros w w' r H; [discriminate H |].
  cbn [waitLoop] in H.
  destruct (u32 (millis w - start) <? timeout_ms).
  - unfold xEventGroupWaitBits in H.
    destruct (connected_bit (ethEventGroup (inst w))).
    + injection H as _ <-. reflexivity.
    + destruct (connected_bit (ethEventGroup (inst (env w _)))).
      * injection H as _ <-. apply Henv.
      * destruct (state_eqb _ _).
        -- injection H as _ <-. fields. apply Henv.
        -- apply IH in H. rewrite H.
           destruct (linkMonitoringEnabled _);
             rewrite ?updateLinkStatus_phyStarted; apply Henv.
  - injection H as _ <-. reflexivity.
Qed.

(** X23. A blocking start that times out does not undo the bring-up: with
    valid parameters, the lock free, the platform services working and
    [ETH.begin] successful, but no address arriving during the wait,
    [initialize] returns [CONNECTION_TIMEOUT] and leaves the PHY marked
    started. *)
Theorem blocking_start_timeout_keeps_phy_started (env : Blocking)
  (fuel : nat) (h : string) (phy mdc mdio power clock : Z) (w : World) :
  quiet env ->
  (forall (w0 : World) (t : Z),
     phyStarted (inst (env w0 t)) = phyStarted (inst w0)) ->
  already_started w = false ->
  valid_parameters (Some h) phy mdc mdio power = true ->
  MutexGuard (ethMutex (inst w)) = true ->
  services_ok (platform w) = true ->
  eth_begin_result (platform w) = true ->
  0 <= millis w < 2 ^ 32 ->
  (51 <= fuel)%nat ->
  exists w' : World,
    initialize env fuel (Some h) phy mdc mdio power clock w
    = Some (ResErr CONNECTION_TIMEOUT, w') /\
    phyStarted (inst w') = true /\
    lastError (inst w') = CONNECTION_TIMEOUT.
Proof.
  intros Hquiet Henv Hns Hvalid Hlock Hsvc Hbegin Hm Hfuel.
  unfold initialize.
  destruct (internalInit_bring_up env fuel h phy mdc mdio power clock
              (if hasCustomMac (inst w)
               then Some (customMacAddress (inst w)) else None)
              true w Hns Hvalid Hlock Hsvc)
    as (w8 & g & Hrun & (_ & Hm8 & Hg & Hbit & _) & Hok & _).
  rewrite Hrun, Hbegin. cbn [negb].
  destruct (Hok Hbegin) as (Hphy & _). clear Hrun Hok.
  unfold waitForConnection.
  change (ETH_INIT_TIMEOUT_MS =? 0) with false. cbv iota.
  rewrite isConnected_spec, Hphy, Hg, Hbit. cbn [andb negb].
  assert (Ht : 0 < ETH_INIT_TIMEOUT_MS < 2 ^ 32) by (split; reflexivity).
  destruct (waitLoop_times_out env (millis w8) ETH_INIT_TIMEOUT_MS Hquiet Ht
              fuel w8 0 g) as (w9 & Hloop & Herr).
  - split; [apply Z.le_refl | discriminate].
  - rewrite Z.add_0_r, Hm8. symmetry. apply u32_small. exact Hm.
  - exact Hg.
  - exact Hbit.
  - change ((ETH_INIT_TIMEOUT_MS - 0 + 99) / 100 + 1) with 51. lia.
  - rewrite Hloop. cbn [result_is_ok to_result]. rewrite Herr.
    exists w9. split; [reflexivity |]. split; [| exact Herr].
    rewrite (waitLoop_phyStarted env _ _ Henv _ _ _ _ Hloop). exact Hphy.
Qed.

Lemma blocking_start_timeout_keeps_phy_started_witness :
  exists w' : World,
    initialize idle 60 sample_hostname 0 23 18 (-1) 0 booted
    = Some (ResErr CONNECTION_TIMEOUT, w') /\
    phyStarted (inst w') = true /\
    lastError (inst w') = CONNECTION_TIMEOUT.
Proof.
  assert (Hm : 0 <= millis booted < 2 ^ 32)
    by (split; [discriminate | reflexivity]).
  assert (Hfuel : (51 <= 60)%nat) by (apply Nat.leb_le; reflexivity).
  exact (blocking_start_timeout_keeps_phy_started idle 60
           "esp32-ethernet"%string 0 23 18 (-1) 0 booted idle_is_quiet
           (fun _ _ => eq_refl) eq_refl eq_refl eq_refl eq_refl eq_refl
           Hm Hfuel).
Defined.

(** ** Starting again after a teardown *)

Lemma cleanup_restartable (w : World) :
  MutexGuard (ethMutex (inst w)) = true ->
  already_started (cleanup w) = false /\
  MutexGuard (ethMutex (inst (cleanup w))) = true /\
  platform (cleanup w) = platform w /\
  begin_calls (trace (cleanup w)) = begin_calls (trace w) /\
  ethEventGroup (inst (cleanup w)) = None.
Proof.
  intro Hlock. open_now w. cbn in Hlock.
  unfold cleanup, already_started, upd, emit. cbn. rewrite Hlock. cbn.
  split_cases; rewrite ?begin_calls_app; cbn [begin_calls];
    rewrite ?Nat.add_0_r; repeat split; reflexivity || assumption.
Qed.

(** X24. A manager that has been cleaned up can be started again: the
    next asynchronous start creates the event group anew, registers the
    handlers again and brings the PHY up. *)
Theorem restart_after_cleanup (env : Blocking) (fuel : nat) (h : string)
  (phy mdc mdio power clock : Z) (mac : option (list Z)) (w : World) :
  MutexGuard (ethMutex (inst w)) = true ->
  valid_parameters (Some h) phy mdc mdio power = true ->
  services_ok (platform w) = true ->
  eth_begin_result (platform w) = true ->
  ethEventGroup (inst (cleanup w)) = None /\
  exists (w' : World) (g : EventBits_t),
    initializeAsync env fuel (Some h) phy mdc mdio power clock mac
      (cleanup w)
    = Some (ResOk, w') /\
    ethEventGroup (inst w') = Some g /\
    eventHandlersRegistered (inst w') = true /\
    phyStarted (inst w') = true /\
    connectionState (inst w') = PHY_STARTING /\
    begin_calls (trace w') = S (begin_calls (trace w)).
Proof.
  intros Hlock Hvalid Hsvc Hbegin.
  destruct (cleanup_restartable w Hlock) as (Hns & Hlock' & Hp & Hb & Hg).
  split; [exact Hg |].
  rewrite <- Hp in Hsvc, Hbegin. rewrite <- Hb.
  set (w0 := cleanup w) in *. clearbody w0.
  destruct (internalInit_bring_up env fuel h phy mdc mdio power clock mac
              false w0 Hns Hvalid Hlock' Hsvc)
    as (w8 & g & Hrun & (Hb8 & _ & Hg8 & _ & Hreg) & Hok & _).
  destruct (Hok Hbegin) as (Hphy & Hcs & _).
  exists w8, g. unfold initializeAsync. rewrite Hrun, Hbegin.
  repeat split; assumption.
Qed.

Lemma restart_after_cleanup_witness :
  exists (w' : World) (g : EventBits_t),
    initializeAsync idle 0 sample_hostname 0 23 18 (-1) 0 None
      (cleanup connected)
    = Some (ResOk, w') /\
    ethEventGroup (inst w') = Some g /\
    eventHandlersRegistered (inst w') = true /\
    phyStarted (inst w') = true /\
    connectionState (inst w') = PHY_STARTING /\
    begin_calls (trace w') = S (begin_calls (trace connected)).
Proof.
  apply (restart_after_cleanup idle 0 "esp32-ethernet"%string 0 23 18 (-1)
           0 None connected);
    vm_compute; reflexivity.
Defined.

(** ** Settings of a refused start *)

Lemma applyConfig_settings (config : EthernetConfig) (w : World) :
  MutexGuard (ethMutex (inst w)) = true ->
  let w1 := applyConfig config w in
  already_started w1 = already_started w /\
  connectionState (inst w1) = connectionState (inst w) /\
  trace w1 = trace w /\
  linkMonitoringEnabled (inst w1) = linkMonitoringEnabled (inst w) /\
  (enable_auto_reconnect config = true ->
   autoReconnectEnabled (inst w1) = true /\
   reconnectMaxRetries (inst w1) = reconnect_max_retries config /\
   reconnectInitialDelay (inst w1) = reconnect_initial_delay config /\
   reconnectMaxDelay (inst w1) = reconnect_max_delay config /\
   reconnectAttempts (inst w1) = 0) /\
  (forall mac : list Z,
     custom_mac config = Some mac ->
     hasCustomMac (inst w1) = true /\
     customMacAddress (inst w1) = firstn ETH_MAC_ADDRESS_SIZE mac).
Proof.
  intro Hlock. destruct config. open_now w. cbn in Hlock.
  unfold applyConfig, setMacAddress, setAutoReconnect, already_started, upd.
  cbn.
  repeat match goal with
  | |- context [match ?x with _ => _ end] => is_var x; destruct x
  end.
  all: cbn; rewrite ?Hlock; cbn; rewrite ?Hlock; cbn.
  all: split_cases; repeat split; intros; same_options;
    reflexivity || congruence.
Qed.

(** X25. The initialisers that take a configuration apply the MAC address
    and the auto-reconnect settings before they start: on a manager that
    is already started the asynchronous one returns [ALREADY_INITIALIZED],
    but the settings of the refused configuration are in force and the
    backoff has been reset; link monitoring is left alone. *)
Theorem refused_config_start_still_applies_settings (env : Blocking)
  (fuel : nat) (config : EthernetConfig) (w : World) :
  already_started w = true ->
  MutexGuard (ethMutex (inst w)) = true ->
  use_static_ip config = false ->
  exists w' : World,
    initializeAsync_config env fuel config w
    = Some (ResErr ALREADY_INITIALIZED, w') /\
    connectionState (inst w') = connectionState (inst w) /\
    trace w' = trace w /\
    linkMonitoringEnabled (inst w') = linkMonitoringEnabled (inst w) /\
    (enable_auto_reconnect config = true ->
     autoReconnectEnabled (inst w') = true /\
     reconnectMaxRetries (inst w') = reconnect_max_retries config /\
     reconnectInitialDelay (inst w') = reconnect_initial_delay config /\
     reconnectMaxDelay (inst w') = reconnect_max_delay config /\
     reconnectAttempts (inst w') = 0) /\
    (forall mac : list Z,
       custom_mac config = Some mac ->
       hasCustomMac (inst w') = true /\
       customMacAddress (inst w') = firstn ETH_MAC_ADDRESS_SIZE mac).
Proof.
  intros Hstarted Hlock Hdhcp.
  destruct (applyConfig_settings config w Hlock)
    as (Hs1 & Hcs1 & Htr1 & Hlm1 & Hauto1 & Hmac1).
  rewrite Hstarted in Hs1.
  unfold initializeAsync_config. cbv zeta. rewrite Hdhcp.
  set (w1 := applyConfig config w) in *. clearbody w1.
  rewrite (internalInit_already_started _ _ _ _ _ _ _ _ _ _ _ Hs1).
  cbn [to_result finishConfig]. fields.
  eexists. split; [reflexivity |]. fields.
  repeat split; try assumption; try (apply Hauto1; assumption);
    apply (Hmac1 _ ltac:(eassumption)).
Qed.

Lemma refused_config_start_still_applies_settings_witness :
  let config := mkConfig sample_hostname 0 23 18 (-1) 0
                  (Some [2; 0; 0; 0; 0; 1]) false 0 0 0 0 0
                  true 500 true 7 250 4000 in
  exists w' : World,
    initializeAsync_config idle 0 config connected
    = Some (ResErr ALREADY_INITIALIZED, w') /\
    reconnectMaxRetries (inst w') = 7 /\
    linkMonitoringEnabled (inst w') = false.
Proof.
  cbv zeta.
  destruct (refused_config_start_still_applies_settings idle 0
              (mkConfig sample_hostname 0 23 18 (-1) 0
                 (Some [2; 0; 0; 0; 0; 1]) false 0 0 0 0 0
                 true 500 true 7 250 4000)
              connected eq_refl eq_refl eq_refl)
    as (w' & Hrun & _ & _ & Hlm & Hauto & _).
  exists w'. split; [exact Hrun |].
  split; [apply (Hauto eq_refl) |]. rewrite Hlm. reflexivity.
Defined.

(** ** The reconnect timer outside the backoff *)

Lemma onGotIp_reconnect (w : World) :
  ethMutex (inst (onGotIp w)) = ethMutex (inst w) /\
  reconnectTimer (inst (onGotIp w)) = reconnectTimer (inst w) /\
  reconnectMaxRetries (inst (onGotIp w)) = reconnectMaxRetries (inst w) /\
  reconnectMaxDelay (inst (onGotIp w)) = reconnectMaxDelay (inst w) /\
  reconnectAttempts (inst (onGotIp w)) = 0 /\
  reconnectCurrentDelay (inst (onGotIp w)) = reconnectInitialDelay (inst w) /\
  gotIpAtLeastOnce (inst (onGotIp w)) = true.
Proof.
  open_now w. unfold onGotIp, changeState, invoke, emit, upd.
  cbn. split_cases; repeat split; reflexivity.
Qed.

(** An expiry of the reconnect timer that finds the lock free and the
    retry limit not exceeded. *)
Lemma attemptReconnect_rearms (w : World) (t : Timer) :
  MutexGuard (ethMutex (inst w)) = true ->
  reconnectTimer (inst w) = Some t ->
  (0 <? reconnectMaxRetries (inst w))
  && (reconnectMaxRetries (inst w) <? u8 (reconnectAttempts (inst w) + 1))
  = false ->
  reconnectAttempts (inst (attemptReconnect w))
  = u8 (reconnectAttempts (inst w) + 1) /\
  reconnectTimer (inst (attemptReconnect w))
  = Some (mkTimer (Z.min (u32 (reconnectCurrentDelay (inst w) * 2))
                         (reconnectMaxDelay (inst w))) true) /\
  gotIpAtLeastOnce (inst (attemptReconnect w)) = gotIpAtLeastOnce (inst w) /\
  autoReconnectEnabled (inst (attemptReconnect w))
  = autoReconnectEnabled (inst w).
Proof.
  intros Hlock Ht Hlimit. open_now w. cbn in Hlock, Ht, Hlimit. subst.
  unfold attemptReconnect, upd. cbn. rewrite Hlock. cbn.
  rewrite Hlimit, Hlock. cbn. repeat split; reflexivity.
Qed.

Lemma attemptReconnect_millis (w : World) :
  millis (attemptReconnect w) = millis w.
Proof.
  open_now w. unfold attemptReconnect, upd. cbn.
  split_cases; reflexivity.
Qed.

(** The first expiry of a running reconnect timer after the attempt
    counter has been reset. *)
Lemma first_expiry_rearms (w : World) (t : Timer) :
  MutexGuard (ethMutex (inst w)) = true ->
  reconnectTimer (inst w) = Some t ->
  active t = true ->
  reconnectAttempts (inst w) = 0 ->
  exists w' : World,
    reconnectTimerExpires w = Some w' /\
    gotIpAtLeastOnce (inst w') = gotIpAtLeastOnce (inst w) /\
    reconnectAttempts (inst w') = 1 /\
    reconnectTimer (inst w')
    = Some (mkTimer (Z.min (u32 (reconnectCurrentDelay (inst w) * 2))
                           (reconnectMaxDelay (inst w))) true) /\
    autoReconnectEnabled (inst w') = autoReconnectEnabled (inst w).
Proof.
  intros Hlock Ht Hact Hatt.
  unfold reconnectTimerExpires. rewrite Ht, Hact.
  eexists. split; [reflexivity |].
  open_now w. cbn in Hlock, Ht, Hatt. subst.
  unfold attemptReconnect, upd. cbn. rewrite Hlock. cbn.
  change (u8 1) with 1.
  match goal with
  | |- context [(0 <? ?N) && (?N <? 1)] =>
      replace ((0 <? N) && (N <? 1)) with false
        by (destruct (0 <? N) eqn:E1; [| reflexivity];
            destruct (N <? 1) eqn:E2; [| reflexivity];
            apply Z.ltb_lt in E1, E2; lia)
  end.
  rewrite Hlock. cbn. repeat split; reflexivity.
Qed.

(** X26. [setAutoReconnect] never touches a reconnect timer that exists
    already, and the timer callback never looks at the enabled flag: when
    the settings are changed while the timer is running, even to disable
    auto-reconnect, the timer still expires after its old period, counts
    attempt 1 and is started again with twice the new initial delay (at
    most the new maximum). *)
Theorem auto_reconnect_setting_keeps_running_timer (w : World) (t : Timer)
  (enable : bool) (N D M : Z) :
  MutexGuard (ethMutex (inst w)) = true ->
  reconnectTimer (inst w) = Some t ->
  active t = true ->
  let w1 := setAutoReconnect enable N D M w in
  reconnectTimer (inst w1) = Some t /\
  autoReconnectEnabled (inst w1) = enable /\
  exists w2 : World,
    reconnectTimerExpires w1 = Some w2 /\
    millis w2 = u32 (millis w + period t) /\
    reconnectAttempts (inst w2) = 1 /\
    reconnectTimer (inst w2) = Some (mkTimer (Z.min (u32 (D * 2)) M) true) /\
    autoReconnectEnabled (inst w2) = enable.
Proof.
  intros Hlock Ht Hact. cbv zeta.
  assert (H1 : MutexGuard (ethMutex (inst (setAutoReconnect enable N D M w)))
               = true /\
               reconnectTimer (inst (setAutoReconnect enable N D M w))
               = Some t /\
               reconnectAttempts (inst (setAutoReconnect enable N D M w)) = 0
               /\
               reconnectCurrentDelay (inst (setAutoReconnect enable N D M w))
               = D /\
               reconnectMaxDelay (inst (setAutoReconnect enable N D M w)) = M
               /\
               autoReconnectEnabled (inst (setAutoReconnect enable N D M w))
               = enable /\
               millis (setAutoReconnect enable N D M w) = millis w).
  { open_now w. cbn in Hlock, Ht. subst.
    unfold setAutoReconnect, upd. cbn. rewrite Hlock. cbn.
    repeat split; reflexivity || exact Hlock. }
  destruct H1 as (Hlock1 & Ht1 & Hatt1 & HD1 & HM1 & Hen1 & Hm1).
  rewrite <- Hm1.
  set (w1 := setAutoReconnect enable N D M w) in *. clearbody w1.
  split; [exact Ht1 |]. split; [exact Hen1 |].
  destruct (first_expiry_rearms w1 t Hlock1 Ht1 Hact Hatt1)
    as (w2 & Hfire & _ & Hatt2 & Ht2 & Hen2).
  rewrite HD1, HM1 in Ht2. rewrite Hen1 in Hen2.
  exists w2. split; [exact Hfire |].
  split; [| repeat split; assumption].
  unfold reconnectTimerExpires in Hfire. rewrite Ht1, Hact in Hfire.
  injection Hfire as <-. rewrite attemptReconnect_millis. reflexivity.
Qed.

Lemma auto_reconnect_setting_keeps_running_timer_witness :
  let w := onEthEvent (Some ETH_EVENT) ETHERNET_EVENT_DISCONNECTED
             (setAutoReconnect true 3 1000 10000
                (set_millis 5000 connected)) in
  fst (reconnectDelays 2 (setAutoReconnect false 0 50 60 w)) = [1000; 60].
Proof.
  cbv zeta.
  set (w := onEthEvent _ _ _).
  assert (H1 : MutexGuard (ethMutex (inst w)) = true)
    by (vm_compute; reflexivity).
  assert (H2 : reconnectTimer (inst w) = Some (mkTimer 1000 true))
    by (vm_compute; reflexivity).
  destruct (auto_reconnect_setting_keeps_running_timer w (mkTimer 1000 true)
              false 0 50 60 H1 H2 eq_refl)
    as (Ht & _ & w2 & Hfire & _ & _ & Ht2 & _).
  cbn [reconnectDelays]. rewrite Ht. vm_compute. reflexivity.
Defined.

(** X27. The address event neither stops the reconnect timer nor changes
    its period: a timer that is running when the address arrives expires
    while the manager is connected, counts attempt 1 and is started again
    with twice the initial delay (at most the maximum). *)
Theorem reconnect_timer_survives_address_event (w : World)
  (g : EventBits_t) (t : Timer) :
  ethEventGroup (inst w) = Some g ->
  MutexGuard (ethMutex (inst w)) = true ->
  reconnectTimer (inst w) = Some t ->
  active t = true ->
  let w' := onEthEvent (Some IP_EVENT) IP_EVENT_GOT_IP w in
  reconnectTimer (inst w') = Some t /\
  exists w'' : World,
    reconnectTimerExpires w' = Some w'' /\
    gotIpAtLeastOnce (inst w'') = true /\
    reconnectAttempts (inst w'') = 1 /\
    reconnectTimer (inst w'')
    = Some (mkTimer (Z.min (u32 (reconnectInitialDelay (inst w) * 2))
                           (reconnectMaxDelay (inst w))) true).
Proof.
  intros Hg Hlock Ht Hact. cbv zeta. unfold onEthEvent. rewrite Hg.
  change (IP_EVENT_GOT_IP =? IP_EVENT_GOT_IP) with true. cbv iota.
  set (w1 := upd _ w).
  assert (Hlock1 : MutexGuard (ethMutex (inst w1)) = true) by exact Hlock.
  assert (Ht1 : reconnectTimer (inst w1) = Some t) by exact Ht.
  assert (HD1 : reconnectInitialDelay (inst w1)
                = reconnectInitialDelay (inst w)) by reflexivity.
  assert (HM1 : reconnectMaxDelay (inst w1) = reconnectMaxDelay (inst w))
    by reflexivity.
  rewrite <- HD1, <- HM1. clearbody w1. clear HD1 HM1 Hg Hlock Ht.
  destruct (onGotIp_reconnect w1)
    as (Hm & Htm & _ & HM & Hatt & Hcur & Hgot).
  rewrite <- Hm in Hlock1. rewrite Ht1 in Htm.
  rewrite <- Hcur, <- HM.
  split; [exact Htm |].
  destruct (first_expiry_rearms (onGotIp w1) t Hlock1 Htm Hact Hatt)
    as (w'' & Hfire & Hgot'' & Hatt'' & Htm'' & _).
  exists w''. rewrite Hgot in Hgot''.
  repeat split; assumption.
Qed.

Lemma reconnect_timer_survives_address_event_witness :
  let w := onEthEvent (Some ETH_EVENT) ETHERNET_EVENT_DISCONNECTED
             (setAutoReconnect true 3 1000 10000
                (set_millis 5000 connected)) in
  reconnectTimer
    (inst (onEthEvent (Some IP_EVENT) IP_EVENT_GOT_IP w))
  = Some (mkTimer 1000 true).
Proof.
  cbv zeta.
  apply (reconnect_timer_survives_address_event
           (onEthEvent (Some ETH_EVENT) ETHERNET_EVENT_DISCONNECTED
              (setAutoReconnect true 3 1000 10000
                 (set_millis 5000 connected)))
           0 (mkTimer 1000 true));
    vm_compute; reflexivity.
Defined.

(** X28. An expiry of the reconnect timer that cannot obtain the lock
    changes nothing and does not start the timer again: the backoff ends
    after that expiry although auto-reconnect is still enabled and no
    attempt has been counted. *)
Theorem reconnect_attempt_without_lock_ends_backoff (w : World) (t : Timer)
  (n : nat) :
  MutexGuard (ethMutex (inst w)) = false ->
  reconnectTimer (inst w) = Some t ->
  active t = true ->
  let w1 := upd (set_reconnectTimer (Some (expire t)))
              (set_millis (u32 (millis w + period t)) w) in
  reconnectTimerExpires w = Some w1 /\
  reconnectTimerExpires w1 = None /\
  reconnectDelays (S n) w = ([period t], w1) /\
  autoReconnectEnabled (inst w1) = autoReconnectEnabled (inst w) /\
  reconnectAttempts (inst w1) = reconnectAttempts (inst w).
Proof.
  intros Hlock Ht Hact. cbv zeta.
  set (w1 := upd _ _).
  assert (Hrun : attemptReconnect w1 = w1).
  { unfold attemptReconnect.
    change (ethMutex (inst w1)) with (ethMutex (inst w)).
    rewrite Hlock. cbv zeta. cbn [andb].
    change (ethMutex (inst w1)) with (ethMutex (inst w)).
    rewrite Hlock. reflexivity. }
  assert (Hfire : reconnectTimerExpires w = Some w1).
  { unfold reconnectTimerExpires. rewrite Ht, Hact. fold w1.
    rewrite Hrun. reflexivity. }
  assert (Hdone : reconnectTimerExpires w1 = None).
  { unfold reconnectTimerExpires.
    change (reconnectTimer (inst w1)) with (Some (expire t)).
    reflexivity. }
  split; [exact Hfire |]. split; [exact Hdone |]. split.
  - cbn [reconnectDelays]. rewrite Ht, Hfire.
    destruct n; cbn [reconnectDelays].
    + reflexivity.
    + change (reconnectTimer (inst w1)) with (Some (expire t)).
      rewrite Hdone. reflexivity.
  - split; reflexivity.
Qed.

Lemma reconnect_attempt_without_lock_ends_backoff_witness :
  let w := mutex_held_elsewhere
             (onEthEvent (Some ETH_EVENT) ETHERNET_EVENT_DISCONNECTED
                (setAutoReconnect true 3 1000 10000
                   (set_millis 5000 connected))) in
  fst (reconnectDelays 5 w) = [1000].
Proof.
  cbv zeta.
  set (w := mutex_held_elsewhere _).
  assert (H1 : MutexGuard (ethMutex (inst w)) = false)
    by (vm_compute; reflexivity).
  assert (H2 : reconnectTimer (inst w) = Some (mkTimer 1000 true))
    by (vm_compute; reflexivity).
  assert (H3 : active (mkTimer 1000 true) = true) by reflexivity.
  pose proof (reconnect_attempt_without_lock_ends_backoff w
                (mkTimer 1000 true) 4 H1 H2 H3) as H.
  cbv zeta in H. destruct H as (_ & _ & H & _).
  rewrite H. reflexivity.
Defined.

(** ** Registering a callback *)

Lemma onGotIp_trace (w : World) :
  trace (onGotIp w)
  = trace w
    ++ (if state_eqb CONNECTED (connectionState (inst w)) then []
        else calls (stateChangeCallback (inst w))
               (fun cb =>
                  CallStateChange cb (connectionState (inst w)) CONNECTED))
    ++ calls (connectedCallback (inst w))
         (fun cb => CallConnected cb (eth_localIP (platform w))).
Proof.
  open_now w. unfold onGotIp, changeState, invoke, emit, upd, calls.
  cbn.
  split_cases; same_options; use_state_eqb;
    rewrite <- ?app_assoc, ?app_nil_r; reflexivity.
Qed.

(** X29. A connected callback registered through [setConnectedCallback]
    is the one the next address event calls, after the state-change
    callback and with the local address of the interface; registering a
    null callback silences it; and a registration that cannot obtain the
    lock is dropped, so the event calls the callback registered before. *)
Theorem connected_callback_registration_takes_effect (w : World)
  (g : EventBits_t) (cb : option Callback) :
  ethEventGroup (inst w) = Some g ->
  let slot := if MutexGuard (ethMutex (inst w)) then cb
              else connectedCallback (inst w) in
  trace (onEthEvent (Some IP_EVENT) IP_EVENT_GOT_IP
           (setConnectedCallback cb w))
  = trace w
    ++ (if state_eqb CONNECTED (connectionState (inst w)) then []
        else calls (stateChangeCallback (inst w))
               (fun c =>
                  CallStateChange c (connectionState (inst w)) CONNECTED))
    ++ calls slot (fun c => CallConnected c (eth_localIP (platform w))).
Proof.
  intros Hg. cbv zeta.
  set (w0 := setConnectedCallback cb w).
  assert (H0 : ethEventGroup (inst w0) = Some g /\
               trace w0 = trace w /\
               connectionState (inst w0) = connectionState (inst w) /\
               stateChangeCallback (inst w0) = stateChangeCallback (inst w) /\
               platform w0 = platform w /\
               connectedCallback (inst w0)
               = (if MutexGuard (ethMutex (inst w)) then cb
                  else connectedCallback (inst w))).
  { subst w0. unfold setConnectedCallback.
    destruct (MutexGuard (ethMutex (inst w)));
      repeat split; reflexivity || exact Hg. }
  destruct H0 as (Hg0 & Htr & Hcs & Hscb & Hp & Hslot).
  rewrite <- Htr, <- Hcs, <- Hscb, <- Hp, <- Hslot.
  clearbody w0. clear Htr Hcs Hscb Hp Hslot Hg.
  unfold onEthEvent. rewrite Hg0.
  change (IP_EVENT_GOT_IP =? IP_EVENT_GOT_IP) with true. cbv iota zeta.
  rewrite onGotIp_trace. reflexivity.
Qed.

Lemma connected_callback_registration_takes_effect_witness :
  trace (onEthEvent (Some IP_EVENT) IP_EVENT_GOT_IP
           (setConnectedCallback (Some 7%nat) (set_millis 1500 link_up)))
  = trace link_up ++ [CallConnected 7%nat 3232235876].
Proof.
  rewrite (connected_callback_registration_takes_effect
             (set_millis 1500 link_up) 0 (Some 7%nat) eq_refl).
  vm_compute. reflexivity.
Defined.

(** ** The static start *)

Lemma config_calls_app (a b : list Effect) :
  config_calls (a ++ b) = (config_calls a + config_calls b)%nat.
Proof.
  induction a as [| e a IH]; [reflexivity |].
  destruct e; cbn [app config_calls]; rewrite IH; reflexivity.
Qed.

Lemma ensureEarlyInit_config_calls (w : World) :
  config_calls (trace (snd (ensureEarlyInit w))) = config_calls (trace w).
Proof.
  unfold ensureEarlyInit. destruct (_ || _); [| reflexivity].
  destruct w as [m now p tr]; destruct m; destruct p.
  unfold earlyInit, emit, upd. cbn.
  split_inner; rewrite ?config_calls_app; cbn [config_calls];
    rewrite ?Nat.add_0_r; reflexivity.
Qed.

(** X30. A static start whose [ETH.begin] or [ETH.config] fails records
    nothing: the state, the started flag and [lastError] are as before, so
    the error result carries whatever [lastError] held, [OK] on a fresh
    manager.  [ETH.config] is called only when [ETH.begin] succeeded. *)
Theorem static_start_failure_reports_stale_error (env : Blocking)
  (fuel : nat) (h : string) (local_ip gateway subnet dns1 dns2 : Z)
  (phy mdc mdio power clock : Z) (w : World) :
  valid_static_parameters (Some h) local_ip gateway subnet phy mdc mdio power
  = true ->
  MutexGuard (ethMutex (inst w)) = true ->
  services_ok (platform w) = true ->
  eth_begin_result (platform w) && eth_config_result (platform w) = false ->
  exists w' : World,
    initializeStatic env fuel (Some h) local_ip gateway subnet dns1 dns2
      phy mdc mdio power clock w
    = Some (ResErr (lastError (inst w)), w') /\
    lastError (inst w') = lastError (inst w) /\
    connectionState (inst w') = connectionState (inst w) /\
    phyStarted (inst w') = phyStarted (inst w) /\
    begin_calls (trace w') = S (begin_calls (trace w)) /\
    config_calls (trace w')
    = ((if eth_begin_result (platform w) then 1 else 0)
       + config_calls (trace w))%nat.
Proof.
  intros Hvalid Hlock Hsvc Hfail.
  unfold initializeStatic, internalInitStatic.
  unfold valid_static_parameters in Hvalid.
  repeat (apply andb_true_iff in Hvalid; destruct Hvalid as [Hvalid ?]).
  repeat match goal with
         | H : negb _ = true |- _ => apply negb_true_iff in H
         end.
  rewrite Hvalid.
  repeat match goal with
         | H : invalid_phy_addr _ = false |- _ => rewrite H; clear H
         | H : invalid_pin _ = false |- _ => rewrite H; clear H
         | H : (_ =? 0) = false |- _ => rewrite H; clear H
         end.
  destruct (ensureEarlyInit_ok w Hlock Hsvc)
    as (He & (Hl1 & _ & _)
        & (Hp1 & _ & Hphy1 & Hcs1 & Herr1 & _ & Hb1)).
  pose proof (ensureEarlyInit_config_calls w) as Hc1.
  destruct (ensureEarlyInit w) as [early w1].
  cbn [fst snd] in He, Hl1, Hp1, Hphy1, Hcs1, Herr1, Hb1, Hc1.
  subst early. cbn [negb]. rewrite Hl1. cbn [negb]. cbv zeta.
  rewrite <- Hp1 in Hfail.
  rewrite <- Hp1, <- Hphy1, <- Hcs1, <- Herr1, <- Hb1, <- Hc1.
  clear Hlock Hsvc Hvalid Hl1 Hp1 Hphy1 Hcs1 Herr1 Hb1 Hc1.
  unfold clearConnectedBit. fields.
  destruct (eth_begin_result (platform w1)); cbn [andb] in Hfail |- *.
  - fields. rewrite Hfail. cbn [negb to_result]. fields.
    eexists. split; [reflexivity |]. fields.
    rewrite !begin_calls_app, !config_calls_app. cbn [begin_calls config_calls].
    repeat split; try reflexivity; lia.
  - cbn [negb to_result]. fields.
    eexists. split; [reflexivity |]. fields.
    rewrite !begin_calls_app, !config_calls_app. cbn [begin_calls config_calls].
    repeat split; try reflexivity; lia.
Qed.

Lemma static_start_failure_reports_stale_error_witness :
  let w := set_platform
             (mkPlatform false true true 3232235876 (Some 1) None
                true true true true true true)
             booted in
  lastError (inst w) = OK /\
  outcome (initializeStatic idle 60 sample_hostname sample_ip sample_gateway
             sample_subnet 0 0 0 23 18 (-1) 0 w)
  = Some (ResErr OK).
Proof.
  cbv zeta. set (w := set_platform _ _).
  destruct (static_start_failure_reports_stale_error idle 60
              "esp32-ethernet"%string sample_ip sample_gateway sample_subnet
              0 0 0 23 18 (-1) 0 w eq_refl eq_refl eq_refl eq_refl)
    as (w' & Hrun & _).
  split; [reflexivity |].
  unfold sample_hostname. rewrite Hrun. reflexivity.
Defined.
(** * Sessions and what they keep *)

(** ** Views of the manager that the bring-up and the wait leave alone *)

Section View.

Context {A : Type} (V : EthernetManager -> A).

Hypothesis V_lastError : forall v m, V (set_lastError v m) = V m.
Hypothesis V_connectionState :
  forall v m, V (set_connectionState v m) = V m.
Hypothesis V_previousState : forall v m, V (set_previousState v m) = V m.
Hypothesis V_initStartTime : forall v m, V (set_initStartTime v m) = V m.
Hypothesis V_linkUpTime : forall v m, V (set_linkUpTime v m) = V m.
Hypothesis V_ipObtainedTime : forall v m, V (set_ipObtainedTime v m) = V m.
Hypothesis V_lastLinkStatus : forall v m, V (set_lastLinkStatus v m) = V m.
Hypothesis V_stats : forall v m, V (set_stats v m) = V m.
Hypothesis V_connectionStartTime :
  forall v m, V (set_connectionStartTime v m) = V m.
Hypothesis V_totalEventCount :
  forall v m, V (set_totalEventCount v m) = V m.
Hypothesis V_bits :
  forall f m,
    V (set_ethEventGroup (option_map f (ethEventGroup m)) m) = V m.
Hypothesis V_customMacAddress :
  forall v m, V (set_customMacAddress v m) = V m.
Hypothesis V_hasCustomMac : forall v m, V (set_hasCustomMac v m) = V m.
Hypothesis V_eth_netif : forall v m, V (set_eth_netif v m) = V m.
Hypothesis V_phyStarted : forall v m, V (set_phyStarted v m) = V m.
Hypothesis V_netifCreated : forall v m, V (set_netifCreated v m) = V m.
Hypothesis V_linkMonitoringEnabled :
  forall v m, V (set_linkMonitoringEnabled v m) = V m.
Hypothesis V_linkMonitoringInterval :
  forall v m, V (set_linkMonitoringInterval v m) = V m.
Hypothesis V_linkMonitorTimer :
  forall v m, V (set_linkMonitorTimer v m) = V m.
Hypothesis V_connectedCallback :
  forall v m, V (set_connectedCallback v m) = V m.
Hypothesis V_disconnectedCallback :
  forall v m, V (set_disconnectedCallback v m) = V m.
Hypothesis V_stateChangeCallback :
  forall v m, V (set_stateChangeCallback v m) = V m.
Hypothesis V_linkStatusCallback :
  forall v m, V (set_linkStatusCallback v m) = V m.

Lemma changeState_view (s : EthConnectionState) (w : World) :
  V (inst (changeState s w)) = V (inst w).
Proof.
  destruct (state_eqb s (connectionState (inst w))) eqn:E.
  - rewrite (changeState_same s w E). reflexivity.
  - rewrite (changeState_inst s w E). cbv zeta.
    destruct s;
      rewrite ?V_initStartTime, ?V_linkUpTime, ?V_ipObtainedTime,
        V_connectionState, V_previousState;
      reflexivity.
Qed.

Lemma updateLinkStatus_view (w : World) :
  V (inst (snd (updateLinkStatus w))) = V (inst w).
Proof.
  destruct (updateLinkStatus_cases w) as [-> | (s & st & cb & -> & _)];
    [reflexivity |].
  rewrite V_stats, changeState_view. fields. apply V_lastLinkStatus.
Qed.

Lemma checkLinkStatus_view (w : World) :
  V (inst (snd (checkLinkStatus w))) = V (inst w).
Proof.
  unfold checkLinkStatus.
  destruct (negb (phyStarted (inst w))); [reflexivity |].
  cbn [snd]. apply updateLinkStatus_view.
Qed.

Lemma onEthConnected_view (w : World) :
  V (inst (onEthConnected w)) = V (inst w).
Proof.
  unfold onEthConnected. cbv zeta.
  rewrite updateLinkStatus_view, changeState_view. fields.
  apply V_connectionStartTime.
Qed.

Lemma counted_view (w : World) :
  V (inst (upd (fun m =>
                  set_totalEventCount (u32 (totalEventCount m + 1)) m) w))
  = V (inst w).
Proof. fields. apply V_totalEventCount. Qed.

Lemma setLinkMonitoring_view (enable : bool) (intervalMs : Z) (w : World) :
  V (inst (setLinkMonitoring enable intervalMs w)) = V (inst w).
Proof.
  unfold setLinkMonitoring.
  destruct (MutexGuard (ethMutex (inst w))); [| reflexivity].
  fields. cbv zeta. fields.
  destruct enable; destruct (linkMonitorTimer (inst w)) eqn:E;
    fields; rewrite ?E; try destruct (xTimerCreate _ _); fields;
    rewrite ?V_linkMonitorTimer, V_linkMonitoringInterval,
      V_linkMonitoringEnabled;
    reflexivity.
Qed.

Lemma setMacAddress_view (mac : option (list Z)) (w : World) :
  V (inst (setMacAddress mac w)) = V (inst w).
Proof.
  unfold setMacAddress. destruct mac; [| reflexivity].
  destruct (MutexGuard (ethMutex (inst w))); [| reflexivity].
  fields. rewrite V_hasCustomMac, V_customMacAddress. reflexivity.
Qed.

Lemma resetStatistics_view (w : World) :
  V (inst (resetStatistics w)) = V (inst w).
Proof.
  unfold resetStatistics.
  destruct (MutexGuard (ethMutex (inst w))); [| reflexivity].
  fields. apply V_stats.
Qed.

Lemma setConnectedCallback_view (cb : option Callback) (w : World) :
  V (inst (setConnectedCallback cb w)) = V (inst w).
Proof.
  unfold setConnectedCallback.
  destruct (MutexGuard (ethMutex (inst w))); [| reflexivity].
  fields. apply V_connectedCallback.
Qed.

Lemma setDisconnectedCallback_view (cb : option Callback) (w : World) :
  V (inst (setDisconnectedCallback cb w)) = V (inst w).
Proof.
  unfold setDisconnectedCallback.
  destruct (MutexGuard (ethMutex (inst w))); [| reflexivity].
  fields. apply V_disconnectedCallback.
Qed.

Lemma setStateChangeCallback_view (cb : option Callback) (w : World) :
  V (inst (setStateChangeCallback cb w)) = V (inst w).
Proof.
  unfold setStateChangeCallback.
  destruct (MutexGuard (ethMutex (inst w))); [| reflexivity].
  fields. apply V_stateChangeCallback.
Qed.

Lemma setLinkStatusCallback_view (cb : option Callback) (w : World) :
  V (inst (setLinkStatusCallback cb w)) = V (inst w).
Proof.
  unfold setLinkStatusCallback.
  destruct (MutexGuard (ethMutex (inst w))); [| reflexivity].
  fields. apply V_linkStatusCallback.
Qed.

(** The bring-up of [internalInit] up to [ETH.begin]. *)
Lemma begin_view (h : string) (phy mdc mdio power clock : Z)
  (mac : option (list Z)) (w1 : World) :
  let w2 := clearConnectedBit w1 in
  let w3 := match mac with
            | Some mac =>
                upd (fun m => set_hasCustomMac true
                       (set_customMacAddress
                          (firstn ETH_MAC_ADDRESS_SIZE mac) m)) w2
            | None => w2
            end in
  let w4 := changeState PHY_STARTING w3 in
  let w5 := emit (EthBegin phy mdc mdio power clock)
                 (emit (EthSetHostname h) w4) in
  V (inst w5) = V (inst w1).
Proof.
  cbv zeta. fields. rewrite changeState_view.
  unfold clearConnectedBit.
  destruct mac; fields;
    rewrite ?V_hasCustomMac, ?V_customMacAddress, V_bits; reflexivity.
Qed.

Lemma netif_view (h : string) (w6 : World) :
  let w7 := upd (fun m => set_eth_netif (netif_handle (platform w6))
                            (set_phyStarted true m)) w6 in
  let w8 :=
    match eth_netif (inst w7) with
    | None => w7
    | Some _ =>
        let w' := upd (set_netifCreated true) w7 in
        match netif_hostname (platform w') with
        | Some cur =>
            if String.eqb cur h then w'
            else emit (NetifSetHostname h) w'
        | None => emit (NetifSetHostname h) w'
        end
    end in
  V (inst w8) = V (inst w6).
Proof.
  cbv zeta. fields.
  destruct (netif_handle (platform w6)).
  - destruct (netif_hostname (platform w6)) as [cur |];
      [destruct (String.eqb cur h) |];
      fields; rewrite V_netifCreated, V_eth_netif, V_phyStarted;
      reflexivity.
  - fields. rewrite V_eth_netif, V_phyStarted. reflexivity.
Qed.

(** *** Invariants that depend on the view only *)

Variable I : World -> Prop.

Hypothesis I_view :
  forall w w' : World, V (inst w') = V (inst w) -> I w -> I w'.

Lemma waitLoop_keeps (env : Blocking) (start timeout_ms : Z) :
  keeps I env ->
  forall (fuel : nat) (w w' : World) (r : EthResult),
    waitLoop env fuel start timeout_ms w = Some (r, w') -> I w -> I w'.
Proof.
  intros Henv.
  induction fuel as [| k IH]; intros w w' r H Iw; [discriminate H |].
  cbn [waitLoop] in H.
  destruct (u32 (millis w - start) <? timeout_ms).
  - unfold xEventGroupWaitBits in H.
    destruct (connected_bit (ethEventGroup (inst w))).
    + injection H as _ <-. exact Iw.
    + match type of H with
      | context [env w ?t] =>
          pose proof (Henv w t Iw) as I1; set (w1 := env w t) in *
      end.
      clearbody w1.
      destruct (connected_bit (ethEventGroup (inst w1))).
      * injection H as _ <-. exact I1.
      * destruct (state_eqb _ _).
        -- injection H as _ <-.
           apply (I_view w1); [| exact I1].
           fields. apply V_lastError.
        -- apply IH in H; [exact H |].
           destruct (linkMonitoringEnabled _); [| exact I1].
           apply (I_view w1); [| exact I1].
           apply updateLinkStatus_view.
  - injection H as _ <-.
    apply (I_view w); [| exact Iw]. fields. apply V_lastError.
Qed.

Lemma waitForConnection_keeps (env : Blocking) (fuel : nat)
  (timeout_ms : Z) (w w' : World) (r : EthResult) :
  keeps I env ->
  waitForConnection env fuel timeout_ms w = Some (r, w') -> I w -> I w'.
Proof.
  intros Henv H Iw. unfold waitForConnection in H.
  assert (Herr : forall e, I (upd (set_lastError e) w)).
  { intro e. apply (I_view w); [| exact Iw]. fields. apply V_lastError. }
  destruct (timeout_ms =? 0); [injection H as _ <-; apply Herr |].
  destruct (isConnected w); [injection H as _ <-; exact Iw |].
  destruct (ethEventGroup (inst w)); [| injection H as _ <-; apply Herr].
  destruct (negb (phyStarted (inst w)));
    [injection H as _ <-; apply Herr |].
  apply (waitLoop_keeps env _ _ Henv _ _ _ _ H Iw).
Qed.

Hypothesis I_earlyInit : forall w : World, I w -> I (snd (earlyInit w)).

Lemma ensureEarlyInit_keeps (w : World) :
  I w -> I (snd (ensureEarlyInit w)).
Proof.
  intro Iw. unfold ensureEarlyInit.
  destruct (_ || _); [apply I_earlyInit; exact Iw | exact Iw].
Qed.

Lemma internalInit_keeps (env : Blocking) (fuel : nat)
  (hostname : option string) (phy mdc mdio power clock : Z)
  (mac : option (list Z)) (wait : bool) (w w' : World) (b : bool) :
  (wait = true -> keeps I env) ->
  internalInit env fuel hostname phy mdc mdio power clock mac wait w
  = Some (b, w') ->
  I w -> I w'.
Proof.
  intros Henv H Iw. unfold internalInit in H.
  destruct (phyStarted (inst w) && _).
  { injection H as _ <-. apply (I_view w); [| exact Iw].
    fields. apply V_lastError. }
  assert (Herr : I (changeState ERROR_STATE
                      (upd (set_lastError INVALID_PARAMETER) w))).
  { apply (I_view w); [| exact Iw]. rewrite changeState_view.
    fields. apply V_lastError. }
  destruct hostname as [h |]; [| injection H as _ <-; exact Herr].
  destruct (Nat.eqb _ _); [injection H as _ <-; exact Herr |].
  destruct (Nat.ltb _ _); [injection H as _ <-; exact Herr |].
  clear Herr.
  destruct (invalid_phy_addr phy); [injection H as _ <-; exact Iw |].
  destruct (invalid_pin mdc); [injection H as _ <-; exact Iw |].
  destruct (invalid_pin mdio); [injection H as _ <-; exact Iw |].
  destruct (invalid_pin power); [injection H as _ <-; exact Iw |].
  pose proof (ensureEarlyInit_keeps w Iw) as I1.
  destruct (ensureEarlyInit w) as [early w1]. cbn [snd] in I1.
  destruct (negb early); [injection H as _ <-; exact I1 |].
  destruct (negb (MutexGuard _)); [injection H as _ <-; exact I1 |].
  cbv zeta in H.
  pose proof (begin_view h phy mdc mdio power clock mac w1) as H5.
  cbv zeta in H5.
  match type of H5 with
  | V (inst ?x) = _ => set (w5 := x) in *
  end.
  assert (I5 : I w5) by (apply (I_view w1); assumption).
  clearbody w5. clear H5 I1 Iw.
  destruct (eth_begin_result (platform w5)); cbn [andb negb] in H.
  - set (w6 := if hasCustomMac (inst w5) then emit _ w5 else w5) in H.
    assert (I6 : I w6).
    { apply (I_view w5); [| exact I5]. subst w6.
      destruct (hasCustomMac (inst w5)); reflexivity. }
    clearbody w6. clear I5.
    pose proof (netif_view h w6) as H8. cbv zeta in H8.
    match type of H8 with
    | V (inst ?x) = _ => set (w8 := x) in *
    end.
    assert (I8 : I w8) by (apply (I_view w6); assumption).
    clearbody w8. clear H8 I6.
    destruct wait; cbn [negb] in H.
    + destruct (waitForConnection env fuel _ w8) as [[r w9] |] eqn:Hw;
        [| discriminate H].
      injection H as _ <-.
      apply (waitForConnection_keeps env _ _ _ _ _ (Henv eq_refl) Hw I8).
    + injection H as _ <-. exact I8.
  - injection H as _ <-. apply (I_view w5); [| exact I5].
    rewrite changeState_view. fields. apply V_lastError.
Qed.

Lemma internalInitStatic_keeps (env : Blocking) (fuel : nat)
  (hostname : option string) (local_ip gateway subnet dns1 dns2 : Z)
  (phy mdc mdio power clock : Z) (w w' : World) (b : bool) :
  keeps I env ->
  internalInitStatic env fuel hostname local_ip gateway subnet dns1 dns2
    phy mdc mdio power clock w
  = Some (b, w') ->
  I w -> I w'.
Proof.
  intros Henv H Iw. unfold internalInitStatic in H.
  destruct hostname as [h |]; [| injection H as _ <-; exact Iw].
  destruct (Nat.eqb _ _); [injection H as _ <-; exact Iw |].
  destruct (local_ip =? 0); [injection H as _ <-; exact Iw |].
  destruct (gateway =? 0); [injection H as _ <-; exact Iw |].
  destruct (subnet =? 0); [injection H as _ <-; exact Iw |].
  destruct (invalid_phy_addr phy); [injection H as _ <-; exact Iw |].
  destruct (invalid_pin mdc); [injection H as _ <-; exact Iw |].
  destruct (invalid_pin mdio); [injection H as _ <-; exact Iw |].
  destruct (invalid_pin power); [injection H as _ <-; exact Iw |].
  pose proof (ensureEarlyInit_keeps w Iw) as I1.
  destruct (ensureEarlyInit w) as [early w1]. cbn [snd] in I1.
  destruct (negb early); [injection H as _ <-; exact I1 |].
  destruct (negb (MutexGuard _)); [injection H as _ <-; exact I1 |].
  cbv zeta in H.
  set (w3 := emit (EthBegin phy mdc mdio power clock) _) in H.
  assert (I3 : I w3).
  { apply (I_view w1); [| exact I1]. subst w3. unfold clearConnectedBit.
    fields. apply V_bits. }
  clearbody w3. clear I1 Iw.
  set (w4 := if eth_begin_result (platform w3) then emit _ w3 else w3)
    in H.
  assert (I4 : I w4).
  { apply (I_view w3); [| exact I3]. subst w4.
    destruct (eth_begin_result (platform w3)); reflexivity. }
  clearbody w4. clear I3.
  destruct (negb _); [injection H as _ <-; exact I4 |].
  match type of H with
  | context [waitForConnection env fuel _ ?x] => set (w6 := x) in H
  end.
  assert (I6 : I w6).
  { apply (I_view w4); [| exact I4]. subst w6. fields.
    destruct (netif_handle (platform w4)); fields;
      rewrite ?V_netifCreated, V_eth_netif, V_phyStarted; reflexivity. }
  clearbody w6.
  destruct (waitForConnection env fuel _ w6) as [[r w7] |] eqn:Hw;
    [| discriminate H].
  injection H as _ <-.
  apply (waitForConnection_keeps env _ _ _ _ _ Henv Hw I6).
Qed.

End View.

(** ** The handlers are registered only while the event group exists *)

Ltac view_side := intros; reflexivity.

Lemma handler_view_bits (f : EventBits_t -> EventBits_t)
  (m : EthernetManager) :
  handler_view (set_ethEventGroup (option_map f (ethEventGroup m)) m)
  = handler_view m.
Proof. unfold handler_view. destruct m as [g]. destruct g; reflexivity. Qed.

Lemma handlers_by_view (w w' : World) :
  handler_view (inst w') = handler_view (inst w) ->
  handlers_need_group w -> handlers_need_group w'.
Proof.
  unfold handler_view, handlers_need_group. intros H Iw Hreg.
  injection H as Hr Hg. rewrite Hr in Hreg. specialize (Iw Hreg).
  destruct (ethEventGroup (inst w')); [discriminate |].
  destruct (ethEventGroup (inst w)); [discriminate Hg | contradiction].
Qed.

Lemma earlyInit_handlers (w : World) :
  handlers_need_group w -> handlers_need_group (snd (earlyInit w)).
Proof.
  unfold handlers_need_group.
  destruct w as [m now p tr]; destruct m; destruct p.
  unfold earlyInit, emit, upd. cbn.
  split_inner; intros Iw Hreg; try discriminate; auto.
Qed.

Lemma cleanup_handlers (w : World) :
  handlers_need_group w -> handlers_need_group (cleanup w).
Proof.
  unfold handlers_need_group.
  open_now w. unfold cleanup, emit, upd. cbn.
  split_inner; cbn; intros Iw Hreg; try discriminate; auto.
Qed.

Lemma onGotIp_handler_view (w : World) :
  handler_view (inst (onGotIp w)) = handler_view (inst w).
Proof.
  open_now w. unfold handler_view, onGotIp, changeState, invoke, emit, upd.
  cbn.
  match goal with
  | |- _ = (_, match ?g with _ => _ end) => destruct g
  end.
  all: split_cases; reflexivity.
Qed.

Lemma onEthDisconnected_handler_view (w : World) :
  handler_view (inst (onEthDisconnected w)) = handler_view (inst w).
Proof.
  open_now w.
  unfold handler_view, onEthDisconnected, changeState, invoke, emit, upd.
  cbn.
  match goal with
  | |- _ = (_, match ?g with _ => _ end) => destruct g
  end.
  all: split_cases; reflexivity.
Qed.

Lemma onEthEvent_handler_view (base : option esp_event_base_t) (id : Z)
  (w : World) :
  handler_view (inst (onEthEvent base id w)) = handler_view (inst w).
Proof.
  unfold onEthEvent.
  destruct base as [b |]; [| reflexivity].
  destruct (ethEventGroup (inst w)) eqn:Hg; [| reflexivity].
  cbv zeta.
  destruct b.
  - destruct (id =? IP_EVENT_GOT_IP);
      rewrite ?onGotIp_handler_view; reflexivity.
  - destruct (id =? ETHERNET_EVENT_START); [reflexivity |].
    destruct (id =? ETHERNET_EVENT_CONNECTED).
    + rewrite (onEthConnected_view handler_view) by view_side.
      reflexivity.
    + destruct (_ || _);
        rewrite ?onEthDisconnected_handler_view; reflexivity.
  - reflexivity.
Qed.

Lemma disconnect_handler_view (w : World) :
  handler_view (inst (disconnect w)) = handler_view (inst w).
Proof.
  destruct (MutexGuard (ethMutex (inst w))) eqn:Hlock;
    [| rewrite (disconnect_refused w (or_introl Hlock)); reflexivity].
  destruct (state_eqb (connectionState (inst w)) UNINITIALIZED) eqn:E.
  { apply state_eqb_eq in E.
    rewrite (disconnect_refused w (or_intror E)). reflexivity. }
  assert (Hstate : connectionState (inst w) <> UNINITIALIZED).
  { intro H. apply state_eqb_eq in H. rewrite H in E. discriminate E. }
  unfold disconnect. rewrite Hlock, E. cbn [negb]. cbv zeta.
  set (w1 := if _ && _ then upd _ w else w).
  assert (H1 : handler_view (inst w1) = handler_view (inst w))
    by (subst w1; destruct (_ && _); reflexivity).
  rewrite <- H1. clearbody w1. clear H1 Hlock E Hstate.
  set (w2 := changeState DISCONNECTING w1).
  assert (H2 : handler_view (inst w2) = handler_view (inst w1))
    by (apply changeState_view; view_side).
  rewrite <- H2. clearbody w2. clear H2.
  match goal with
  | |- context [changeState UNINITIALIZED ?x] => set (w5 := x)
  end.
  assert (H5 : handler_view (inst w5) = handler_view (inst w2)).
  { subst w5. destruct (autoReconnectEnabled (inst w2)); reflexivity. }
  rewrite <- H5. clearbody w5. clear H5.
  destruct (0 <? _); rewrite ?invoke_inst;
    apply changeState_view; view_side.
Qed.

Lemma resetInterface_handler_view (w : World) :
  handler_view (inst (snd (resetInterface w))) = handler_view (inst w).
Proof.
  open_now w.
  unfold handler_view, resetInterface, clearConnectedBit, changeState,
    invoke, emit, upd.
  cbn.
  match goal with
  | |- _ = (_, match ?g with _ => _ end) => destruct g
  end.
  all: split_cases; reflexivity.
Qed.

Lemma attemptReconnect_handler_view (w : World) :
  handler_view (inst (attemptReconnect w)) = handler_view (inst w).
Proof.
  open_now w. unfold handler_view, attemptReconnect, upd. cbn.
  split_cases; reflexivity.
Qed.

Lemma setAutoReconnect_handler_view (enable : bool) (N D M : Z) (w : World) :
  handler_view (inst (setAutoReconnect enable N D M w))
  = handler_view (inst w).
Proof.
  open_now w. unfold handler_view, setAutoReconnect, upd. cbn.
  split_cases; reflexivity.
Qed.

(** Every operation keeps the handlers and the event group in step. *)
Lemma perform_keeps_handlers (op : Operation) (w : World) :
  environment_keeps handlers_need_group op ->
  handlers_need_group w -> handlers_need_group (perform op w).
Proof.
  intros Henv Iw.
  destruct op; cbn [perform]; unfold environment_keeps in Henv;
    cbn [environment] in Henv.
  - exact Iw.
  - apply (handlers_by_view w); [apply onEthEvent_handler_view | exact Iw].
  - match goal with
    | |- context [landed ?r w] => destruct r as [[b w'] |] eqn:H
    end; [| exact Iw].
    cbn [landed].
    refine (internalInit_keeps handler_view _ _ _ _ _ _ _ _
              handler_view_bits _ _ _ _ _ handlers_need_group
              handlers_by_view earlyInit_handlers _ _ _ _ _ _ _ _ _ _ _ _ _ _
              H Iw); try view_side.
    intros ->. exact Henv.
  - match goal with
    | |- context [landed ?r w] => destruct r as [[b w'] |] eqn:H
    end; [| exact Iw].
    cbn [landed].
    refine (internalInitStatic_keeps handler_view _ _ _ _ _ _ _ _
              handler_view_bits _ _ _ handlers_need_group
              handlers_by_view earlyInit_handlers _ _ _ _ _ _ _ _ _ _ _ _ _ _
              _ _ Henv H Iw); view_side.
  - apply earlyInit_handlers. exact Iw.
  - match goal with
    | |- context [landed ?r w] => destruct r as [[b w'] |] eqn:H
    end; [| exact Iw].
    cbn [landed].
    refine (waitForConnection_keeps handler_view _ _ _ _ _ _ _ _
              handlers_need_group handlers_by_view _ _ _ _ _ _ Henv H Iw);
      view_side.
  - apply cleanup_handlers. exact Iw.
  - apply (handlers_by_view w); [apply disconnect_handler_view | exact Iw].
  - apply (handlers_by_view w); [apply resetInterface_handler_view | exact Iw].
  - apply (handlers_by_view w); [| exact Iw].
    apply checkLinkStatus_view; view_side.
  - apply (handlers_by_view w); [| exact Iw].
    apply updateLinkStatus_view; view_side.
  - unfold reconnectTimerExpires.
    destruct (reconnectTimer (inst w)) as [t |]; [| exact Iw].
    destruct (active t); [| exact Iw].
    apply (handlers_by_view w); [| exact Iw].
    rewrite attemptReconnect_handler_view. reflexivity.
  - apply (handlers_by_view w); [| exact Iw].
    apply setLinkMonitoring_view; view_side.
  - apply (handlers_by_view w); [| exact Iw].
    apply setAutoReconnect_handler_view.
  - apply (handlers_by_view w); [| exact Iw].
    apply setMacAddress_view; view_side.
  - apply (handlers_by_view w); [| exact Iw].
    apply resetStatistics_view; view_side.
  - apply (handlers_by_view w); [| exact Iw].
    apply setConnectedCallback_view; view_side.
  - apply (handlers_by_view w); [| exact Iw].
    apply setDisconnectedCallback_view; view_side.
  - apply (handlers_by_view w); [| exact Iw].
    apply setStateChangeCallback_view; view_side.
  - apply (handlers_by_view w); [| exact Iw].
    apply setLinkStatusCallback_view; view_side.
Qed.

Lemma run_keeps_handlers (ops : list Operation) :
  Forall (environment_keeps handlers_need_group) ops ->
  forall w : World, handlers_need_group w -> handlers_need_group (run ops w).
Proof.
  induction 1 as [| op rest Hop _ IH]; intros w Iw; [exact Iw |].
  cbn [run]. apply IH. apply perform_keeps_handlers; assumption.
Qed.

Lemma boot_handlers (p : Platform) (now : Z) :
  handlers_need_group (boot p now).
Proof. intro H. discriminate H. Qed.

(** *** A long session: the counter at its last value *)

Lemma onEthEvent_ethEventGroup_present (b : option esp_event_base_t)
  (id : Z) (w : World) :
  ethEventGroup (inst w) <> None ->
  ethEventGroup (inst (onEthEvent b id w)) <> None.
Proof.
  intros Hg.
  pose proof (onEthEvent_handler_view b id w) as H.
  unfold handler_view in H. injection H as _ H.
  destruct (ethEventGroup (inst (onEthEvent b id w)));
    [discriminate |].
  destruct (ethEventGroup (inst w)); [discriminate H | contradiction].
Qed.

Lemma onEthEvent_eventHandlersRegistered (b : option esp_event_base_t)
  (id : Z) (w : World) :
  eventHandlersRegistered (inst (onEthEvent b id w))
  = eventHandlersRegistered (inst w).
Proof. exact (f_equal fst (onEthEvent_handler_view b id w)). Qed.

Lemma run_app (ops ops' : list Operation) (w : World) :
  run (ops ++ ops') w = run ops' (run ops w).
Proof.
  revert w. induction ops as [| op rest IH]; intro w; [reflexivity |].
  cbn [app run]. apply IH.
Qed.

(** [n] events of one kind in a row. *)
Lemma repeated_events_counted (b : esp_event_base_t) (id : Z) (n : nat) :
  forall w : World,
    ethEventGroup (inst w) <> None ->
    0 <= totalEventCount (inst w) ->
    totalEventCount (inst w) + Z.of_nat n < 2 ^ 32 ->
    let w' := run (repeat (Event (Some b) id) n) w in
    ethEventGroup (inst w') <> None /\
    eventHandlersRegistered (inst w') = eventHandlersRegistered (inst w) /\
    totalEventCount (inst w') = totalEventCount (inst w) + Z.of_nat n.
Proof.
  induction n as [| n IH]; intros w Hg H0 Hn.
  - cbn [repeat run]. cbv zeta. split; [exact Hg | split; [reflexivity | lia]].
  - cbn [repeat run perform]. cbv zeta.
    pose proof (event_counted_past_guards (Some b) id w) as Hc.
    cbv zeta in Hc.
    destruct (ethEventGroup (inst w)) as [g |] eqn:Eg; [| contradiction].
    rewrite u32_small in Hc by lia.
    assert (Hg' : ethEventGroup (inst (onEthEvent (Some b) id w)) <> None).
    { apply onEthEvent_ethEventGroup_present. rewrite Eg. discriminate. }
    pose proof (onEthEvent_eventHandlersRegistered (Some b) id w) as Hr.
    destruct (IH (onEthEvent (Some b) id w) Hg') as (I1 & I2 & I3);
      [lia | lia |].
    split; [exact I1 | split; [congruence | lia]].
Qed.

(** ** The address flag through a session *)

Lemma address_by_view (w w' : World) :
  gotIpAtLeastOnce (inst w') = gotIpAtLeastOnce (inst w) ->
  address_held w -> address_held w'.
Proof. unfold address_held. intros H Iw. rewrite H. exact Iw. Qed.

Lemma earlyInit_gotIpAtLeastOnce (w : World) :
  gotIpAtLeastOnce (inst (snd (earlyInit w))) = gotIpAtLeastOnce (inst w).
Proof.
  destruct w as [m now p tr]; destruct m; destruct p.
  unfold earlyInit, emit, upd. cbn.
  split_inner; reflexivity.
Qed.

Lemma earlyInit_address (w : World) :
  address_held w -> address_held (snd (earlyInit w)).
Proof. apply address_by_view, earlyInit_gotIpAtLeastOnce. Qed.

Lemma attemptReconnect_gotIpAtLeastOnce (w : World) :
  gotIpAtLeastOnce (inst (attemptReconnect w)) = gotIpAtLeastOnce (inst w).
Proof.
  open_now w. unfold attemptReconnect, upd. cbn. split_cases; reflexivity.
Qed.

Lemma setAutoReconnect_gotIpAtLeastOnce (enable : bool) (N D M : Z)
  (w : World) :
  gotIpAtLeastOnce (inst (setAutoReconnect enable N D M w))
  = gotIpAtLeastOnce (inst w).
Proof.
  open_now w. unfold setAutoReconnect, upd. cbn. split_cases; reflexivity.
Qed.

(** Below the trust window the disconnect branch returns at once. *)
Lemma onEthDisconnected_within_window (w : World) :
  gotIpAtLeastOnce (inst w) = true ->
  (elapsed w <? ETH_CONNECTION_TRUST_WINDOW_MS) = true ->
  onEthDisconnected w = w.
Proof.
  intros Hgot Hwin. unfold onEthDisconnected, elapsed in *. cbv zeta.
  rewrite Hgot, Hwin. reflexivity.
Qed.

(** An event that is not a confirmed loss leaves the address held. *)
Lemma onEthEvent_keeps_address (base : option esp_event_base_t) (id : Z)
  (w : World) :
  confirmed_loss base id w = false ->
  address_held w -> address_held (onEthEvent base id w).
Proof.
  unfold confirmed_loss, address_held. intros Hloss Hgot.
  unfold onEthEvent.
  destruct base as [b |]; [| exact Hgot].
  destruct (ethEventGroup (inst w)) as [g |]; [| exact Hgot].
  cbv zeta.
  set (w1 := upd _ w).
  assert (H1 : gotIpAtLeastOnce (inst w1) = true) by exact Hgot.
  assert (E1 : elapsed w1 = elapsed w) by reflexivity.
  destruct b.
  - destruct (id =? IP_EVENT_GOT_IP); [apply onGotIp_sets_flag | exact H1].
  - rewrite Hgot in Hloss. unfold link_lost in Hloss.
    destruct (id =? ETHERNET_EVENT_START); [exact H1 |].
    destruct (id =? ETHERNET_EVENT_CONNECTED).
    + unfold onEthConnected. cbv zeta.
      rewrite updateLinkStatus_gotIpAtLeastOnce,
        changeState_gotIpAtLeastOnce.
      exact Hgot.
    + destruct (_ || _); [| exact H1].
      cbn [andb] in Hloss. apply negb_false_iff in Hloss.
      rewrite <- E1 in Hloss.
      rewrite (onEthDisconnected_within_window w1 H1 Hloss). exact H1.
  - exact H1.
Qed.

Lemma perform_keeps_address (op : Operation) (w : World) :
  keeps_address op w -> address_held w -> address_held (perform op w).
Proof.
  intros Hop Iw.
  destruct op; cbn [perform]; cbn [keeps_address] in Hop;
    try contradiction;
    unfold environment_keeps in Hop; cbn [environment] in Hop.
  - exact Iw.
  - apply onEthEvent_keeps_address; assumption.
  - match goal with
    | |- context [landed ?r w] => destruct r as [[b w'] |] eqn:H
    end; [| exact Iw].
    cbn [landed].
    refine (internalInit_keeps gotIpAtLeastOnce _ _ _ _ _ _ _ _
              _ _ _ _ _ _ address_held
              address_by_view earlyInit_address _ _ _ _ _ _ _ _ _ _ _ _ _ _
              H Iw); try view_side.
    intros ->. exact Hop.
  - match goal with
    | |- context [landed ?r w] => destruct r as [[b w'] |] eqn:H
    end; [| exact Iw].
    cbn [landed].
    refine (internalInitStatic_keeps gotIpAtLeastOnce _ _ _ _ _ _ _ _
              _ _ _ _ address_held
              address_by_view earlyInit_address _ _ _ _ _ _ _ _ _ _ _ _ _ _
              _ _ Hop H Iw); view_side.
  - apply earlyInit_address. exact Iw.
  - match goal with
    | |- context [landed ?r w] => destruct r as [[b w'] |] eqn:H
    end; [| exact Iw].
    cbn [landed].
    refine (waitForConnection_keeps gotIpAtLeastOnce _ _ _ _ _ _ _ _
              address_held address_by_view _ _ _ _ _ _ Hop H Iw);
      view_side.
  - apply (address_by_view w); [| exact Iw].
    apply (checkLinkStatus_view gotIpAtLeastOnce); view_side.
  - apply (address_by_view w); [| exact Iw].
    apply (updateLinkStatus_view gotIpAtLeastOnce); view_side.
  - unfold reconnectTimerExpires.
    destruct (reconnectTimer (inst w)) as [t |]; [| exact Iw].
    destruct (active t); [| exact Iw].
    apply (address_by_view w); [| exact Iw].
    rewrite attemptReconnect_gotIpAtLeastOnce. reflexivity.
  - apply (address_by_view w); [| exact Iw].
    apply (setLinkMonitoring_view gotIpAtLeastOnce); view_side.
  - apply (address_by_view w); [| exact Iw].
    apply setAutoReconnect_gotIpAtLeastOnce.
  - apply (address_by_view w); [| exact Iw].
    apply (setMacAddress_view gotIpAtLeastOnce); view_side.
  - apply (address_by_view w); [| exact Iw].
    apply (resetStatistics_view gotIpAtLeastOnce); view_side.
  - apply (address_by_view w); [| exact Iw].
    apply (setConnectedCallback_view gotIpAtLeastOnce); view_side.
  - apply (address_by_view w); [| exact Iw].
    apply (setDisconnectedCallback_view gotIpAtLeastOnce); view_side.
  - apply (address_by_view w); [| exact Iw].
    apply (setStateChangeCallback_view gotIpAtLeastOnce); view_side.
  - apply (address_by_view w); [| exact Iw].
    apply (setLinkStatusCallback_view gotIpAtLeastOnce); view_side.
Qed.

Lemma run_keeps_address (ops : list Operation) :
  forall w : World,
    address_kept ops w -> address_held w -> address_held (run ops w).
Proof.
  induction ops as [| op rest IH]; intros w Hops Iw; [exact Iw |].
  cbn [address_kept] in Hops. destruct Hops as [Hop Hrest].
  cbn [run]. apply IH; [exact Hrest |].
  apply perform_keeps_address; assumption.
Qed.

(** ** The reconnect settings through a session *)

Lemma armed_by_view (N D M : Z) (w w' : World) :
  reconnect_view (inst w') = reconnect_view (inst w) ->
  armed N D M w -> armed N D M w'.
Proof.
  unfold reconnect_view, armed.
  intros H (H1 & H2 & H3 & H4 & H5 & H6 & H7 & H8).
  injection H as -> -> -> -> -> -> -> ->.
  repeat split; assumption.
Qed.

Lemma reconnect_view_bits (f : EventBits_t -> EventBits_t)
  (m : EthernetManager) :
  reconnect_view (set_ethEventGroup (option_map f (ethEventGroup m)) m)
  = reconnect_view m.
Proof. reflexivity. Qed.

Lemma earlyInit_reconnect_view (w : World) :
  reconnect_view (inst (snd (earlyInit w))) = reconnect_view (inst w).
Proof.
  destruct w as [m now p tr]; destruct m; destruct p.
  unfold earlyInit, emit, upd. cbn.
  split_inner; reflexivity.
Qed.

Lemma earlyInit_armed (N D M : Z) (w : World) :
  armed N D M w -> armed N D M (snd (earlyInit w)).
Proof. apply armed_by_view, earlyInit_reconnect_view. Qed.

(** The address event restarts the backoff from the initial delay and
    leaves the timer alone. *)
Lemma onGotIp_armed (N D M : Z) (w : World) :
  armed N D M w -> armed N D M (onGotIp w).
Proof.
  unfold armed. intros (H1 & H2 & H3 & H4 & H5 & H6 & H7 & H8).
  open_now w. cbn in H1, H2, H3, H4, H5, H6, H7, H8. subst.
  unfold onGotIp, changeState, invoke, emit, upd. cbn.
  split_cases; repeat split; reflexivity || assumption.
Qed.

Lemma onEthDisconnected_unconfirmed (w : World) :
  gotIpAtLeastOnce (inst w)
  && negb (elapsed w <? ETH_CONNECTION_TRUST_WINDOW_MS) = false ->
  onEthDisconnected w = w.
Proof.
  intro H. unfold onEthDisconnected, elapsed in *. cbv zeta.
  destruct (gotIpAtLeastOnce (inst w)); [| reflexivity].
  cbn [andb negb] in *. apply negb_false_iff in H. rewrite H. reflexivity.
Qed.

(** An event that is not a confirmed loss leaves the timer armed. *)
Lemma onEthEvent_leaves_armed (N D M : Z) (base : option esp_event_base_t)
  (id : Z) (w : World) :
  confirmed_loss base id w = false ->
  armed N D M w -> armed N D M (onEthEvent base id w).
Proof.
  unfold confirmed_loss. intros Hloss Iw.
  unfold onEthEvent.
  destruct base as [b |]; [| exact Iw].
  destruct (ethEventGroup (inst w)) as [g |]; [| exact Iw].
  cbv zeta.
  set (w1 := upd _ w).
  assert (I1 : armed N D M w1) by exact Iw.
  assert (E1 : elapsed w1 = elapsed w) by reflexivity.
  assert (G1 : gotIpAtLeastOnce (inst w1) = gotIpAtLeastOnce (inst w))
    by reflexivity.
  destruct b.
  - destruct (id =? IP_EVENT_GOT_IP); [apply onGotIp_armed |]; exact I1.
  - unfold link_lost in Hloss.
    destruct (id =? ETHERNET_EVENT_START); [exact I1 |].
    destruct (id =? ETHERNET_EVENT_CONNECTED).
    + apply (armed_by_view N D M w1); [| exact I1].
      apply (onEthConnected_view reconnect_view); view_side.
    + destruct (_ || _); [| exact I1].
      cbn [andb] in Hloss. rewrite <- E1, <- G1 in Hloss.
      rewrite (onEthDisconnected_unconfirmed w1 Hloss). exact I1.
  - exact I1.
Qed.

Lemma perform_leaves_armed (N D M : Z) (op : Operation) (w : World) :
  leaves_armed N D M op w -> armed N D M w -> armed N D M (perform op w).
Proof.
  intros Hop Iw.
  destruct op; cbn [perform]; cbn [leaves_armed] in Hop;
    try contradiction;
    unfold environment_keeps in Hop; cbn [environment] in Hop.
  - apply (armed_by_view N D M w); [reflexivity | exact Iw].
  - apply onEthEvent_leaves_armed; assumption.
  - match goal with
    | |- context [landed ?r w] => destruct r as [[b w'] |] eqn:H
    end; [| exact Iw].
    cbn [landed].
    refine (internalInit_keeps reconnect_view _ _ _ _ _ _ _ _
              _ _ _ _ _ _ (armed N D M)
              (armed_by_view N D M) (earlyInit_armed N D M)
              _ _ _ _ _ _ _ _ _ _ _ _ _ _
              H Iw); try view_side.
    intros ->. exact Hop.
  - match goal with
    | |- context [landed ?r w] => destruct r as [[b w'] |] eqn:H
    end; [| exact Iw].
    cbn [landed].
    refine (internalInitStatic_keeps reconnect_view _ _ _ _ _ _ _ _
              _ _ _ _ (armed N D M)
              (armed_by_view N D M) (earlyInit_armed N D M)
              _ _ _ _ _ _ _ _ _ _ _ _ _ _
              _ _ Hop H Iw); view_side.
  - apply earlyInit_armed. exact Iw.
  - match goal with
    | |- context [landed ?r w] => destruct r as [[b w'] |] eqn:H
    end; [| exact Iw].
    cbn [landed].
    refine (waitForConnection_keeps reconnect_view _ _ _ _ _ _ _ _
              (armed N D M) (armed_by_view N D M) _ _ _ _ _ _ Hop H Iw);
      view_side.
  - apply (armed_by_view N D M w); [| exact Iw].
    apply (checkLinkStatus_view reconnect_view); view_side.
  - apply (armed_by_view N D M w); [| exact Iw].
    apply (updateLinkStatus_view reconnect_view); view_side.
  - unfold reconnectTimerExpires.
    destruct Iw as (H1 & H2 & H3 & H4 & H5 & H6 & H7 & H8).
    rewrite H8. cbn [active]. repeat split; assumption.
  - apply (armed_by_view N D M w); [| exact Iw].
    apply (setLinkMonitoring_view reconnect_view); view_side.
  - apply (armed_by_view N D M w); [| exact Iw].
    apply (setMacAddress_view reconnect_view); view_side.
  - apply (armed_by_view N D M w); [| exact Iw].
    apply (resetStatistics_view reconnect_view); view_side.
  - apply (armed_by_view N D M w); [| exact Iw].
    apply (setConnectedCallback_view reconnect_view); view_side.
  - apply (armed_by_view N D M w); [| exact Iw].
    apply (setDisconnectedCallback_view reconnect_view); view_side.
  - apply (armed_by_view N D M w); [| exact Iw].
    apply (setStateChangeCallback_view reconnect_view); view_side.
  - apply (armed_by_view N D M w); [| exact Iw].
    apply (setLinkStatusCallback_view reconnect_view); view_side.
Qed.

Lemma run_leaves_armed (N D M : Z) (ops : list Operation) :
  forall w : World,
    undisturbed N D M ops w -> armed N D M w -> armed N D M (run ops w).
Proof.
  induction ops as [| op rest IH]; intros w Hops Iw; [exact Iw |].
  cbn [undisturbed] in Hops. destruct Hops as [Hop Hrest].
  cbn [run]. apply IH; [exact Hrest |].
  apply perform_leaves_armed; assumption.
Qed.

(** [setAutoReconnect(true, N, D, M)] on a manager without a reconnect
    timer creates the timer with period [D] and leaves it dormant. *)
Lemma setAutoReconnect_arms (N D M : Z) (w : World) :
  MutexGuard (ethMutex (inst w)) = true ->
  reconnectTimer (inst w) = None ->
  timer_alloc (platform w) = true ->
  armed N D M (setAutoReconnect true N D M w).
Proof.
  intros Hlock Htimer Halloc.
  destruct (setAutoReconnect_creates_timer w N D M Hlock Htimer Halloc)
    as ((Hm & _) & Hen & HN & Hatt & HM & HD & Ht).
  unfold armed. rewrite Hm.
  repeat split; try assumption.
  clear Hm Hen HN Hatt HM HD Ht Htimer Halloc.
  open_now w. cbn in Hlock. unfold setAutoReconnect, upd. cbn.
  rewrite Hlock. cbn. split_cases; reflexivity.
Qed.

(** The first confirmed loss starts the armed timer. *)
Lemma confirmed_loss_starts_backoff (N D M : Z) (id : Z) (w : World) :
  armed N D M w ->
  confirmed_loss (Some ETH_EVENT) id w = true ->
  backing_off N D M 0 (onEthEvent (Some ETH_EVENT) id w).
Proof.
  intros (H1 & H2 & H3 & H4 & H5 & H6 & H7 & H8) Hloss.
  unfold confirmed_loss in Hloss.
  destruct (ethEventGroup (inst w)) as [g |] eqn:Hg; [| discriminate Hloss].
  apply andb_true_iff in Hloss. destruct Hloss as [Hloss Hwin].
  apply andb_true_iff in Hloss. destruct Hloss as [Hid Hgot].
  apply negb_true_iff, Z.ltb_ge in Hwin.
  rewrite (onEthEvent_link_lost w id g Hid Hg).
  set (w1 := upd _ w).
  destruct (onEthDisconnected_starts_timer w1 (mkTimer D false))
    as (Hm' & HN' & Hatt' & HM' & HD' & Ht'); try assumption.
  unfold backing_off.
  rewrite Hm', HN', Hatt', HM', HD', Ht'. subst w1. fields.
  rewrite H3, H5, H6, H7.
  repeat split; try reflexivity. exact H1.
Qed.

(** ** A quiet environment keeps all three *)

Lemma idle_keeps_handlers : keeps handlers_need_group idle.
Proof. intros w t Iw. exact Iw. Qed.

Lemma idle_keeps_address : keeps address_held idle.
Proof. intros w t Iw. exact Iw. Qed.

Lemma idle_keeps_armed (N D M : Z) : keeps (armed N D M) idle.
Proof. intros w t Iw. exact Iw. Qed.

(** * The event counter of a running manager *)

(** C9. The event loop calls the handler only while it is registered, and
    in every world a session reaches from the constructor (whatever runs
    while a start or a wait blocks keeping the handlers registered only
    with the event group present, as every operation does) the handlers
    are registered only while the event group exists; registration is per
    event base, so the base is never null.  Every such invocation,
    whatever the base and identifier and however the event is classified,
    adds one to [totalEventCount] as [uint32_t]: exactly 1 below
    [UINT32_MAX], and from [UINT32_MAX] the counter returns to 0. *)
Theorem event_counted_whenever_registered (p : Platform) (now : Z)
  (ops : list Operation) (b : esp_event_base_t) (id : Z) :
  Forall (environment_keeps handlers_need_group) ops ->
  let w := run ops (boot p now) in
  eventHandlersRegistered (inst w) = true ->
  let w' := onEthEvent (Some b) id w in
  ethEventGroup (inst w) <> None /\
  totalEventCount (inst w') = u32 (totalEventCount (inst w) + 1) /\
  (0 <= totalEventCount (inst w) < UINT32_MAX ->
     totalEventCount (inst w') = totalEventCount (inst w) + 1) /\
  (totalEventCount (inst w) = UINT32_MAX -> totalEventCount (inst w') = 0).
Proof.
  intros Hops w Hreg w'.
  assert (Hg : ethEventGroup (inst w) <> None)
    by (apply (run_keeps_handlers ops Hops _ (boot_handlers p now)), Hreg).
  split; [exact Hg |].
  pose proof (event_counted_past_guards (Some b) id w) as Hc.
  cbv zeta in Hc. fold w' in Hc.
  destruct (ethEventGroup (inst w)) as [g |]; [| contradiction].
  split; [exact Hc |]. split.
  - intro H. rewrite Hc. apply u32_succ. exact H.
  - intro H. rewrite Hc, H. reflexivity.
Qed.

Lemma event_counted_whenever_registered_witness :
  let w :=
    run [Start idle 60 sample_hostname 0 23 18 (-1) 0 None true]
      (boot good_platform 1000) in
  eventHandlersRegistered (inst w) = true /\
  totalEventCount
    (inst (onEthEvent (Some ETH_EVENT) ETHERNET_EVENT_CONNECTED w))
  = totalEventCount (inst w) + 1.
Proof.
  cbv zeta.
  set (ops := [Start idle 60 sample_hostname 0 23 18 (-1) 0 None true]).
  assert (Hops : Forall (environment_keeps handlers_need_group) ops)
    by (repeat constructor; exact idle_keeps_handlers).
  assert (Hreg : eventHandlersRegistered
                   (inst (run ops (boot good_platform 1000))) = true)
    by (vm_compute; reflexivity).
  split; [exact Hreg |].
  apply (event_counted_whenever_registered good_platform 1000 ops
           ETH_EVENT ETHERNET_EVENT_CONNECTED Hops Hreg).
  vm_compute. split; [discriminate | reflexivity].
Defined.

Lemma counter_at_its_last_value (n : nat) :
  Z.of_nat n = UINT32_MAX ->
  let flood := repeat (Event (Some ETH_EVENT) ETHERNET_EVENT_START) n in
  let w := run (EarlyInit :: flood) (boot good_platform 1000) in
  let w' := onEthEvent (Some ETH_EVENT) ETHERNET_EVENT_START w in
  eventHandlersRegistered (inst w) = true /\
  totalEventCount (inst w) = UINT32_MAX /\
  totalEventCount (inst w') = 0 /\
  totalEventCount (inst w') <> totalEventCount (inst w) + 1.
Proof.
  intros Hn. cbv zeta. cbn [run].
  set (w0 := perform EarlyInit (boot good_platform 1000)).
  assert (Hg0 : ethEventGroup (inst w0) <> None)
    by (vm_compute; discriminate).
  assert (Hr0 : eventHandlersRegistered (inst w0) = true)
    by (vm_compute; reflexivity).
  assert (Hc0 : totalEventCount (inst w0) = 0)
    by (vm_compute; reflexivity).
  clearbody w0.
  destruct (repeated_events_counted ETH_EVENT ETHERNET_EVENT_START n w0 Hg0)
    as (Hg & Hr & Hc).
  { lia. }
  { rewrite Hc0, Hn. unfold UINT32_MAX. lia. }
  set (w := run _ w0) in *. clearbody w.
  rewrite Hc0, Hn in Hc. cbn [Z.add] in Hc.
  pose proof (event_counted_past_guards (Some ETH_EVENT)
                ETHERNET_EVENT_START w) as He.
  cbv zeta in He.
  destruct (ethEventGroup (inst w)) as [g |]; [| contradiction].
  rewrite He, Hc.
  split; [congruence |]. split; [reflexivity |]. split; [reflexivity |].
  vm_compute. discriminate.
Qed.

(** After 4294967295 events the next one takes the counter back to 0:
    the handler is registered, the event is counted, and the counter does
    not grow by 1. *)
Lemma event_count_wraps_to_zero :
  let flood :=
    repeat (Event (Some ETH_EVENT) ETHERNET_EVENT_START)
      (Z.to_nat UINT32_MAX) in
  let w := run (EarlyInit :: flood) (boot good_platform 1000) in
  let w' := onEthEvent (Some ETH_EVENT) ETHERNET_EVENT_START w in
  eventHandlersRegistered (inst w) = true /\
  totalEventCount (inst w) = UINT32_MAX /\
  totalEventCount (inst w') = 0 /\
  totalEventCount (inst w') <> totalEventCount (inst w) + 1.
Proof.
  apply counter_at_its_last_value. apply Z2Nat.id. discriminate.
Qed.

(** * The trust window over a session *)

Lemma address_event_holds_address (w : World) :
  ethEventGroup (inst w) <> None ->
  address_held (onEthEvent (Some IP_EVENT) IP_EVENT_GOT_IP w).
Proof.
  intro Hg. unfold onEthEvent, address_held.
  destruct (ethEventGroup (inst w)); [| contradiction].
  cbv zeta. change (IP_EVENT_GOT_IP =? IP_EVENT_GOT_IP) with true.
  cbv iota. apply onGotIp_sets_flag.
Qed.

Lemma onEthDisconnected_clears_flag (w : World) :
  gotIpAtLeastOnce (inst w) = true ->
  ETH_CONNECTION_TRUST_WINDOW_MS <= elapsed w ->
  gotIpAtLeastOnce (inst (onEthDisconnected w)) = false.
Proof.
  intros Hgot Hwin. unfold elapsed in Hwin. apply Z.ltb_ge in Hwin.
  open_now w. cbn in Hgot, Hwin. subst.
  unfold onEthDisconnected, changeState, invoke, emit, upd. cbn.
  rewrite Hwin. split_cases; reflexivity.
Qed.

(** C1. The address is held from the handling of an address-acquired
    event until a confirmed loss, [disconnect], [resetInterface] or
    [cleanup].  A link-lost or PHY-stopped event that the handler receives
    while the address is held is ignored when the time since
    [connectionStartTime] is below the trust window (state, signal bits,
    statistics and callbacks untouched); at or past the window the state
    becomes [LINK_DOWN], [disconnectCount] and [linkDownEvents] are each
    incremented once (as [uint32_t], so by exactly 1 below [UINT32_MAX]),
    and the address is no longer held: whatever events follow, as long as
    none is the address-acquired event, every later link-lost or
    PHY-stopped event is ignored however long the link has been up. *)
Theorem link_lost_trust_window (w0 : World) (ops : list Operation)
  (id : Z) :
  ethEventGroup (inst w0) <> None ->
  let w1 := onEthEvent (Some IP_EVENT) IP_EVENT_GOT_IP w0 in
  address_kept ops w1 ->
  let w := run ops w1 in
  ethEventGroup (inst w) <> None ->
  link_lost id = true ->
  let w' := onEthEvent (Some ETH_EVENT) id w in
  (elapsed w < ETH_CONNECTION_TRUST_WINDOW_MS ->
     connectionState (inst w') = connectionState (inst w) /\
     previousState (inst w') = previousState (inst w) /\
     ethEventGroup (inst w') = ethEventGroup (inst w) /\
     stats (inst w') = stats (inst w) /\
     trace w' = trace w) /\
  (ETH_CONNECTION_TRUST_WINDOW_MS <= elapsed w ->
     connectionState (inst w') = LINK_DOWN /\
     disconnectCount (stats (inst w'))
       = u32 (disconnectCount (stats (inst w)) + 1) /\
     linkDownEvents (stats (inst w'))
       = u32 (linkDownEvents (stats (inst w)) + 1) /\
     (0 <= disconnectCount (stats (inst w)) < UINT32_MAX ->
        disconnectCount (stats (inst w'))
          = disconnectCount (stats (inst w)) + 1) /\
     (0 <= linkDownEvents (stats (inst w)) < UINT32_MAX ->
        linkDownEvents (stats (inst w'))
          = linkDownEvents (stats (inst w)) + 1) /\
     forall (ds : list Delivery) (t id' : Z),
       forallb (fun d => negb (is_address_acquired d)) ds = true ->
       link_lost id' = true ->
       let v := set_millis t (deliver ds w') in
       let v' := onEthEvent (Some ETH_EVENT) id' v in
       connectionState (inst v') = connectionState (inst v) /\
       previousState (inst v') = previousState (inst v) /\
       ethEventGroup (inst v') = ethEventGroup (inst v) /\
       stats (inst v') = stats (inst v) /\
       trace v' = trace v).
Proof.
  intros Hg0 w1 Hops w Hg Hid w'.
  assert (Hgot : gotIpAtLeastOnce (inst w) = true).
  { apply (run_keeps_address ops w1 Hops).
    apply address_event_holds_address. exact Hg0. }
  assert (Eg : exists g, ethEventGroup (inst w) = Some g)
    by (destruct (ethEventGroup (inst w)) as [g |];
        [exists g; reflexivity | contradiction]).
  destruct Eg as [g Eg].
  destruct (trust_window_while_flag_set w id g Hid Hgot Eg)
    as [Hin Hout].
  split; [exact Hin |].
  intro Hwin. destruct (Hout Hwin) as (H1 & H2 & H3 & H4 & H5).
  do 5 (split; [assumption |]).
  intros ds t id' Hds Hid' v v'.
  assert (Hclear : gotIpAtLeastOnce (inst w') = false).
  { subst w'. rewrite (onEthEvent_link_lost w id g Hid Eg).
    apply onEthDisconnected_clears_flag; [exact Hgot | exact Hwin]. }
  assert (Hv : gotIpAtLeastOnce (inst v) = false).
  { subst v. cbn [inst set_millis].
    apply deliver_keeps_flag_clear; assumption. }
  destruct (link_lost_ignored_while_flag_clear v id' Hid' Hv)
    as (I1 & I2 & I3 & I4 & _ & I5).
  subst v'. repeat split; assumption.
Qed.

Lemma link_lost_trust_window_witness :
  let w :=
    run [Clock 2000; Event (Some ETH_EVENT) ETHERNET_EVENT_STOP;
         Wait idle 60 100; Clock 5000]
      connected in
  let w' := onEthEvent (Some ETH_EVENT) ETHERNET_EVENT_DISCONNECTED w in
  connectionState (inst w) = CONNECTED /\
  connectionState (inst w') = LINK_DOWN /\
  disconnectCount (stats (inst w'))
  = disconnectCount (stats (inst w)) + 1.
Proof.
  cbv zeta.
  set (ops := [Clock 2000; Event (Some ETH_EVENT) ETHERNET_EVENT_STOP;
               Wait idle 60 100; Clock 5000]).
  assert (Hg0 : ethEventGroup (inst (set_millis 1500 link_up)) <> None)
    by (vm_compute; discriminate).
  assert (Hops : address_kept ops
                   (onEthEvent (Some IP_EVENT) IP_EVENT_GOT_IP
                      (set_millis 1500 link_up))).
  { subst ops. cbn [address_kept keeps_address].
    split; [exact I |]. split; [vm_compute; reflexivity |].
    split; [exact idle_keeps_address |]. split; exact I. }
  assert (Hg : ethEventGroup
                 (inst (run ops
                          (onEthEvent (Some IP_EVENT) IP_EVENT_GOT_IP
                             (set_millis 1500 link_up)))) <> None)
    by (vm_compute; discriminate).
  destruct (link_lost_trust_window (set_millis 1500 link_up) ops
              ETHERNET_EVENT_DISCONNECTED Hg0 Hops Hg eq_refl)
    as [_ Hout].
  destruct Hout as (H1 & _ & _ & H4 & _); [vm_compute; discriminate |].
  split; [vm_compute; reflexivity |]. split; [exact H1 |].
  apply H4. vm_compute. split; [discriminate | reflexivity].
Defined.

(** An address was acquired at 1500 ms and the link lost for good at
    5000 ms; the cable is plugged again at 6000 ms.  The link-lost event
    at 10000 ms comes 4000 ms after [connectionStartTime], past the trust
    window, and is ignored: no [LINK_DOWN], no counter. *)
Lemma link_lost_after_confirmed_loss_ignored :
  let lost := onEthEvent (Some ETH_EVENT) ETHERNET_EVENT_DISCONNECTED
                (set_millis 5000 connected) in
  let plugged := onEthEvent (Some ETH_EVENT) ETHERNET_EVENT_CONNECTED
                   (set_millis 6000 lost) in
  let w := set_millis 10000 plugged in
  let w' := onEthEvent (Some ETH_EVENT) ETHERNET_EVENT_DISCONNECTED w in
  gotIpAtLeastOnce (inst connected) = true /\
  elapsed w = 4000 /\
  ETH_CONNECTION_TRUST_WINDOW_MS <= elapsed w /\
  connectionState (inst w') = OBTAINING_IP /\
  connectionState (inst w') <> LINK_DOWN /\
  disconnectCount (stats (inst w')) = disconnectCount (stats (inst w)) /\
  linkDownEvents (stats (inst w')) = linkDownEvents (stats (inst w)).
Proof.
  vm_compute.
  split; [reflexivity |]. split; [reflexivity |].
  split; [discriminate |]. split; [reflexivity |].
  split; [discriminate |]. split; reflexivity.
Qed.

(** * The backoff after the first confirmed loss *)

(** C2.  [setAutoReconnect(true, N, D, M)] creates the reconnect timer;
    the session goes on with anything but a confirmed loss, [cleanup],
    [disconnect], [resetInterface] or another [setAutoReconnect] (starts,
    events, waits, polls and settings, in any number and order); then the
    first confirmed loss starts the timer.  With only the passing of time
    between the expiries, the delays before the successive expiries are
    [D, min(2D,M), min(4D,M), ...]; when [D <= M] they never decrease and
    never exceed [M]; and for [N > 0] the timer expires [N + 1] times: each
    of the first [N] expiries starts it again, the last one finds the limit
    exceeded, disables reconnection and leaves the timer dormant. *)
Theorem reconnect_backoff_sequence (w0 : World) (ops : list Operation)
  (id : Z) (N D M : Z) (n : nat) :
  MutexGuard (ethMutex (inst w0)) = true ->
  reconnectTimer (inst w0) = None ->
  timer_alloc (platform w0) = true ->
  0 < D < 2 ^ 31 -> 0 < M < 2 ^ 31 -> 0 <= N < 255 ->
  let w1 := setAutoReconnect true N D M w0 in
  undisturbed N D M ops w1 ->
  let w2 := run ops w1 in
  confirmed_loss (Some ETH_EVENT) id w2 = true ->
  let w := onEthEvent (Some ETH_EVENT) id w2 in
  let ds := fst (reconnectDelays n w) in
  ds = map (backoff_delay D M) (seq 0 (firings N n 0)) /\
  (D <= M -> Forall (fun d => d <= M) ds /\ non_decreasing ds) /\
  (0 < N -> (Z.to_nat N < n)%nat ->
   List.length ds = (Z.to_nat N + 1)%nat /\
   gave_up (snd (reconnectDelays n w))).
Proof.
  intros Hlock Htimer Halloc HD HM HN w1 Hops w2 Hloss w ds.
  assert (Harmed : backing_off N D M 0 w).
  { apply confirmed_loss_starts_backoff; [| exact Hloss].
    apply run_leaves_armed; [exact Hops |].
    apply setAutoReconnect_arms; assumption. }
  destruct (reconnectDelays_backing_off N D M HD HM HN n 0%nat w Harmed)
    as [Hds Hend]; [lia |].
  fold ds in Hds. split; [exact Hds |]. split.
  - intro HDM. rewrite Hds.
    apply backoff_delays_bounded_monotone. lia.
  - intros Hpos Hn. split.
    + rewrite Hds, length_map, length_seq. unfold firings.
      destruct (N =? 0) eqn:E; [apply Z.eqb_eq in E; lia | lia].
    + apply Hend; [exact Hpos | lia].
Qed.

(** The usual order: the setting first, then the start, the link, the
    address, and the loss at 5000 ms. *)
Lemma reconnect_backoff_sequence_witness :
  let ops :=
    [Start idle 60 sample_hostname 0 23 18 (-1) 0 None false;
     Clock 1200; Event (Some ETH_EVENT) ETHERNET_EVENT_CONNECTED;
     Clock 1500; Event (Some IP_EVENT) IP_EVENT_GOT_IP;
     Wait idle 60 100; Clock 5000] in
  let w := onEthEvent (Some ETH_EVENT) ETHERNET_EVENT_DISCONNECTED
             (run ops (setAutoReconnect true 3 1000 10000 booted)) in
  fst (reconnectDelays 10 w) = [1000; 2000; 4000; 8000].
Proof.
  cbv zeta.
  set (ops :=
    [Start idle 60 sample_hostname 0 23 18 (-1) 0 None false;
     Clock 1200; Event (Some ETH_EVENT) ETHERNET_EVENT_CONNECTED;
     Clock 1500; Event (Some IP_EVENT) IP_EVENT_GOT_IP;
     Wait idle 60 100; Clock 5000]).
  assert (Hops : undisturbed 3 1000 10000 ops
                   (setAutoReconnect true 3 1000 10000 booted)).
  { subst ops. cbn [undisturbed leaves_armed].
    split; [exact I |]. split; [exact I |].
    split; [vm_compute; reflexivity |]. split; [exact I |].
    split; [vm_compute; reflexivity |].
    split; [exact (idle_keeps_armed 3 1000 10000) |]. split; exact I. }
  assert (Hloss : confirmed_loss (Some ETH_EVENT) ETHERNET_EVENT_DISCONNECTED
                    (run ops (setAutoReconnect true 3 1000 10000 booted))
                  = true)
    by (vm_compute; reflexivity).
  assert (HD : 0 < 1000 < 2 ^ 31) by (split; reflexivity).
  assert (HM : 0 < 10000 < 2 ^ 31) by (split; reflexivity).
  assert (HN : 0 <= 3 < 255) by (split; [discriminate | reflexivity]).
  pose proof (proj1 (reconnect_backoff_sequence booted ops
                       ETHERNET_EVENT_DISCONNECTED 3 1000 10000 10
                       eq_refl eq_refl eq_refl HD HM HN Hops Hloss)) as H.
  vm_compute in H. vm_compute. exact H.
Defined.

(** Why the first loss: the address event restarts the attempt counter
    and the stored delay but not the period of the timer, so a second
    confirmed loss finds the timer with the period the backoff left. *)
Lemma reconnect_delays_after_second_loss :
  let lost := onEthEvent (Some ETH_EVENT) ETHERNET_EVENT_DISCONNECTED
                (setAutoReconnect true 0 1000 30000
                   (set_millis 5000 connected)) in
  let retried := match reconnectTimerExpires lost with
                 | Some w => w
                 | None => lost
                 end in
  let again := onEthEvent (Some IP_EVENT) IP_EVENT_GOT_IP
                 (onEthEvent (Some ETH_EVENT) ETHERNET_EVENT_CONNECTED
                    retried) in
  let lost_again := onEthEvent (Some ETH_EVENT) ETHERNET_EVENT_DISCONNECTED
                      (set_millis 20000 again) in
  fst (reconnectDelays 3 lost_again) = [2000; 2000; 4000].
Proof. vm_compute. reflexivity. Qed.

(** ** The initialisers as sessions *)

Lemma initialize_as_session (env : Blocking) (fuel : nat)
  (hostname : option string)
  (phy_addr mdc_pin mdio_pin power_pin clock_mode : Z) (w : World) :
  after (initialize env fuel hostname phy_addr mdc_pin mdio_pin power_pin
           clock_mode w) w
  = perform (Start env fuel hostname phy_addr mdc_pin mdio_pin power_pin
               clock_mode
               (if hasCustomMac (inst w)
                then Some (customMacAddress (inst w)) else None)
               true) w.
Proof.
  unfold initialize, after, perform, landed, to_result.
  destruct (internalInit _ _ _ _ _ _ _ _ _ _ _) as [[[] ?] |]; reflexivity.
Qed.

Lemma initializeAsync_as_session (env : Blocking) (fuel : nat)
  (hostname : option string)
  (phy_addr mdc_pin mdio_pin power_pin clock_mode : Z)
  (customMac : option (list Z)) (w : World) :
  after (initializeAsync env fuel hostname phy_addr mdc_pin mdio_pin
           power_pin clock_mode customMac w) w
  = perform (Start env fuel hostname phy_addr mdc_pin mdio_pin power_pin
               clock_mode customMac false) w.
Proof.
  unfold initializeAsync, after, perform, landed, to_result.
  destruct (internalInit _ _ _ _ _ _ _ _ _ _ _) as [[[] ?] |]; reflexivity.
Qed.

(** [initialize(config)] with auto-reconnect enabled is such a session:
    the MAC address, then [setAutoReconnect], then the start, then the
    link monitoring when the start succeeded. *)
Lemma initialize_config_as_session (env : Blocking) (fuel : nat)
  (config : EthernetConfig) (w w' : World) (r : EthResult) :
  use_static_ip config = false ->
  enable_auto_reconnect config = true ->
  initialize_config env fuel config w = Some (r, w') ->
  w' = run (Start env fuel (hostname config) (phy_addr config)
              (mdc_pin config) (mdio_pin config) (power_pin config)
              (clock_mode config) (custom_mac config) true
            :: match r with
               | ResOk =>
                   if enable_link_monitoring config
                   then [SetLinkMonitoring true (link_monitor_interval config)]
                   else []
               | ResErr _ => []
               end)
         (setAutoReconnect true (reconnect_max_retries config)
            (reconnect_initial_delay config) (reconnect_max_delay config)
            (setMacAddress (custom_mac config) w)).
Proof.
  intros Hdyn Hauto. unfold initialize_config, applyConfig. cbv zeta.
  rewrite Hdyn, Hauto. cbn [run perform].
  destruct (internalInit _ _ _ _ _ _ _ _ _ _ _) as [[[] w2] |];
    cbn [to_result finishConfig landed]; intro H;
    [| | discriminate H]; injection H as <- <-.
  - destruct (enable_link_monitoring config); reflexivity.
  - reflexivity.
Qed.
